(** * TravelMate AI: the requirements / plan lifecycle, embedded in Rocq

    A shallow embedding of the parts of the travel-agent repository that
    carry logic of their own:

    - [api/datamodels.py]: the pydantic models [Trip], [TripRequirements],
      [TripPlanModel], [TravelPlan], [HotelSuggestion], [FlightSuggestion]
      and their validators;
    - [db/db_utils.py]: the trip and trip-plan tables and the queries on them;
    - [phases/phase2_crewai/trip_agents.py]: the post-processing of the
      extractor ([info_collector]) and of the plan builder ([planner]);
    - [phases/*/trip_orchestrator.py]: [continue_trip_approval];
    - [api/app.py]: the plan-status endpoint.

    Python values are an inductive type [pyval]; a Python [dict] with string
    keys is an association list in insertion order; an exception is the
    [Raise] branch of [result]; the SQLite tables are finite maps from the
    primary key to the row. *)

From Stdlib Require Import ZArith List String Ascii Lia Bool.
From Stdlib Require Import Decimal DecimalN DecimalPos DecimalFacts.
From stdpp Require Import base option gmap strings list.
Import ListNotations.

#[local] Open Scope string_scope.
#[local] Open Scope list_scope.
#[local] Open Scope Z_scope.

(** ** Python values *)

(** A finite [float] is kept as the decimal number [fmant * 10 ^ fexp]: the
    digits and exponent of the literal that denotes it.  Rounding and the
    non-finite values are outside the model. *)
Record pyfloat : Type := FDec { fmant : Z; fexp : Z }.

(** [datetime.date]: compared field by field, year first. *)
Record date : Type := Date { year : Z; month : Z; day : Z }.

(** The values of Python that reach the models: those [json.loads]
    returns, and dates.  A tuple, a set, bytes, or a dict with a key that is
    not a string has no form here, and a statement over [pyval] says nothing
    of them. *)
Unset Elimination Schemes.
Inductive pyval : Type :=
| PNone
| PBool (b : bool)
| PInt (z : Z)
| PFloat (f : pyfloat)
| PStr (s : string)
| PDate (d : date)
| PList (l : list pyval)
| PDict (d : list (string * pyval)).
Set Elimination Schemes.

(** A [dict] whose keys are strings, in insertion order. *)
Abbreviation pydict := (list (string * pyval)).

(** Exceptions: a function that can raise returns a [result]. *)
Inductive exn : Type :=
| ValidationError (msg : string)
| ValueError (msg : string)
| TypeError (msg : string)
| AttributeError (msg : string)
| OverflowError (msg : string)
| JSONDecodeError.

Inductive result (A : Type) : Type :=
| Ok (a : A)
| Raise (e : exn).
Arguments Ok {A} a.
Arguments Raise {A} e.

(** Sequencing that stops at the first exception; [x ← r; k] is stdpp's
    notation for it. *)
#[export] Instance result_ret : MRet result := fun A a => Ok a.
#[export] Instance result_bind : MBind result := fun A B k r =>
  match r with
  | Ok a => k a
  | Raise e => Raise e
  end.

Definition is_ok {A : Type} (r : result A) : bool :=
  match r with Ok _ => true | Raise _ => false end.

Definition ok_or {A : Type} (o : option A) (e : exn) : result A :=
  match o with Some a => Ok a | None => Raise e end.

(** [bool(v)]: Python truthiness. *)
Definition truthy (v : pyval) : bool :=
  match v with
  | PNone => false
  | PBool b => b
  | PInt z => negb (z =? 0)
  | PFloat f => negb (fmant f =? 0)
  | PStr s => negb (String.eqb s "")
  | PDate _ => true
  | PList l => match l with [] => false | _ => true end
  | PDict d => match d with [] => false | _ => true end
  end.

(** *** Dictionaries *)

Fixpoint dict_lookup (d : pydict) (k : string) : option pyval :=
  match d with
  | [] => None
  | (k', v) :: d' => if String.eqb k' k then Some v else dict_lookup d' k
  end.

(** [k in d] *)
Definition dict_has (d : pydict) (k : string) : bool :=
  match dict_lookup d k with Some _ => true | None => false end.

(** [d.get(k)]: [None] when the key is absent. *)
Definition dict_get (d : pydict) (k : string) : pyval :=
  match dict_lookup d k with Some v => v | None => PNone end.

(** [d.get(k, dflt)] *)
Definition dict_get_default (d : pydict) (k : string) (dflt : pyval) : pyval :=
  match dict_lookup d k with Some v => v | None => dflt end.

(** [d[k] = v]: an existing key keeps its place, a new key goes last. *)
Fixpoint dict_set (d : pydict) (k : string) (v : pyval) : pydict :=
  match d with
  | [] => [(k, v)]
  | (k', v') :: d' =>
      if String.eqb k' k then (k', v) :: d' else (k', v') :: dict_set d' k v
  end.

(** [d.setdefault(k, v)] *)
Definition dict_setdefault (d : pydict) (k : string) (v : pyval) : pydict :=
  if dict_has d k then d else dict_set d k v.

Definition dict_keys (d : pydict) : list string := map fst d.

(** *** Strings *)

Definition chars (s : string) : list ascii := list_ascii_of_string s.
Definition str_of (l : list ascii) : string := string_of_list_ascii l.

Definition is_upper (c : ascii) : bool :=
  let n := nat_of_ascii c in (65 <=? n)%nat && (n <=? 90)%nat.

(** [str.lower()] on the ASCII letters; the other characters are kept. *)
Definition lower_char (c : ascii) : ascii :=
  if is_upper c then ascii_of_nat (nat_of_ascii c + 32) else c.

Fixpoint lower (s : string) : string :=
  match s with
  | EmptyString => EmptyString
  | String c s' => String (lower_char c) (lower s')
  end.

Fixpoint starts_with (p s : string) : bool :=
  match p, s with
  | EmptyString, _ => true
  | String a p', String b s' => Ascii.eqb a b && starts_with p' s'
  | String _ _, EmptyString => false
  end.

(** [p in s] for strings: [p] occurs in [s] as a substring. *)
Fixpoint contains (s p : string) : bool :=
  starts_with p s ||
  match s with
  | EmptyString => false
  | String _ s' => contains s' p
  end.

(** [x in l] for a list of strings. *)
Definition str_in (x : string) (l : list string) : bool :=
  existsb (String.eqb x) l.

(** [sep.join(l)] *)
Fixpoint join (sep : string) (l : list string) : string :=
  match l with
  | [] => ""
  | [x] => x
  | x :: l' => x +:+ sep +:+ join sep l'
  end.

(** ** Accommodation types ([api/datamodels.py]) *)

(** The literals of [Trip.accommodation_type]. *)
Definition accommodation_literals : list string :=
  ["hotel"; "resort"; "hostel"; "apartment"; "guesthouse";
   "luxury"; "own_place"; "friend_place"; "official_accommodation";
   "budget"; "family-friendly"; "business"; "youth hostel"].

(** The table both validators carry, in its order of insertion. *)
Definition accommodation_mapping : list (string * string) :=
  [("luxury hotel", "luxury");
   ("luxury resort", "luxury");
   ("budget hotel", "hotel");
   ("boutique hotel", "hotel");
   ("business hotel", "hotel");
   ("luxury accommodation", "luxury");
   ("budget accommodation", "hotel");
   ("upscale hotel", "luxury");
   ("premium hotel", "luxury");
   ("high-end hotel", "luxury");
   ("5-star hotel", "luxury");
   ("4-star hotel", "hotel");
   ("3-star hotel", "hotel");
   ("budget hostel", "hostel");
   ("luxury hostel", "hostel");
   ("vacation rental", "apartment");
   ("rental apartment", "apartment");
   ("holiday apartment", "apartment");
   ("serviced apartment", "apartment");
   ("airbnb", "apartment");
   ("bed and breakfast", "guesthouse");
   ("b&b", "guesthouse");
   ("inn", "guesthouse");
   ("motel", "hotel");
   ("lodge", "hotel");
   ("villa", "luxury");
   ("mansion", "luxury");
   ("penthouse", "luxury");
   ("suite", "luxury")].

(** [accommodation_mapping[value_lower]] when the key is there. *)
Fixpoint mapping_exact (m : list (string * string)) (v : string) : option string :=
  match m with
  | [] => None
  | (k, x) :: m' => if String.eqb k v then Some x else mapping_exact m' v
  end.

(** The loop [for key, mapped_value in accommodation_mapping.items()]: the
    first key that occurs in the value decides. *)
Fixpoint mapping_partial (m : list (string * string)) (v : string) : option string :=
  match m with
  | [] => None
  | (k, x) :: m' => if contains v k then Some x else mapping_partial m' v
  end.

(** The body shared by the two validators, after [if not value] and with
    [valid_types] as the one list in which they differ. *)
Definition normalize_with (valid_types : list string) (value : string) : string :=
  if String.eqb value "" then "hotel"
  else
    let value_lower := lower value in
    match mapping_exact accommodation_mapping value_lower with
    | Some x => x
    | None =>
        match mapping_partial accommodation_mapping value_lower with
        | Some x => x
        | None => if str_in value_lower valid_types then value_lower else "hotel"
        end
    end.

(** ** The [json] module

    [json.dumps] with its default arguments ([ensure_ascii], separators
    [", "] and [": "]) and [json.loads], on the characters of the text.  A
    character is a code point below 256.  Two departures from CPython: a
    float is printed as [<mantissa>e<exponent>] (the same number, other
    digits), and an escape above [ÿ] or a non-finite literal is refused.  On
    an answer of the language model that holds one of these, an agent takes
    its fallback here where the code goes on with the parsed value; the
    statements on the agents are of outcomes that hold either way. *)

Module Json.

Definition is_char (c x : ascii) : bool := Ascii.eqb c x.

(** The double quote. *)
Definition dquote : ascii := "034"%char.

(** *** Numbers *)

Fixpoint uint_chars (d : uint) : list ascii :=
  match d with
  | Nil => []
  | D0 r => "0"%char :: uint_chars r
  | D1 r => "1"%char :: uint_chars r
  | D2 r => "2"%char :: uint_chars r
  | D3 r => "3"%char :: uint_chars r
  | D4 r => "4"%char :: uint_chars r
  | D5 r => "5"%char :: uint_chars r
  | D6 r => "6"%char :: uint_chars r
  | D7 r => "7"%char :: uint_chars r
  | D8 r => "8"%char :: uint_chars r
  | D9 r => "9"%char :: uint_chars r
  end.

(** [str(z)] for an [int]. *)
Definition Z_chars (z : Z) : list ascii :=
  match z with
  | Z0 => ["0"%char]
  | Zpos p => uint_chars (Pos.to_uint p)
  | Zneg p => "-"%char :: uint_chars (Pos.to_uint p)
  end.

Definition digit_of (c : ascii) : option (uint -> uint) :=
  if is_char c "0" then Some D0
  else if is_char c "1" then Some D1
  else if is_char c "2" then Some D2
  else if is_char c "3" then Some D3
  else if is_char c "4" then Some D4
  else if is_char c "5" then Some D5
  else if is_char c "6" then Some D6
  else if is_char c "7" then Some D7
  else if is_char c "8" then Some D8
  else if is_char c "9" then Some D9
  else None.

(** The longest run of digits at the head of the text. *)
Fixpoint scan_digits (s : list ascii) : uint * list ascii :=
  match s with
  | [] => (Nil, [])
  | c :: r =>
      match digit_of c with
      | Some k => let (d, r') := scan_digits r in (k d, r')
      | None => (Nil, s)
      end
  end.

Definition Z_of_uint (d : uint) : Z := Z.of_N (N.of_uint d).

Definition signed (neg : bool) (z : Z) : Z := if neg then - z else z.

(** [0|[1-9][0-9]*] *)
Definition scan_int_part (s : list ascii) : option (uint * list ascii) :=
  match s with
  | [] => None
  | c :: r =>
      if is_char c "0" then Some (D0 Nil, r)
      else match digit_of c with
           | Some k => let (d, r') := scan_digits r in Some (k d, r')
           | None => None
           end
  end.

(** [\.[0-9]+] *)
Definition scan_frac (s : list ascii) : option (uint * list ascii) :=
  match s with
  | c :: r =>
      if is_char c "." then
        match scan_digits r with
        | (Nil, _) => None
        | (d, r') => Some (d, r')
        end
      else None
  | [] => None
  end.

(** [[eE][-+]?[0-9]+] *)
Definition scan_exp (s : list ascii) : option (Z * list ascii) :=
  match s with
  | c :: r =>
      if is_char c "e" || is_char c "E" then
        let '(neg, r1) :=
          match r with
          | c1 :: r1 =>
              if is_char c1 "-" then (true, r1)
              else if is_char c1 "+" then (false, r1)
              else (false, r)
          | [] => (false, r)
          end in
        match scan_digits r1 with
        | (Nil, _) => None
        | (d, r2) => Some (signed neg (Z_of_uint d), r2)
        end
      else None
  | [] => None
  end.

(** A number literal: an [int] when it has neither fraction nor exponent,
    a [float] otherwise. *)
Definition scan_number (s : list ascii) : option (pyval * list ascii) :=
  let '(neg, s1) :=
    match s with
    | c :: r => if is_char c "-" then (true, r) else (false, s)
    | [] => (false, s)
    end in
  '(di, s2) ← scan_int_part s1;
  let '(fd, s3) :=
    match scan_frac s2 with
    | Some (fd, s3) => (Some fd, s3)
    | None => (None, s2)
    end in
  let '(ex, s4) :=
    match scan_exp s3 with
    | Some (e, s4) => (Some e, s4)
    | None => (None, s3)
    end in
  match fd, ex with
  | None, None => Some (PInt (signed neg (Z_of_uint di)), s4)
  | _, _ =>
      let fdigits := default Nil fd in
      let mant := signed neg (Z_of_uint (Decimal.app di fdigits)) in
      let e := default 0 ex - Z.of_nat (Decimal.nb_digits fdigits) in
      Some (PFloat (FDec mant e), s4)
  end.

(** *** Strings *)

Definition hex_digit (n : nat) : ascii :=
  nth n ["0"; "1"; "2"; "3"; "4"; "5"; "6"; "7"; "8"; "9";
         "a"; "b"; "c"; "d"; "e"; "f"]%char "0"%char.

Definition hex_val (c : ascii) : option nat :=
  let n := nat_of_ascii c in
  if (48 <=? n)%nat && (n <=? 57)%nat then Some (n - 48)%nat
  else if (97 <=? n)%nat && (n <=? 102)%nat then Some (n - 87)%nat
  else if (65 <=? n)%nat && (n <=? 70)%nat then Some (n - 55)%nat
  else None.

Definition hex4 (a b c d : ascii) : option nat :=
  x ← hex_val a; y ← hex_val b; z ← hex_val c; w ← hex_val d;
  Some (((x * 16 + y) * 16 + z) * 16 + w)%nat.

(** [ESCAPE_ASCII]: what is not between space and tilde is escaped. *)
Definition escape_char (c : ascii) : list ascii :=
  if is_char c dquote then ["\"%char; dquote]
  else if is_char c "\" then ["\"; "\"]%char
  else if is_char c "010" then ["\"; "n"]%char
  else if is_char c "013" then ["\"; "r"]%char
  else if is_char c "009" then ["\"; "t"]%char
  else if is_char c "008" then ["\"; "b"]%char
  else if is_char c "012" then ["\"; "f"]%char
  else
    let n := nat_of_ascii c in
    if (n <? 32)%nat || (126 <? n)%nat
    then ["\"; "u"; "0"; "0"; hex_digit (n / 16); hex_digit (n mod 16)]%char
    else [c].

Definition quote (s : string) : list ascii :=
  dquote :: flat_map escape_char (chars s) ++ [dquote].

Definition unescape (e : ascii) : option ascii :=
  if is_char e dquote then Some dquote
  else if is_char e "\" then Some "\"%char
  else if is_char e "/" then Some "/"%char
  else if is_char e "n" then Some "010"%char
  else if is_char e "r" then Some "013"%char
  else if is_char e "t" then Some "009"%char
  else if is_char e "b" then Some "008"%char
  else if is_char e "f" then Some "012"%char
  else None.

(** The body of a string literal, after its opening quote, up to and
    including the closing one.  A raw control character is refused
    ([strict] is on by default). *)
Fixpoint scan_string (s : list ascii) : option (list ascii * list ascii) :=
  match s with
  | [] => None
  | c :: r =>
      if is_char c dquote then Some ([], r)
      else if is_char c "\" then
        match r with
        | [] => None
        | e :: r1 =>
            if is_char e "u" then
              match r1 with
              | h1 :: h2 :: h3 :: h4 :: r2 =>
                  n ← hex4 h1 h2 h3 h4;
                  if (n <? 256)%nat
                  then '(b, r') ← scan_string r2; Some (ascii_of_nat n :: b, r')
                  else None
              | _ => None
              end
            else
              c' ← unescape e;
              '(b, r') ← scan_string r1; Some (c' :: b, r')
        end
      else if (nat_of_ascii c <? 32)%nat then None
      else '(b, r') ← scan_string r; Some (c :: b, r')
  end.

(** *** Values *)

Definition is_ws (c : ascii) : bool :=
  is_char c " " || is_char c "009" || is_char c "010" || is_char c "013".

Fixpoint skip_ws (s : list ascii) : list ascii :=
  match s with
  | c :: r => if is_ws c then skip_ws r else s
  | [] => []
  end.

Fixpoint strip_prefix (p s : list ascii) : option (list ascii) :=
  match p, s with
  | [], _ => Some s
  | a :: p', b :: s' => if is_char a b then strip_prefix p' s' else None
  | _ :: _, [] => None
  end.

(** The encoder; [None] stands for the [TypeError] raised on a value that
    JSON has no form for (a [date]). *)
Fixpoint encode (v : pyval) : option (list ascii) :=
  match v with
  | PNone => Some (chars "null")
  | PBool true => Some (chars "true")
  | PBool false => Some (chars "false")
  | PInt z => Some (Z_chars z)
  | PFloat f => Some (Z_chars (fmant f) ++ "e"%char :: Z_chars (fexp f))
  | PStr s => Some (quote s)
  | PDate _ => None
  | PList l =>
      body ← (fix items (l : list pyval) : option (list ascii) :=
                match l with
                | [] => Some []
                | x :: l' =>
                    a ← encode x;
                    match l' with
                    | [] => Some a
                    | _ :: _ => b ← items l'; Some (a ++ chars ", " ++ b)
                    end
                end) l;
      Some ("["%char :: body ++ ["]"%char])
  | PDict d =>
      body ← (fix members (d : list (string * pyval)) : option (list ascii) :=
                match d with
                | [] => Some []
                | (k, x) :: d' =>
                    a ← encode x;
                    let m := quote k ++ chars ": " ++ a in
                    match d' with
                    | [] => Some m
                    | _ :: _ => b ← members d'; Some (m ++ chars ", " ++ b)
                    end
                end) d;
      Some ("{"%char :: body ++ ["}"%char])
  end.

(** The decoder, by recursive descent; [fuel] bounds the depth of the
    calls and the length of the text is always enough. *)
Fixpoint parse_value (fuel : nat) (s : list ascii) : option (pyval * list ascii) :=
  match fuel with
  | O => None
  | S n =>
      match skip_ws s with
      | [] => None
      | c :: r =>
          if is_char c dquote then
            '(b, r') ← scan_string r; Some (PStr (str_of b), r')
          else if is_char c "[" then
            match skip_ws r with
            | [] => None
            | c' :: r' =>
                if is_char c' "]" then Some (PList [], r')
                else '(l, r'') ← parse_items n r; Some (PList l, r'')
            end
          else if is_char c "{" then
            match skip_ws r with
            | [] => None
            | c' :: r' =>
                if is_char c' "}" then Some (PDict [], r')
                else '(d, r'') ← parse_members n r []; Some (PDict d, r'')
            end
          else if is_char c "n" then
            r' ← strip_prefix (chars "null") (c :: r); Some (PNone, r')
          else if is_char c "t" then
            r' ← strip_prefix (chars "true") (c :: r); Some (PBool true, r')
          else if is_char c "f" then
            r' ← strip_prefix (chars "false") (c :: r); Some (PBool false, r')
          else scan_number (c :: r)
      end
  end
with parse_items (fuel : nat) (s : list ascii) : option (list pyval * list ascii) :=
  match fuel with
  | O => None
  | S n =>
      '(v, r) ← parse_value n s;
      match skip_ws r with
      | [] => None
      | c :: r' =>
          if is_char c "," then '(l, r'') ← parse_items n r'; Some (v :: l, r'')
          else if is_char c "]" then Some ([v], r')
          else None
      end
  end
with parse_members (fuel : nat) (s : list ascii) (acc : pydict)
  : option (pydict * list ascii) :=
  match fuel with
  | O => None
  | S n =>
      match skip_ws s with
      | [] => None
      | c :: r =>
          if is_char c dquote then
            '(k, r1) ← scan_string r;
            match skip_ws r1 with
            | [] => None
            | c1 :: r2 =>
                if is_char c1 ":" then
                  '(v, r3) ← parse_value n r2;
                  let acc' := dict_set acc (str_of k) v in
                  match skip_ws r3 with
                  | [] => None
                  | c3 :: r4 =>
                      if is_char c3 "," then parse_members n r4 acc'
                      else if is_char c3 "}" then Some (acc', r4)
                      else None
                  end
                else None
            end
          else None
      end
  end.

(** [json.dumps(v)] *)
Definition dumps (v : pyval) : result string :=
  match encode v with
  | Some out => Ok (str_of out)
  | None => Raise (TypeError "Object is not JSON serializable")
  end.

(** [json.loads(s)]: one value, with nothing but blanks after it. *)
Definition loads (s : string) : result pyval :=
  match parse_value (S (String.length s)) (chars s) with
  | Some (v, r) =>
      match skip_ws r with
      | [] => Ok v
      | _ :: _ => Raise JSONDecodeError
      end
  | None => Raise JSONDecodeError
  end.

End Json.


(** ** Built-ins of Python that the sources call *)

(** [str.isspace] on the code points below 256. *)
Definition is_space (c : ascii) : bool :=
  let n := nat_of_ascii c in
  ((9 <=? n)%nat && (n <=? 13)%nat) || ((28 <=? n)%nat && (n <=? 32)%nat)
  || (n =? 133)%nat || (n =? 160)%nat.

Fixpoint lstrip (s : list ascii) : list ascii :=
  match s with
  | c :: r => if is_space c then lstrip r else s
  | [] => []
  end.

(** [s.strip()] *)
Definition strip (s : string) : string :=
  str_of (rev (lstrip (rev (lstrip (chars s))))).

(** [s.find(c)] for a one-character [c]: the first index, or [-1]. *)
Fixpoint find_char (c : ascii) (s : list ascii) : Z :=
  match s with
  | [] => -1
  | x :: r =>
      if Ascii.eqb x c then 0
      else let i := find_char c r in if i <? 0 then -1 else i + 1
  end.

(** [s.rfind(c)]: the last index, or [-1]. *)
Definition rfind_char (c : ascii) (s : list ascii) : Z :=
  let i := find_char c (rev s) in
  if i <? 0 then -1 else Z.of_nat (length s) - 1 - i.

(** [s[start:stop]] with Python's reading of negative and overlong bounds. *)
Definition slice (s : list ascii) (start stop : Z) : list ascii :=
  let n := Z.of_nat (length s) in
  let clamp i := if i <? 0 then Z.max 0 (i + n) else Z.min i n in
  let a := clamp start in
  let b := clamp stop in
  firstn (Z.to_nat (b - a)) (skipn (Z.to_nat a) s).

Fixpoint starts_with_chars (p s : list ascii) : bool :=
  match p, s with
  | [], _ => true
  | a :: p', b :: s' => Ascii.eqb a b && starts_with_chars p' s'
  | _ :: _, [] => false
  end.

(** [s.replace(pat, "")] for a non-empty [pat]: every occurrence, leftmost
    first, none overlapping.  [skip] counts the characters of an occurrence
    that are still to be dropped. *)
Fixpoint remove_all_from (pat : list ascii) (skip : nat) (s : list ascii) : list ascii :=
  match s with
  | [] => []
  | c :: r =>
      match skip with
      | S k => remove_all_from pat k r
      | O =>
          if starts_with_chars pat s
          then remove_all_from pat (length pat - 1) r
          else c :: remove_all_from pat O r
      end
  end.

Definition remove_all (pat : string) (s : list ascii) : list ascii :=
  remove_all_from (chars pat) O s.

(** Is the text, after its leading blanks, at the character [close]? *)
Fixpoint blanks_then (close : ascii) (s : list ascii) : bool :=
  match s with
  | [] => false
  | c :: r => if is_space c then blanks_then close r else Ascii.eqb c close
  end.

(** [re.sub(r',\s*X', 'X', s)] for a bracket [X]: a comma that only blanks
    separate from [X] goes away with those blanks.  [dropping] is on between
    such a comma and its bracket. *)
Fixpoint drop_trailing_commas (close : ascii) (dropping : bool) (s : list ascii)
  : list ascii :=
  match s with
  | [] => []
  | c :: r =>
      if dropping then
        if is_space c then drop_trailing_commas close true r
        else c :: drop_trailing_commas close false r
      else if Ascii.eqb c ","%char && blanks_then close r
      then drop_trailing_commas close true r
      else c :: drop_trailing_commas close false r
  end.

(** The digits of [int(s)]: decimal digits, single underscores between them. *)
Fixpoint int_digits (s : list ascii) (after_digit : bool) : option uint :=
  match s with
  | [] => if after_digit then Some Nil else None
  | c :: r =>
      match Json.digit_of c with
      | Some k => d ← int_digits r true; Some (k d)
      | None =>
          if Ascii.eqb c "_"%char && after_digit then
            match r with
            | [] => None
            | _ :: _ => int_digits r false
            end
          else None
      end
  end.

Definition split_sign (s : list ascii) : bool * list ascii :=
  match s with
  | c :: r =>
      if Ascii.eqb c "-"%char then (true, r)
      else if Ascii.eqb c "+"%char then (false, r)
      else (false, s)
  | [] => (false, s)
  end.

(** [int(s)] for a string, [None] for its [ValueError]. *)
Definition int_of_str (s : string) : option Z :=
  let '(neg, r) := split_sign (chars (strip s)) in
  d ← int_digits r false;
  Some (Json.signed neg (Json.Z_of_uint d)).

(** [float(s)] for a string, on the finite decimal forms without
    underscores; [None] for its [ValueError]. *)
Definition float_of_str (s : string) : option pyfloat :=
  let '(neg, r) := split_sign (chars (strip s)) in
  let '(di, r1) := Json.scan_digits r in
  let '(fd, r2) :=
    match r1 with
    | c :: r' => if Ascii.eqb c "."%char then Json.scan_digits r' else (Nil, r1)
    | [] => (Nil, r1)
    end in
  match di, fd with
  | Nil, Nil => None
  | _, _ =>
      let mant := Json.signed neg (Json.Z_of_uint (Decimal.app di fd)) in
      let shift := Z.of_nat (Decimal.nb_digits fd) in
      match r2 with
      | [] => Some (FDec mant (- shift))
      | _ :: _ =>
          match Json.scan_exp r2 with
          | Some (e, []) => Some (FDec mant (e - shift))
          | _ => None
          end
      end
  end.

Definition Z_of_bool (b : bool) : Z := if b then 1 else 0.

(** The integer part of a float, towards zero. *)
Definition float_trunc (f : pyfloat) : Z :=
  if 0 <=? fexp f then fmant f * 10 ^ fexp f
  else Z.quot (fmant f) (10 ^ (- fexp f)).

(** [int(v)] *)
Definition py_int (v : pyval) : result Z :=
  match v with
  | PInt z => Ok z
  | PBool b => Ok (Z_of_bool b)
  | PFloat f => Ok (float_trunc f)
  | PStr s => ok_or (int_of_str s) (ValueError "invalid literal for int()")
  | _ => Raise (TypeError "int() argument must be a string or a number")
  end.

(** [float(v)] *)
Definition py_float (v : pyval) : result pyfloat :=
  match v with
  | PFloat f => Ok f
  | PInt z => Ok (FDec z 0)
  | PBool b => Ok (FDec (Z_of_bool b) 0)
  | PStr s => ok_or (float_of_str s) (ValueError "could not convert string to float")
  | _ => Raise (TypeError "float() argument must be a string or a number")
  end.

(** [a or b] *)
Definition py_or (a b : pyval) : pyval := if truthy a then a else b.

(** [v == s] for a string literal [s]. *)
Definition is_str (v : pyval) (s : string) : bool :=
  match v with
  | PStr x => String.eqb x s
  | _ => false
  end.

(** Comparison of floats as numbers. *)
Definition float_compare (f g : pyfloat) : comparison :=
  let e := Z.min (fexp f) (fexp g) in
  (fmant f * 10 ^ (fexp f - e) ?= fmant g * 10 ^ (fexp g - e)).

Definition float_eqb (f g : pyfloat) : bool :=
  match float_compare f g with Eq => true | _ => false end.

Definition float_zero : pyfloat := FDec 0 0.

(** [x / 4] on the decimals. *)
Definition float_div4 (f : pyfloat) : pyfloat := FDec (fmant f * 25) (fexp f - 2).

(** *** Dates *)

Definition date_compare (a b : date) : comparison :=
  match year a ?= year b with
  | Eq => match month a ?= month b with
          | Eq => day a ?= day b
          | c => c
          end
  | c => c
  end.

(** [a <= b] *)
Definition date_leb (a b : date) : bool :=
  match date_compare a b with Gt => false | _ => true end.

(** [a < b] *)
Definition date_ltb (a b : date) : bool :=
  match date_compare a b with Lt => true | _ => false end.

Definition is_leap (y : Z) : bool :=
  (y mod 4 =? 0) && (negb (y mod 100 =? 0) || (y mod 400 =? 0)).

Definition days_in_month (y m : Z) : Z :=
  if (m =? 2) then (if is_leap y then 29 else 28)
  else if (m =? 4) || (m =? 6) || (m =? 9) || (m =? 11) then 30
  else 31.

Definition valid_date (d : date) : bool :=
  (1 <=? year d) && (year d <=? 9999) && (1 <=? month d) && (month d <=? 12)
  && (1 <=? day d) && (day d <=? days_in_month (year d) (month d)).

Definition digit_val (c : ascii) : option Z :=
  let n := nat_of_ascii c in
  if (48 <=? n)%nat && (n <=? 57)%nat then Some (Z.of_nat (n - 48)) else None.

Fixpoint digits_val (s : list ascii) (acc : Z) : option Z :=
  match s with
  | [] => Some acc
  | c :: r => d ← digit_val c; digits_val r (acc * 10 + d)
  end.

(** [date.fromisoformat] on the form [YYYY-MM-DD]. *)
Definition date_fromisoformat (s : string) : option date :=
  match chars s with
  | [y1; y2; y3; y4; s1; m1; m2; s2; x1; x2] =>
      if Ascii.eqb s1 "-"%char && Ascii.eqb s2 "-"%char then
        y ← digits_val [y1; y2; y3; y4] 0;
        m ← digits_val [m1; m2] 0;
        d ← digits_val [x1; x2] 0;
        let r := Date y m d in
        if valid_date r then Some r else None
      else None
  | _ => None
  end.

(** The character of a decimal digit. *)
Definition digit_char (n : Z) : ascii := ascii_of_nat (48 + Z.to_nat n).

(** [n] on two and on four digits, padded with zeros. *)
Definition pad2 (n : Z) : list ascii :=
  [digit_char (n / 10 mod 10); digit_char (n mod 10)].

Definition pad4 (n : Z) : list ascii :=
  [digit_char (n / 1000 mod 10); digit_char (n / 100 mod 10);
   digit_char (n / 10 mod 10); digit_char (n mod 10)].

(** [d.isoformat()], which is [str(d)]: [YYYY-MM-DD]. *)
Definition date_isoformat (d : date) : string :=
  str_of (pad4 (year d) ++ "-"%char :: pad2 (month d) ++ "-"%char :: pad2 (day d)).

(** The days before the first of January of the year [y]. *)
Definition days_before_year (y : Z) : Z :=
  let y := y - 1 in y * 365 + y / 4 - y / 100 + y / 400.

(** The days of the year [y] before the first of the month [m]. *)
Definition days_before_month (y m : Z) : Z :=
  nth (Z.to_nat (m - 1)) [0; 31; 59; 90; 120; 151; 181; 212; 243; 273; 304; 334] 0
  + (if (2 <? m) && is_leap y then 1 else 0).

(** [d.toordinal()]: the first of January of the year 1 is day 1. *)
Definition toordinal (d : date) : Z :=
  days_before_year (year d) + days_before_month (year d) (month d) + day d.

(** [(a - b).days] *)
Definition days_between (a b : date) : Z := toordinal a - toordinal b.

(** ** The conversions of pydantic

    What a field of a given type makes of the value it is handed, in the lax
    mode the models run in, on the input types that reach these models; a
    numeric string handed to a number field is not among them and is
    refused here. *)

Definition as_str (v : pyval) : option string :=
  match v with PStr s => Some s | _ => None end.

Definition as_int (v : pyval) : option Z :=
  match v with
  | PInt z => Some z
  | PBool b => Some (Z_of_bool b)
  | PFloat f =>
      if float_eqb (FDec (float_trunc f) 0) f then Some (float_trunc f) else None
  | _ => None
  end.

Definition as_float (v : pyval) : option pyfloat :=
  match v with
  | PFloat f => Some f
  | PInt z => Some (FDec z 0)
  | PBool b => Some (FDec (Z_of_bool b) 0)
  | _ => None
  end.

Definition as_date (v : pyval) : option date :=
  match v with
  | PDate d => Some d
  | PStr s => date_fromisoformat s
  | _ => None
  end.

(** [List[str]] *)
Definition as_str_list (v : pyval) : option (list string) :=
  match v with
  | PList l => mapM as_str l
  | _ => None
  end.

(** [Literal[...]] *)
Definition as_literal (allowed : list string) (v : pyval) : option string :=
  match v with
  | PStr s => if str_in s allowed then Some s else None
  | _ => None
  end.

(** [Optional[T]]: [None] is let through. *)
Definition as_optional {A : Type} (coerce : pyval -> option A) (v : pyval)
  : option (option A) :=
  match v with
  | PNone => Some None
  | _ => Some <$> coerce v
  end.

(** [bool], from a bool or from the numbers 0 and 1. *)
Definition as_bool (v : pyval) : option bool :=
  match v with
  | PBool b => Some b
  | PInt 0 => Some false
  | PInt 1 => Some true
  | PFloat f =>
      if float_eqb f (FDec 0 0) then Some false
      else if float_eqb f (FDec 1 0) then Some true
      else None
  | _ => None
  end.

Definition invalid (key : string) : exn := ValidationError key.

(** A field without default: the key has to be there. *)
Definition field_required {A : Type} (values : pydict) (key : string)
  (coerce : pyval -> option A) : result A :=
  match dict_lookup values key with
  | None => Raise (invalid key)
  | Some v => ok_or (coerce v) (invalid key)
  end.

(** A field with a default: the default is taken as it is, a given value is
    converted. *)
Definition field_default {A : Type} (values : pydict) (key : string)
  (coerce : pyval -> option A) (dflt : A) : result A :=
  match dict_lookup values key with
  | None => Ok dflt
  | Some v => ok_or (coerce v) (invalid key)
  end.

(** A [ValueError] that a validator raises reaches the caller as a
    [ValidationError]. *)
Definition validator {A : Type} (r : result A) : result A :=
  match r with
  | Raise (ValueError msg) => Raise (ValidationError msg)
  | _ => r
  end.

(** What [info.data] holds of a field: its value once it has validated. *)
Definition validated {A : Type} (r : result A) : option A :=
  match r with Ok a => Some a | Raise _ => None end.

Definition opt_str (o : option string) : pyval :=
  match o with Some s => PStr s | None => PNone end.
Definition opt_int (o : option Z) : pyval :=
  match o with Some z => PInt z | None => PNone end.
Definition opt_float (o : option pyfloat) : pyval :=
  match o with Some f => PFloat f | None => PNone end.
Definition opt_date (o : option date) : pyval :=
  match o with Some d => PDate d | None => PNone end.

(** ** [class User] *)

Module User.

Record t : Type := mk {
  id : option Z;
  name : string;
  email : string;
  profile : option string;
  travel_preferences : option string;
  travel_constraints : option string;
  created_at : option string
}.

(** [validate_email] *)
Definition validate_email (email : string) : result string :=
  if negb (truthy (PStr email)) || negb (contains email "@") || negb (contains email ".")
  then Raise (ValueError "Email must contain @ and . characters")
  else Ok email.

(** The construction of the keyword arguments [values]. *)
Definition new (values : pydict) : result t :=
  let r_id := field_default values "id" (as_optional as_int) None in
  let r_name := field_required values "name" as_str in
  let r_email :=
    e ← field_required values "email" as_str;
    validator (validate_email e) in
  let r_profile := field_default values "profile" (as_optional as_str) None in
  let r_prefs := field_default values "travel_preferences" (as_optional as_str) None in
  let r_constraints :=
    field_default values "travel_constraints" (as_optional as_str) None in
  let r_created := field_default values "created_at" (as_optional as_str) None in
  id ← r_id; name ← r_name; email ← r_email; profile ← r_profile;
  travel_preferences ← r_prefs; travel_constraints ← r_constraints;
  created_at ← r_created;
  Ok (mk id name email profile travel_preferences travel_constraints created_at).

End User.

(** ** [class ApprovalRequest] *)

Module ApprovalRequest.

Record t : Type := mk {
  trip_id : Z;
  user_id : Z;
  approval : bool;
  feedback : option string;
  phase : string
}.

End ApprovalRequest.

(** ** [class Trip] *)

Module Trip.

Record t : Type := mk {
  id : option Z;
  user_id : Z;
  phase : string;
  title : string;
  origin : string;
  destination : string;
  trip_startdate : date;
  trip_enddate : date;
  accommodation_type : string;
  no_of_adults : Z;
  no_of_children : Z;
  budget : pyfloat;
  currency : string;
  trip_status : string;
  purpose : string;
  travel_preferences : string;
  travel_constraints : string;
  created_at : option string;
  updated_at : option string
}.

Definition phases : list string :=
  ["phase1_langflow"; "phase2_crewai"; "phase3_autogen"; "phase4_langgraph"].

Definition statuses : list string :=
  ["draft"; "confirmed"; "in_progress"; "completed"; "cancelled"].

(** [valid_types] as this validator lists it. *)
Definition valid_types : list string :=
  ["hotel"; "resort"; "hostel"; "apartment"; "guesthouse";
   "luxury"; "own_place"; "friend_place"; "official_accommodation"].

(** [Trip.normalize_accommodation_type], on a string. *)
Definition normalize_accommodation_type (value : string) : string :=
  normalize_with valid_types value.

(** The validator runs before the type check and so on any value.  The text
    of a number, a boolean or a date holds no key of the table and is no
    literal, which leaves the fallback; [str] of a list or of a dict is
    outside the model. *)
Definition normalize_accommodation_value (value : pyval) : result string :=
  match value with
  | PStr s => Ok (normalize_accommodation_type s)
  | PList (_ :: _) | PDict (_ :: _) =>
      Raise (TypeError "str() of a container is outside the model")
  | _ => Ok "hotel"
  end.

(** [validate_dates]; [start] is [info.data] at [trip_startdate]. *)
Definition validate_dates (trip_enddate : date) (start : option date) : result date :=
  match start with
  | Some s =>
      if date_leb trip_enddate s
      then Raise (ValueError "Trip end date must be after start date")
      else Ok trip_enddate
  | None => Ok trip_enddate
  end.

(** [validate_future_date]; [trip_id] is [info.data.get("id")]. *)
Definition validate_future_date (today : date) (trip_startdate : date)
  (trip_id : option Z) : result date :=
  match trip_id with
  | None =>
      if date_leb trip_startdate today
      then Raise (ValueError "Trip start date must be in the future")
      else Ok trip_startdate
  | Some _ => Ok trip_startdate
  end.

Definition at_least (bound : Z) (key : string) (z : Z) : result Z :=
  if bound <=? z then Ok z else Raise (invalid key).

Definition non_negative (key : string) (f : pyfloat) : result pyfloat :=
  if 0 <=? fmant f then Ok f else Raise (invalid key).

(** The construction [Trip] of the keyword arguments [values], on the day
    [today].  Every field is validated, in the
    order of declaration, a validator seeing in [info.data] the fields
    before it that passed; the construction raises when any field failed. *)
Definition new (today : date) (values : pydict) : result t :=
  let r_id := field_default values "id" (as_optional as_int) None in
  let r_user_id := field_required values "user_id" as_int in
  let r_phase := field_required values "phase" (as_literal phases) in
  let r_title := field_default values "title" as_str "My Trip" in
  let r_origin := field_required values "origin" as_str in
  let r_destination := field_required values "destination" as_str in
  let r_start :=
    d ← field_required values "trip_startdate" as_date;
    validator (validate_future_date today d (mjoin (validated r_id))) in
  let r_end :=
    d ← field_required values "trip_enddate" as_date;
    validator (validate_dates d (validated r_start)) in
  let r_accommodation :=
    match dict_lookup values "accommodation_type" with
    | None => Ok "hotel"
    | Some v =>
        a ← normalize_accommodation_value v;
        ok_or (as_literal accommodation_literals (PStr a))
              (invalid "accommodation_type")
    end in
  let r_adults :=
    n ← field_default values "no_of_adults" as_int 1;
    at_least 1 "no_of_adults" n in
  let r_children :=
    n ← field_default values "no_of_children" as_int 0;
    at_least 0 "no_of_children" n in
  let r_budget :=
    b ← field_default values "budget" as_float (FDec 5000 (-1));
    non_negative "budget" b in
  let r_currency := field_default values "currency" as_str "USD" in
  let r_status := field_default values "trip_status" (as_literal statuses) "draft" in
  let r_purpose := field_default values "purpose" as_str "leisure" in
  let r_prefs := field_default values "travel_preferences" as_str "none" in
  let r_constraints := field_default values "travel_constraints" as_str "none" in
  let r_created := field_default values "created_at" (as_optional as_str) None in
  let r_updated := field_default values "updated_at" (as_optional as_str) None in
  id ← r_id; user_id ← r_user_id; phase ← r_phase; title ← r_title;
  origin ← r_origin; destination ← r_destination;
  trip_startdate ← r_start; trip_enddate ← r_end;
  accommodation_type ← r_accommodation;
  no_of_adults ← r_adults; no_of_children ← r_children;
  budget ← r_budget; currency ← r_currency; trip_status ← r_status;
  purpose ← r_purpose; travel_preferences ← r_prefs;
  travel_constraints ← r_constraints;
  created_at ← r_created; updated_at ← r_updated;
  Ok (mk id user_id phase title origin destination trip_startdate trip_enddate
         accommodation_type no_of_adults no_of_children budget currency
         trip_status purpose travel_preferences travel_constraints
         created_at updated_at).

(** [duration_days] *)
Definition duration_days (self : t) : Z :=
  days_between (trip_enddate self) (trip_startdate self) + 1.

(** [total_travelers] *)
Definition total_travelers (self : t) : Z :=
  no_of_adults self + no_of_children self.

End Trip.

(** ** [class TripRequirements] *)

Module TripRequirements.

Record t : Type := mk {
  mode : string;
  origin : option string;
  destination : option string;
  trip_startdate : option date;
  trip_enddate : option date;
  no_of_adults : option Z;
  no_of_children : Z;
  budget : option pyfloat;
  currency : string;
  accommodation_type : string;
  purpose : string;
  travel_preferences : string;
  travel_constraints : string;
  error : option string;
  missing_fields : option (list string);
  agent_message : option string
}.

Definition modes : list string := ["trip"; "missing"].

Definition required_fields : list string :=
  ["origin"; "destination"; "trip_startdate"; "trip_enddate"; "no_of_adults"; "budget"].

(** [valid_types] as this validator lists it. *)
Definition valid_types : list string :=
  ["hotel"; "resort"; "hostel"; "apartment"; "guesthouse";
   "luxury"; "own_place"; "friend_place"; "official_accommodation";
   "budget"; "family-friendly"; "business"; "youth hostel"].

(** [TripRequirements.normalize_accommodation_type] *)
Definition normalize_accommodation_type (value : string) : string :=
  normalize_with valid_types value.

(** [[f for f in required_fields if not values.get(f)]] *)
Definition missing_of (values : pydict) : list string :=
  List.filter (fun f => negb (truthy (dict_get values f))) required_fields.

(** [auto_fix_and_validate], the validator that runs before the fields, on
    the keyword arguments of the construction. *)
Definition auto_fix_and_validate (values : pydict) : pydict :=
  let values :=
    if dict_has values "mode" then values else dict_set values "mode" (PStr "trip") in
  let mode := dict_get_default values "mode" (PStr "trip") in
  if is_str mode "trip" then
    let missing := missing_of values in
    match missing with
    | [] => values
    | _ :: _ =>
        let values := dict_set values "mode" (PStr "missing") in
        let values := dict_set values "missing_fields" (PList (map PStr missing)) in
        let values := dict_set values "error" (PStr "MISSING") in
        dict_set values "agent_message"
          (PStr ("Please provide: " +:+ join ", " missing))
    end
  else if is_str mode "missing" then
    let values :=
      if truthy (dict_get values "missing_fields") then values
      else dict_set values "missing_fields" (PList [PStr "origin"; PStr "destination"]) in
    let values :=
      if truthy (dict_get values "error") then values
      else dict_set values "error" (PStr "MISSING") in
    if truthy (dict_get values "agent_message") then values
    else dict_set values "agent_message" (PStr "Additional information needed")
  else values.

(** [validate_dates]; [start] and [mode] are read from [info.data]. *)
Definition validate_dates (trip_enddate : option date) (start : option date)
  (mode : string) : result (option date) :=
  match trip_enddate, start with
  | Some e, Some s =>
      if String.eqb mode "trip" && date_leb e s
      then Raise (ValueError "Trip end date must be after start date")
      else Ok trip_enddate
  | _, _ => Ok trip_enddate
  end.

(** The fields, after [auto_fix_and_validate]. *)
Definition validate_fields (values : pydict) : result t :=
  let r_mode := field_default values "mode" (as_literal modes) "trip" in
  let r_origin := field_default values "origin" (as_optional as_str) None in
  let r_destination := field_default values "destination" (as_optional as_str) None in
  let r_start := field_default values "trip_startdate" (as_optional as_date) None in
  let r_end :=
    match dict_lookup values "trip_enddate" with
    | None => Ok None
    | Some v =>
        e ← ok_or (as_optional as_date v) (invalid "trip_enddate");
        validator (validate_dates e (mjoin (validated r_start))
                                  (default "trip" (validated r_mode)))
    end in
  let r_adults := field_default values "no_of_adults" (as_optional as_int) (Some 1) in
  let r_children := field_default values "no_of_children" as_int 0 in
  let r_budget := field_default values "budget" (as_optional as_float) None in
  let r_currency := field_default values "currency" as_str "USD" in
  let r_accommodation :=
    match dict_lookup values "accommodation_type" with
    | None => Ok "hotel"
    | Some v =>
        s ← ok_or (as_str v) (invalid "accommodation_type");
        Ok (normalize_accommodation_type s)
    end in
  let r_purpose := field_default values "purpose" as_str "leisure" in
  let r_prefs := field_default values "travel_preferences" as_str "none" in
  let r_constraints := field_default values "travel_constraints" as_str "none" in
  let r_error :=
    field_default values "error" (as_optional (as_literal ["MISSING"])) None in
  let r_missing :=
    field_default values "missing_fields" (as_optional as_str_list) None in
  let r_message := field_default values "agent_message" (as_optional as_str) None in
  mode ← r_mode; origin ← r_origin; destination ← r_destination;
  trip_startdate ← r_start; trip_enddate ← r_end;
  no_of_adults ← r_adults; no_of_children ← r_children; budget ← r_budget;
  currency ← r_currency; accommodation_type ← r_accommodation;
  purpose ← r_purpose; travel_preferences ← r_prefs;
  travel_constraints ← r_constraints;
  error ← r_error; missing_fields ← r_missing; agent_message ← r_message;
  Ok (mk mode origin destination trip_startdate trip_enddate no_of_adults
         no_of_children budget currency accommodation_type purpose
         travel_preferences travel_constraints error missing_fields
         agent_message).

(** The construction [TripRequirements] of the keyword arguments [values]. *)
Definition new (values : pydict) : result t :=
  validate_fields (auto_fix_and_validate values).

(** [is_complete] *)
Definition is_complete (self : t) : bool :=
  String.eqb (mode self) "trip" && negb (truthy (opt_str (error self))).

(** [get_missing_info] *)
Definition get_missing_info (self : t) : string :=
  match missing_fields self with
  | Some (f :: l) =>
      if String.eqb (mode self) "missing"
      then "Please provide: " +:+ join ", " (f :: l)
      else "All information collected"
  | _ => "All information collected"
  end.

(** [to_trip_dict] *)
Definition to_trip_dict (self : t) (user_id : Z) (phase title : string)
  : result pydict :=
  if is_complete self then
    Ok [("user_id", PInt user_id);
        ("phase", PStr phase);
        ("title", PStr title);
        ("origin", opt_str (origin self));
        ("destination", opt_str (destination self));
        ("trip_startdate", opt_date (trip_startdate self));
        ("trip_enddate", opt_date (trip_enddate self));
        ("accommodation_type", PStr (accommodation_type self));
        ("no_of_adults", py_or (opt_int (no_of_adults self)) (PInt 1));
        ("no_of_children", PInt (no_of_children self));
        ("budget", py_or (opt_float (budget self)) (PFloat (FDec 5000 (-1))));
        ("currency", PStr (currency self));
        ("purpose", PStr (purpose self));
        ("travel_preferences", PStr (travel_preferences self));
        ("travel_constraints", PStr (travel_constraints self));
        ("trip_status", PStr "draft")]
  else Raise (ValueError "Cannot convert incomplete requirements to Trip").

(** [requirements.dict()] *)
Definition dict (self : t) : pydict :=
  [("mode", PStr (mode self));
   ("origin", opt_str (origin self));
   ("destination", opt_str (destination self));
   ("trip_startdate", opt_date (trip_startdate self));
   ("trip_enddate", opt_date (trip_enddate self));
   ("no_of_adults", opt_int (no_of_adults self));
   ("no_of_children", PInt (no_of_children self));
   ("budget", opt_float (budget self));
   ("currency", PStr (currency self));
   ("accommodation_type", PStr (accommodation_type self));
   ("purpose", PStr (purpose self));
   ("travel_preferences", PStr (travel_preferences self));
   ("travel_constraints", PStr (travel_constraints self));
   ("error", opt_str (error self));
   ("missing_fields",
     match missing_fields self with
     | Some l => PList (map PStr l)
     | None => PNone
     end);
   ("agent_message", opt_str (agent_message self))].

End TripRequirements.

(** ** [class HotelSuggestion], [class FlightSuggestion] *)

Module HotelSuggestion.

Record t : Type := mk {
  name : string;
  price_per_night : pyfloat;
  rating : pyfloat;
  location : string;
  amenities : list string
}.

(** The construction of the keyword arguments [values]; a key the model
    does not declare is ignored. *)
Definition new (values : pydict) : result t :=
  let r_name := field_default values "name" as_str "Hotel Name Not Available" in
  let r_price := field_default values "price_per_night" as_float float_zero in
  let r_rating := field_default values "rating" as_float float_zero in
  let r_location := field_default values "location" as_str "Location TBD" in
  let r_amenities := field_default values "amenities" as_str_list [] in
  name ← r_name; price_per_night ← r_price; rating ← r_rating;
  location ← r_location; amenities ← r_amenities;
  Ok (mk name price_per_night rating location amenities).

(** [h.dict()] *)
Definition dict (h : t) : pydict :=
  [("name", PStr (name h));
   ("price_per_night", PFloat (price_per_night h));
   ("rating", PFloat (rating h));
   ("location", PStr (location h));
   ("amenities", PList (map PStr (amenities h)))].

End HotelSuggestion.

Module FlightSuggestion.

Record t : Type := mk {
  airline : string;
  departure_time : string;
  arrival_time : option string;
  price : pyfloat;
  duration : string;
  stops : Z
}.

Definition new (values : pydict) : result t :=
  let r_airline := field_default values "airline" as_str "Airline TBD" in
  let r_departure := field_default values "departure_time" as_str "Time TBD" in
  let r_arrival := field_default values "arrival_time" (as_optional as_str) None in
  let r_price := field_default values "price" as_float float_zero in
  let r_duration := field_default values "duration" as_str "Duration TBD" in
  let r_stops := field_default values "stops" as_int 0 in
  airline ← r_airline; departure_time ← r_departure; arrival_time ← r_arrival;
  price ← r_price; duration ← r_duration; stops ← r_stops;
  Ok (mk airline departure_time arrival_time price duration stops).

(** [f.dict()] *)
Definition dict (f : t) : pydict :=
  [("airline", PStr (airline f));
   ("departure_time", PStr (departure_time f));
   ("arrival_time", opt_str (arrival_time f));
   ("price", PFloat (price f));
   ("duration", PStr (duration f));
   ("stops", PInt (stops f))].

End FlightSuggestion.

(** ** [class TravelPlan] *)

Module TravelPlan.

Record t : Type := mk {
  itinerary : pyval;
  hotels : list HotelSuggestion.t;
  flights : list FlightSuggestion.t;
  daily_budget : pyfloat;
  total_estimated_cost : option pyfloat
}.

Definition is_dict (v : pyval) : bool :=
  match v with PDict _ => true | _ => false end.

(** [Union[str, List[Dict[str, Any]], Dict[str, Any]]] *)
Definition as_itinerary (v : pyval) : option pyval :=
  match v with
  | PStr _ => Some v
  | PList l => if forallb is_dict l then Some v else None
  | PDict _ => Some v
  | _ => None
  end.

(** The loop of [validate_hotels] and of [validate_flights]: a dict is built
    into the model, anything else is passed over.  A suggestion that is
    already an object of the model is written as its dict. *)
Fixpoint build_each {A : Type} (build : pydict -> result A) (items : list pyval)
  : result (list A) :=
  match items with
  | [] => Ok []
  | PDict d :: rest => x ← build d; xs ← build_each build rest; Ok (x :: xs)
  | _ :: rest => build_each build rest
  end.

(** What the loop [for x in v] runs over. *)
Definition iterate (v : pyval) : result (list pyval) :=
  match v with
  | PList l => Ok l
  | PDict d => Ok (map (fun kv => PStr (fst kv)) d)
  | PStr s => Ok (map (fun c => PStr (String c "")) (chars s))
  | _ => Raise (TypeError "object is not iterable")
  end.

(** [validate_hotels] and [validate_flights], both run before the type
    check. *)
Definition validate_suggestions {A : Type} (build : pydict -> result A) (v : pyval)
  : result (list A) :=
  if truthy v then items ← iterate v; build_each build items
  else Ok [].

Definition validate_hotels : pyval -> result (list HotelSuggestion.t) :=
  validate_suggestions HotelSuggestion.new.

Definition validate_flights : pyval -> result (list FlightSuggestion.t) :=
  validate_suggestions FlightSuggestion.new.

(** The construction of the keyword arguments [values]. *)
Definition new (values : pydict) : result t :=
  let r_itinerary :=
    field_default values "itinerary" as_itinerary (PStr "Itinerary will be provided") in
  let r_hotels :=
    match dict_lookup values "hotels" with
    | None => Ok []
    | Some v => validate_hotels v
    end in
  let r_flights :=
    match dict_lookup values "flights" with
    | None => Ok []
    | Some v => validate_flights v
    end in
  let r_daily := field_default values "daily_budget" as_float float_zero in
  let r_total :=
    field_default values "total_estimated_cost" (as_optional as_float) None in
  itinerary ← r_itinerary; hotels ← r_hotels; flights ← r_flights;
  daily_budget ← r_daily; total_estimated_cost ← r_total;
  Ok (mk itinerary hotels flights daily_budget total_estimated_cost).

(** [hotel_count] *)
Definition hotel_count (self : t) : nat := length (hotels self).

(** [flight_count] *)
Definition flight_count (self : t) : nat := length (flights self).

(** [plan.dict()] *)
Definition dict (self : t) : pydict :=
  [("itinerary", itinerary self);
   ("hotels", PList (map (fun h => PDict (HotelSuggestion.dict h)) (hotels self)));
   ("flights", PList (map (fun f => PDict (FlightSuggestion.dict f)) (flights self)));
   ("daily_budget", PFloat (daily_budget self));
   ("total_estimated_cost", opt_float (total_estimated_cost self))].

End TravelPlan.

(** ** [class TripPlanModel] *)

Module TripPlanModel.

Record t : Type := mk {
  id : option Z;
  trip_id : Z;
  itinerary_json : option string;
  hotels_json : option string;
  flights_json : option string;
  daily_budget : pyfloat;
  total_estimated_cost : pyfloat;
  generated_at : option string;
  updated_at : option string;
  status : string;
  version : Z;
  agent_metadata : option string
}.

(** The literals of [status]. *)
Definition statuses : list string := ["draft"; "approved"; "rejected"].

(** The construction of the keyword arguments [values]. *)
Definition new (values : pydict) : result t :=
  let r_id := field_default values "id" (as_optional as_int) None in
  let r_trip_id := field_required values "trip_id" as_int in
  let r_itinerary := field_default values "itinerary_json" (as_optional as_str) None in
  let r_hotels := field_default values "hotels_json" (as_optional as_str) None in
  let r_flights := field_default values "flights_json" (as_optional as_str) None in
  let r_daily := field_default values "daily_budget" as_float float_zero in
  let r_total := field_default values "total_estimated_cost" as_float float_zero in
  let r_generated := field_default values "generated_at" (as_optional as_str) None in
  let r_updated := field_default values "updated_at" (as_optional as_str) None in
  let r_status := field_default values "status" (as_literal statuses) "draft" in
  let r_version := field_default values "version" as_int 1 in
  let r_metadata := field_default values "agent_metadata" (as_optional as_str) None in
  id ← r_id; trip_id ← r_trip_id; itinerary_json ← r_itinerary;
  hotels_json ← r_hotels; flights_json ← r_flights;
  daily_budget ← r_daily; total_estimated_cost ← r_total;
  generated_at ← r_generated; updated_at ← r_updated;
  status ← r_status; version ← r_version; agent_metadata ← r_metadata;
  Ok (mk id trip_id itinerary_json hotels_json flights_json daily_budget
         total_estimated_cost generated_at updated_at status version
         agent_metadata).

(** [json.loads(text) if text else dflt] *)
Definition loads_or (text : option string) (dflt : pyval) : result pyval :=
  if truthy (opt_str text) then Json.loads (default "" text) else Ok dflt.

(** [to_travel_plan] *)
Definition to_travel_plan (self : t) : result TravelPlan.t :=
  itinerary ← loads_or (itinerary_json self) (PStr "Itinerary not available");
  hotels ← loads_or (hotels_json self) (PList []);
  flights ← loads_or (flights_json self) (PList []);
  TravelPlan.new
    [("itinerary", itinerary);
     ("hotels", hotels);
     ("flights", flights);
     ("daily_budget", PFloat (daily_budget self));
     ("total_estimated_cost", PFloat (total_estimated_cost self))].

(** [from_travel_plan] *)
Definition from_travel_plan (travel_plan : TravelPlan.t) (trip_id : Z) (version : Z)
  : result t :=
  itinerary_json ← Json.dumps (TravelPlan.itinerary travel_plan);
  hotels_json ←
    Json.dumps (PList (map (fun h => PDict (HotelSuggestion.dict h))
                           (TravelPlan.hotels travel_plan)));
  flights_json ←
    Json.dumps (PList (map (fun f => PDict (FlightSuggestion.dict f))
                           (TravelPlan.flights travel_plan)));
  new [("trip_id", PInt trip_id);
       ("itinerary_json", PStr itinerary_json);
       ("hotels_json", PStr hotels_json);
       ("flights_json", PStr flights_json);
       ("daily_budget", PFloat (TravelPlan.daily_budget travel_plan));
       ("total_estimated_cost",
         py_or (opt_float (TravelPlan.total_estimated_cost travel_plan))
               (PFloat float_zero));
       ("version", PInt version);
       ("status", PStr "draft")].

End TripPlanModel.

(** ** [class ChatHistory] *)

Module ChatHistory.

Record t : Type := mk {
  id : option Z;
  trip_id : option Z;
  user_id : Z;
  role : string;
  phase : option string;
  content : string;
  metadata : option string;
  sequence_number : option Z;
  created_at : option string
}.

Definition roles : list string := ["user"; "assistant"; "system"].

(** The construction of the keyword arguments [values]. *)
Definition new (values : pydict) : result t :=
  let r_id := field_default values "id" (as_optional as_int) None in
  let r_trip_id := field_default values "trip_id" (as_optional as_int) None in
  let r_user_id := field_required values "user_id" as_int in
  let r_role := field_required values "role" (as_literal roles) in
  let r_phase :=
    field_default values "phase" (as_optional (as_literal Trip.phases)) None in
  let r_content := field_required values "content" as_str in
  let r_metadata := field_default values "metadata" (as_optional as_str) None in
  let r_sequence :=
    field_default values "sequence_number" (as_optional as_int) None in
  let r_created := field_default values "created_at" (as_optional as_str) None in
  id ← r_id; trip_id ← r_trip_id; user_id ← r_user_id; role ← r_role;
  phase ← r_phase; content ← r_content; metadata ← r_metadata;
  sequence_number ← r_sequence; created_at ← r_created;
  Ok (mk id trip_id user_id role phase content metadata sequence_number created_at).

End ChatHistory.

(** ** [class OptimizationResult] *)

Module OptimizationResult.

Record t : Type := mk {
  recommendations : list string;
  cost_savings : pyfloat;
  value_adds : list string;
  final_plan : string;
  approval_required : bool
}.

(** The construction of the keyword arguments [values]. *)
Definition new (values : pydict) : result t :=
  let r_recommendations := field_default values "recommendations" as_str_list [] in
  let r_savings := field_default values "cost_savings" as_float float_zero in
  let r_adds := field_default values "value_adds" as_str_list [] in
  let r_final := field_default values "final_plan" as_str "Optimization complete" in
  let r_approval := field_default values "approval_required" as_bool true in
  recommendations ← r_recommendations; cost_savings ← r_savings;
  value_adds ← r_adds; final_plan ← r_final; approval_required ← r_approval;
  Ok (mk recommendations cost_savings value_adds final_plan approval_required).

(** [result.dict()] *)
Definition dict (self : t) : pydict :=
  [("recommendations", PList (map PStr (recommendations self)));
   ("cost_savings", PFloat (cost_savings self));
   ("value_adds", PList (map PStr (value_adds self)));
   ("final_plan", PStr (final_plan self));
   ("approval_required", PBool (approval_required self))].

End OptimizationResult.

(** ** The database ([db/db_utils.py]) *)

Module db_utils.

(** Modelled from the spec: the tables, whose declarations ([schema.sql])
    are not among the sources.  The spec gives [trips] the columns of
    [Trip] and [trip_plans] those of [TripPlanModel], [id] being the key,
    and states no constraint on the text of a status column; a row is the
    record of the model, stored under its [id]. *)
Record db : Type := mk_db {
  trips : gmap Z Trip.t;
  trip_plans : gmap Z TripPlanModel.t
}.

(** The integers [sqlite3] binds to a statement are those of 64 bits; on
    any other, [execute] raises [OverflowError] before the statement runs.
    The functions on the tables are modelled on parameters that bind; a
    statement that gives a result for a parameter the caller chooses says
    that it binds, and [plan_trip], whose integers come from the model's
    answer, checks it with [bind_ints]. *)
Definition sqlite_int (z : Z) : bool := (- 2 ^ 63 <=? z) && (z <? 2 ^ 63).

(** What [execute] does with the integers among its parameters. *)
Definition bind_ints (parameters : list Z) : result unit :=
  if forallb sqlite_int parameters then Ok tt
  else Raise (OverflowError "Python int too large to convert to SQLite INTEGER").

Definition set_trip_status (status : string) (r : Trip.t) : Trip.t :=
  Trip.mk (Trip.id r) (Trip.user_id r) (Trip.phase r) (Trip.title r)
    (Trip.origin r) (Trip.destination r) (Trip.trip_startdate r)
    (Trip.trip_enddate r) (Trip.accommodation_type r) (Trip.no_of_adults r)
    (Trip.no_of_children r) (Trip.budget r) (Trip.currency r) status
    (Trip.purpose r) (Trip.travel_preferences r) (Trip.travel_constraints r)
    (Trip.created_at r) (Trip.updated_at r).

Definition set_plan_status (status : string) (r : TripPlanModel.t) : TripPlanModel.t :=
  TripPlanModel.mk (TripPlanModel.id r) (TripPlanModel.trip_id r)
    (TripPlanModel.itinerary_json r) (TripPlanModel.hotels_json r)
    (TripPlanModel.flights_json r) (TripPlanModel.daily_budget r)
    (TripPlanModel.total_estimated_cost r) (TripPlanModel.generated_at r)
    (TripPlanModel.updated_at r) status (TripPlanModel.version r)
    (TripPlanModel.agent_metadata r).

(** [dict(row)] for a row of [trip_plans]. *)
Definition plan_row_dict (id : Z) (r : TripPlanModel.t) : pydict :=
  [("id", PInt id);
   ("trip_id", PInt (TripPlanModel.trip_id r));
   ("itinerary_json", opt_str (TripPlanModel.itinerary_json r));
   ("hotels_json", opt_str (TripPlanModel.hotels_json r));
   ("flights_json", opt_str (TripPlanModel.flights_json r));
   ("daily_budget", PFloat (TripPlanModel.daily_budget r));
   ("total_estimated_cost", PFloat (TripPlanModel.total_estimated_cost r));
   ("generated_at", opt_str (TripPlanModel.generated_at r));
   ("updated_at", opt_str (TripPlanModel.updated_at r));
   ("status", PStr (TripPlanModel.status r));
   ("version", PInt (TripPlanModel.version r));
   ("agent_metadata", opt_str (TripPlanModel.agent_metadata r))].

(** [WHERE trip_id=?] *)
Definition plans_of_trip (d : db) (trip_id : Z) : list (Z * TripPlanModel.t) :=
  List.filter (fun kr => TripPlanModel.trip_id (snd kr) =? trip_id)
              (map_to_list (trip_plans d)).

(** [ORDER BY version DESC LIMIT 1]: a row of the greatest version. *)
Fixpoint latest (rows : list (Z * TripPlanModel.t)) : option (Z * TripPlanModel.t) :=
  match rows with
  | [] => None
  | x :: rest =>
      match latest rest with
      | None => Some x
      | Some y =>
          if TripPlanModel.version (snd y) <=? TripPlanModel.version (snd x)
          then Some x else Some y
      end
  end.

(** The row the query of [get_trip_plan_by_trip_id] fetches. *)
Definition select_plan (d : db) (trip_id : Z) (version : option Z)
  : option (Z * TripPlanModel.t) :=
  match version with
  | Some v =>
      head (List.filter (fun kr => TripPlanModel.version (snd kr) =? v)
                        (plans_of_trip d trip_id))
  | None => latest (plans_of_trip d trip_id)
  end.

(** [get_trip_plan_by_trip_id] *)
Definition get_trip_plan_by_trip_id (d : db) (trip_id : Z) (version : option Z)
  : result (option TripPlanModel.t) :=
  match select_plan d trip_id version with
  | Some (id, r) => p ← TripPlanModel.new (plan_row_dict id r); Ok (Some p)
  | None => Ok None
  end.

(** [update_trip_plan_status]: the new state and whether a row changed. *)
Definition update_trip_plan_status (d : db) (plan_id : Z) (status : string)
  : db * bool :=
  match trip_plans d !! plan_id with
  | Some r =>
      (mk_db (trips d) (<[plan_id := set_plan_status status r]> (trip_plans d)), true)
  | None => (d, false)
  end.

(** [update_trip_status] *)
Definition update_trip_status (d : db) (trip_id : Z) (trip_status : string) : db :=
  mk_db (alter (set_trip_status trip_status) trip_id (trips d)) (trip_plans d).

(** [_serialize_value], on the values of this model (any other object is
    handed back as it is by the last [return value]); a [datetime] is kept
    as its text in this model, and so comes back as it is. *)
Definition _serialize_value (value : pyval) : result pyval :=
  match value with
  | PDict _ | PList _ => text ← Json.dumps value; Ok (PStr text)
  | PBool b => Ok (PInt (Z_of_bool b))
  | PDate d => Ok (PStr (date_isoformat d))
  | _ => Ok value
  end.

(** [dict(row)] for a row of [trips]: the two dates are there as the text
    that [_serialize_value] made of them. *)
Definition trip_row_dict (id : Z) (r : Trip.t) : pydict :=
  [("id", PInt id);
   ("user_id", PInt (Trip.user_id r));
   ("phase", PStr (Trip.phase r));
   ("title", PStr (Trip.title r));
   ("origin", PStr (Trip.origin r));
   ("destination", PStr (Trip.destination r));
   ("trip_startdate", PStr (date_isoformat (Trip.trip_startdate r)));
   ("trip_enddate", PStr (date_isoformat (Trip.trip_enddate r)));
   ("accommodation_type", PStr (Trip.accommodation_type r));
   ("no_of_adults", PInt (Trip.no_of_adults r));
   ("no_of_children", PInt (Trip.no_of_children r));
   ("budget", PFloat (Trip.budget r));
   ("currency", PStr (Trip.currency r));
   ("trip_status", PStr (Trip.trip_status r));
   ("purpose", PStr (Trip.purpose r));
   ("travel_preferences", PStr (Trip.travel_preferences r));
   ("travel_constraints", PStr (Trip.travel_constraints r));
   ("created_at", opt_str (Trip.created_at r));
   ("updated_at", opt_str (Trip.updated_at r))].

(** The row that [create_trip] inserts: the columns of the statement, and
    for the two it leaves out what the table puts there. *)
Definition trip_row (trip : Trip.t) (created_at updated_at : option string) : Trip.t :=
  Trip.mk None (Trip.user_id trip) (Trip.phase trip) (Trip.title trip)
    (Trip.origin trip) (Trip.destination trip) (Trip.trip_startdate trip)
    (Trip.trip_enddate trip) (Trip.accommodation_type trip) (Trip.no_of_adults trip)
    (Trip.no_of_children trip) (Trip.budget trip) (Trip.currency trip)
    (Trip.trip_status trip) (Trip.purpose trip) (Trip.travel_preferences trip)
    (Trip.travel_constraints trip) created_at updated_at.

(** [create_trip]: the new state and [int(tid)].  [lastrowid] is the key
    the table gives the new row, and [created_at] and [updated_at] are what
    it puts in the columns the statement leaves out; they depend on the
    declaration of the table ([schema.sql], not among the sources) and are
    arguments here.  The dates are in the row as they are, their text being
    made when the row is read. *)
Definition create_trip (d : db) (trip : Trip.t) (lastrowid : Z)
  (created_at updated_at : option string) : db * Z :=
  (mk_db (<[lastrowid := trip_row trip created_at updated_at]> (trips d))
         (trip_plans d),
   lastrowid).

(** [get_trip_by_id], on the day [today]. *)
Definition get_trip_by_id (today : date) (d : db) (trip_id : Z)
  : result (option Trip.t) :=
  match trips d !! trip_id with
  | Some r => t ← Trip.new today (trip_row_dict trip_id r); Ok (Some t)
  | None => Ok None
  end.

(** The statuses of a trip that is active. *)
Definition active_statuses : list string := ["draft"; "confirmed"; "in_progress"].

(** [WHERE user_id = ? AND trip_status IN (...)] *)
Definition active_trips_of (d : db) (user_id : Z) : list (Z * Trip.t) :=
  List.filter (fun kr => (Trip.user_id (snd kr) =? user_id)
                         && str_in (Trip.trip_status (snd kr)) active_statuses)
              (map_to_list (trips d)).

(** [ORDER BY id DESC LIMIT 1]: the row of the greatest key. *)
Fixpoint greatest_id {A : Type} (rows : list (Z * A)) : option (Z * A) :=
  match rows with
  | [] => None
  | x :: rest =>
      match greatest_id rest with
      | None => Some x
      | Some y => if fst y <=? fst x then Some x else Some y
      end
  end.

(** [get_active_trip_for_user], on the day [today]. *)
Definition get_active_trip_for_user (today : date) (d : db) (user_id : Z)
  : result (option Trip.t) :=
  match greatest_id (active_trips_of d user_id) with
  | None => Ok None
  | Some (id, r) => t ← Trip.new today (trip_row_dict id r); Ok (Some t)
  end.

(** The row that [create_trip_plan] inserts: the columns of the statement,
    and for the two it leaves out what the table puts there. *)
Definition plan_row (trip_plan : TripPlanModel.t)
  (generated_at updated_at : option string) : TripPlanModel.t :=
  TripPlanModel.mk None (TripPlanModel.trip_id trip_plan)
    (TripPlanModel.itinerary_json trip_plan) (TripPlanModel.hotels_json trip_plan)
    (TripPlanModel.flights_json trip_plan) (TripPlanModel.daily_budget trip_plan)
    (TripPlanModel.total_estimated_cost trip_plan) generated_at updated_at
    (TripPlanModel.status trip_plan) (TripPlanModel.version trip_plan)
    (TripPlanModel.agent_metadata trip_plan).

(** [create_trip_plan]: the new state and [int(plan_id)]; [lastrowid],
    [generated_at] and [updated_at] are arguments as they are for
    [create_trip]. *)
Definition create_trip_plan (d : db) (trip_plan : TripPlanModel.t) (lastrowid : Z)
  (generated_at updated_at : option string) : db * Z :=
  (mk_db (trips d)
         (<[lastrowid := plan_row trip_plan generated_at updated_at]> (trip_plans d)),
   lastrowid).

(** [save_travel_plan_to_db] *)
Definition save_travel_plan_to_db (d : db) (travel_plan : TravelPlan.t)
  (trip_id version : Z) (lastrowid : Z) (generated_at updated_at : option string)
  : result (db * Z) :=
  trip_plan_model ← TripPlanModel.from_travel_plan travel_plan trip_id version;
  Ok (create_trip_plan d trip_plan_model lastrowid generated_at updated_at).

(** [delete_trip_plan]: the new state and whether a row went. *)
Definition delete_trip_plan (d : db) (plan_id : Z) : db * bool :=
  match trip_plans d !! plan_id with
  | Some _ => (mk_db (trips d) (delete plan_id (trip_plans d)), true)
  | None => (d, false)
  end.

(** Modelled from the spec: the table [chat_history], whose declaration is
    not among the sources, beside the two other tables; the spec gives it
    the columns of [ChatHistory], [id] being the key. *)
Record store : Type := mk_store {
  tables : db;
  chat_history : gmap Z ChatHistory.t
}.

(** The row that [save_chat_message] inserts: every column but the key. *)
Definition chat_row (msg : ChatHistory.t) : ChatHistory.t :=
  ChatHistory.mk None (ChatHistory.trip_id msg) (ChatHistory.user_id msg)
    (ChatHistory.role msg) (ChatHistory.phase msg) (ChatHistory.content msg)
    (ChatHistory.metadata msg) (ChatHistory.sequence_number msg)
    (ChatHistory.created_at msg).

(** [save_chat_message]: the new state and [int(cid)], [lastrowid] being
    the key the table gives the new row. *)
Definition save_chat_message (s : store) (msg : ChatHistory.t) (lastrowid : Z)
  : store * Z :=
  (mk_store (tables s) (<[lastrowid := chat_row msg]> (chat_history s)), lastrowid).

(** [ORDER BY id DESC]: the rows by their keys, the greatest first. *)
Fixpoint insert_by_id_desc {A : Type} (x : Z * A) (l : list (Z * A)) : list (Z * A) :=
  match l with
  | [] => [x]
  | y :: l' => if fst y <=? fst x then x :: l else y :: insert_by_id_desc x l'
  end.

Definition order_by_id_desc {A : Type} (rows : list (Z * A)) : list (Z * A) :=
  fold_right insert_by_id_desc [] rows.

(** [LIMIT ?]: a negative limit is no limit. *)
Definition sql_limit {A : Type} (limit : Z) (rows : list A) : list A :=
  if limit <? 0 then rows else firstn (Z.to_nat limit) rows.

(** [get_recent_chat_by_user]: the role and the content of each message,
    the oldest first. *)
Definition get_recent_chat_by_user (s : store) (user_id : Z) (limit : Z)
  : list (string * string) :=
  let rows :=
    List.filter (fun kr => ChatHistory.user_id (snd kr) =? user_id)
                (map_to_list (chat_history s)) in
  let rows := sql_limit limit (order_by_id_desc rows) in
  map (fun kr => (ChatHistory.role (snd kr), ChatHistory.content (snd kr))) (rev rows).

End db_utils.

Import db_utils.

(** [update_trip_plan_status(plan.id, status)], [plan.id] being optional. *)
Definition update_status_of (d : db) (plan : TripPlanModel.t) (status : string) : db :=
  match TripPlanModel.id plan with
  | Some i => fst (update_trip_plan_status d i status)
  | None => d
  end.

(** ** The orchestrators ([phases/*/trip_orchestrator.py]) *)

Module CrewAITripOrchestrator.

(** [continue_trip_approval]: the new state and the response. *)
Definition continue_trip_approval (d : db) (trip_id : Z)
  (approval_decision user_feedback : string) : result (db * pydict) :=
  plan ← get_trip_plan_by_trip_id d trip_id None;
  match plan with
  | None => Ok (d, [("success", PBool false); ("error", PStr "Plan not found")])
  | Some p =>
      if String.eqb approval_decision "approved" then
        let d := update_status_of d p "approved" in
        let d := update_trip_status d trip_id "confirmed" in
        Ok (d, [("success", PBool true);
                ("trip_id", PInt trip_id);
                ("approval", PBool true);
                ("message", PStr "Travel plan approved successfully")])
      else
        let d := update_status_of d p "rejected" in
        let d := update_trip_status d trip_id "draft" in
        Ok (d, [("success", PBool true);
                ("trip_id", PInt trip_id);
                ("approval", PBool false);
                ("message", PStr "Travel plan rejected");
                ("feedback", PStr user_feedback)])
  end.

End CrewAITripOrchestrator.

Module AutoGenTripOrchestrator.

(** [continue_trip_approval] *)
Definition continue_trip_approval (d : db) (trip_id : Z)
  (approval_decision user_feedback : string) : result (db * pydict) :=
  plan ← get_trip_plan_by_trip_id d trip_id None;
  match plan with
  | None => Ok (d, [("success", PBool false); ("message", PStr "No plan found")])
  | Some p =>
      let d := update_status_of d p approval_decision in
      Ok (d, [("success", PBool true);
              ("message",
                PStr ("Travel plan " +:+ approval_decision +:+ " successfully"))])
  end.

End AutoGenTripOrchestrator.

(** The orchestrators of [PHASE_ORCHESTRATOR_MAP]. *)
Inductive orchestrator : Type := CrewAI | AutoGen | LangGraph.

(** [orchestrator.continue_trip_approval(...)]; the class of the LangGraph
    phase defines no such method. *)
Definition continue_trip_approval (o : orchestrator) (d : db) (trip_id : Z)
  (approval_decision user_feedback : string) : result (db * pydict) :=
  match o with
  | CrewAI =>
      CrewAITripOrchestrator.continue_trip_approval d trip_id approval_decision user_feedback
  | AutoGen =>
      AutoGenTripOrchestrator.continue_trip_approval d trip_id approval_decision user_feedback
  | LangGraph =>
      Raise (AttributeError "LangGraphTripOrchestrator has no continue_trip_approval")
  end.

(** ** The plan-status endpoint ([api/app.py]) *)

Module app.

(** The statuses [update_plan_status] lets through. *)
Definition allowed_statuses : list string :=
  ["draft"; "confirmed"; "approved"; "rejected"].

(** [update_plan_status]: the new state and the response. *)
Definition update_plan_status (d : db) (plan_id : Z) (status : string) : db * pydict :=
  let status := strip (lower status) in
  if negb (str_in status allowed_statuses) then
    (d, [("success", PBool false); ("error", PStr "Invalid status value")])
  else
    let '(d', updated) := update_trip_plan_status d plan_id status in
    if negb updated then
      (d', [("success", PBool false); ("error", PStr "Plan not found or update failed")])
    else
      (d', [("success", PBool true);
            ("plan_id", PInt plan_id);
            ("updated_status", PStr status)]).

(** [PHASE_ORCHESTRATOR_MAP] *)
Definition PHASE_ORCHESTRATOR_MAP : list (string * orchestrator) :=
  [("phase2_crewai", CrewAI); ("phase3_autogen", AutoGen); ("phase4_langgraph", LangGraph)].

(** [PHASE_ORCHESTRATOR_MAP[phase]], [None] when the phase is not in it. *)
Fixpoint orchestrator_of (m : list (string * orchestrator)) (phase : string)
  : option orchestrator :=
  match m with
  | [] => None
  | (k, o) :: m' => if String.eqb k phase then Some o else orchestrator_of m' phase
  end.

(** What an endpoint answers: the dict it returns, or, from its [except]
    branch, the dict [{"success": False, "error": str(e)}], which is kept
    as the exception [e] it was made of, the text of an exception being
    outside the model. *)
Inductive response : Type :=
| Returned (body : pydict)
| Failed (e : exn).

(** [approve_trip]: the new state and the response.  The orchestrators
    raise before they write, so the state an exception leaves is the one
    the call started with. *)
Definition approve_trip (d : db) (request : ApprovalRequest.t) : db * response :=
  match orchestrator_of PHASE_ORCHESTRATOR_MAP (ApprovalRequest.phase request) with
  | None => (d, Returned [("success", PBool false); ("error", PStr "Unsupported phase")])
  | Some orchestrator =>
      let decision := if ApprovalRequest.approval request then "approved" else "rejected" in
      let user_feedback :=
        match py_or (opt_str (ApprovalRequest.feedback request)) (PStr "") with
        | PStr text => text
        | _ => ""
        end in
      match continue_trip_approval orchestrator d (ApprovalRequest.trip_id request)
              decision user_feedback with
      | Raise e => (d, Failed e)
      | Ok (d', result) =>
          match get_trip_plan_by_trip_id d' (ApprovalRequest.trip_id request) None with
          | Raise e => (d', Failed e)
          | Ok plan =>
              (d', Returned
                     [("success", PBool true);
                      ("trip_id", PInt (ApprovalRequest.trip_id request));
                      ("user_id", PInt (ApprovalRequest.user_id request));
                      ("approval", PBool (ApprovalRequest.approval request));
                      ("feedback", opt_str (ApprovalRequest.feedback request));
                      ("updated_status", PStr decision);
                      ("plan_id",
                        match plan with
                        | Some p => opt_int (TripPlanModel.id p)
                        | None => PNone
                        end);
                      ("message",
                        dict_get_default result "message" (PStr "Approval processed"))])
          end
      end
  end.

(** [get_trip_plan] *)
Definition get_trip_plan (d : db) (trip_id : Z) (version : option Z) : response :=
  match get_trip_plan_by_trip_id d trip_id version with
  | Raise e => Failed e
  | Ok None => Returned [("success", PBool false); ("error", PStr "Trip plan not found")]
  | Ok (Some trip_plan) =>
      match TripPlanModel.to_travel_plan trip_plan with
      | Raise e => Failed e
      | Ok plan =>
          Returned
            [("success", PBool true);
             ("plan", PDict (TravelPlan.dict plan));
             ("metadata",
               PDict [("trip_id", PInt (TripPlanModel.trip_id trip_plan));
                      ("version", PInt (TripPlanModel.version trip_plan));
                      ("status", PStr (TripPlanModel.status trip_plan));
                      ("generated_at", opt_str (TripPlanModel.generated_at trip_plan))])]
      end
  end.

(** [save_trip_plan]: the new state and the response; the three last
    arguments are those of [create_trip_plan]. *)
Definition save_trip_plan (d : db) (trip_id : Z) (travel_plan : TravelPlan.t)
  (version : Z) (lastrowid : Z) (generated_at updated_at : option string)
  : db * response :=
  match save_travel_plan_to_db d travel_plan trip_id version lastrowid
          generated_at updated_at with
  | Raise e => (d, Failed e)
  | Ok (d', plan_id) =>
      (d', Returned
             [("success", PBool true);
              ("plan_id", PInt plan_id);
              ("message",
                PStr ("Trip plan saved for trip " +:+ str_of (Json.Z_chars trip_id)))])
  end.

End app.

(** ** The agents of phase 2 ([phases/phase2_crewai/trip_agents.py])

    The language model is outside: each agent is a function of the text
    [str(result)] that [crew.kickoff()] handed back. *)

(** [json.loads(raw[start:end])] with [start = raw.find("{")] and
    [end = raw.rfind("}") + 1]. *)
Definition loads_braces (raw : list ascii) : result pyval :=
  let start := find_char "{"%char raw in
  let stop := rfind_char "}"%char raw + 1 in
  Json.loads (str_of (slice raw start stop)).

(** [all(data.get(k) for k in keys)] *)
Definition all_truthy (data : pydict) (keys : list string) : bool :=
  forallb (fun k => truthy (dict_get data k)) keys.

Module trip_agents.

Definition core_fields : list string :=
  ["origin"; "destination"; "trip_startdate"; "trip_enddate"; "budget"].

(** [v in ("trip", "missing")] *)
Definition is_mode (v : pyval) : bool := is_str v "trip" || is_str v "missing".

(** The two blocks that recompute [mode] when it is none of the two. *)
Definition fix_mode (data : pydict) : pydict :=
  if is_mode (dict_get data "mode") then data
  else dict_set data "mode"
         (PStr (if all_truthy data core_fields then "trip" else "missing")).

Definition is_blank (v : pyval) : bool :=
  is_str v "" || is_str v "null" || is_str v "undefined".

(** The loop that turns the blank strings into [None]. *)
Definition blanks_to_none (data : pydict) : pydict :=
  map (fun kv => (fst kv, if is_blank (snd kv) then PNone else snd kv)) data.

(** [if not data.get(key): data[key] = dflt] *)
Definition default_if_falsy (data : pydict) (key : string) (dflt : pyval) : pydict :=
  if truthy (dict_get data key) then data else dict_set data key dflt.

(** The two blocks on [budget]: [float(...)], or [None] when it raises. *)
Definition fix_budget (data : pydict) : pydict :=
  match dict_get data "budget" with
  | PNone => data
  | v =>
      dict_set data "budget"
        (match py_float v with Ok f => PFloat f | Raise _ => PNone end)
  end.

(** [try: data[key] = int(data.get(key) or dflt)], and [dflt] when that
    raises. *)
Definition fix_count (data : pydict) (key : string) (dflt : Z) : pydict :=
  dict_set data key
    (PInt (match py_int (py_or (dict_get data key) (PInt dflt)) with
           | Ok z => z
           | Raise _ => dflt
           end)).

Definition required_string_defaults : list (string * string) :=
  [("purpose", "leisure");
   ("currency", "INR");
   ("accommodation_type", "hotel");
   ("travel_preferences", "none");
   ("travel_constraints", "none")].

Definition fix_strings (data : pydict) : pydict :=
  fold_left (fun data kd => default_if_falsy data (fst kd) (PStr (snd kd)))
            required_string_defaults data.

(** The post-processing of the parsed payload, from the normalization of
    [mode] to the string defaults: the keyword arguments the requirements
    are then built from. *)
Definition post_process (data : pydict) : pydict :=
  let data := fix_mode data in
  let data := blanks_to_none data in
  let data := default_if_falsy data "currency" (PStr "INR") in
  let data := default_if_falsy data "purpose" (PStr "leisure") in
  let data := fix_mode data in
  let data := fix_budget data in
  let data := fix_count data "no_of_adults" 1 in
  let data := fix_count data "no_of_children" 0 in
  let data := fix_budget data in
  fix_strings data.

(** [info_collector], from the text of the model's answer on. *)
Definition info_collector (result_text : string) : result TripRequirements.t :=
  let raw := remove_all "```" (remove_all "```json" (chars result_text)) in
  match loads_braces raw with
  | Raise _ =>
      TripRequirements.new
        [("mode", PStr "missing");
         ("missing_fields", PList [PStr "origin"; PStr "destination"])]
  | Ok (PDict data) => TripRequirements.new (post_process data)
  | Ok (PList _) => Raise (AttributeError "list has no attribute get")
  | Ok _ => Raise (AttributeError "object has no attribute get")
  end.


Definition fallback_hotel (requirements : TripRequirements.t) : pyval :=
  PDict [("name", PStr "Tool fallback hotel");
         ("price_per_night", PInt 0);
         ("rating", PInt 0);
         ("location", opt_str (TripRequirements.destination requirements));
         ("amenities", PList [])].

Definition fallback_flight (requirements : TripRequirements.t) : pyval :=
  PDict [("airline", PStr "Tool fallback");
         ("departure", opt_date (TripRequirements.trip_startdate requirements));
         ("arrival", opt_date (TripRequirements.trip_enddate requirements))].

(** The adapter for an answer wrapped in [trip], and the safety defaults.
    Their outcome is dropped by the second [json.loads]; what stays of them
    is that [t.get] raises when [t] is no dict. *)
Definition adapt (requirements : TripRequirements.t) (data : pydict) : result pydict :=
  data ←
    (if dict_has data "trip" then
       match dict_get data "trip" with
       | PDict t =>
           let budget := opt_float (TripRequirements.budget requirements) in
           Ok [("itinerary", dict_get_default t "itinerary" (PStr "Planned itinerary"));
               ("hotels", dict_get_default t "hotels" (PList []));
               ("flights", dict_get_default t "flights" (PList []));
               ("daily_budget",
                 match TripRequirements.budget requirements with
                 | Some b => if truthy budget then PFloat (float_div4 b) else PInt 0
                 | None => PInt 0
                 end);
               ("total_estimated_cost", budget)]
       | _ => Raise (AttributeError "object has no attribute get")
       end
     else Ok data);
  let data := dict_setdefault data "hotels" (PList []) in
  let data := dict_setdefault data "flights" (PList []) in
  let data := dict_setdefault data "daily_budget" (PInt 0) in
  Ok (dict_setdefault data "total_estimated_cost"
        (opt_float (TripRequirements.budget requirements))).

(** The hard validation guard. *)
Definition guard (requirements : TripRequirements.t) (data : pydict) : pydict :=
  let data :=
    if truthy (dict_get data "hotels") then data
    else dict_set data "hotels" (PList [fallback_hotel requirements]) in
  if truthy (dict_get data "flights") then data
  else dict_set data "flights" (PList [fallback_flight requirements]).

(** On a payload that is no dict the membership test, the subscript or
    [setdefault] raises. *)
Definition as_dict (v : pyval) : result pydict :=
  match v with
  | PDict d => Ok d
  | _ => Raise (TypeError "the payload is no dict")
  end.

(** The body of the [try]. *)
Definition try_block (requirements : TripRequirements.t) (result_text : string)
  : result TravelPlan.t :=
  let raw := remove_all "```" (remove_all "```json" (chars result_text)) in
  let raw := drop_trailing_commas "}"%char false raw in
  let raw := drop_trailing_commas "]"%char false raw in
  first ← loads_braces raw;
  first ← as_dict first;
  _ ← adapt requirements first;
  data ← loads_braces raw;
  data ← as_dict data;
  TravelPlan.new (guard requirements data).

(** The plan of the [except] branch. *)
Definition fallback_plan (requirements : TripRequirements.t) : TravelPlan.t :=
  TravelPlan.mk (PStr "Fallback plan") [] [] float_zero
                (TripRequirements.budget requirements).

(** [planner], from the text of the model's answer on. *)
Definition planner (requirements : TripRequirements.t) (result_text : string)
  : TravelPlan.t :=
  match try_block requirements result_text with
  | Ok plan => plan
  | Raise _ => fallback_plan requirements
  end.

(** [optimizer], from the text of the model's answer on. *)
Definition optimizer (result_text : string) : OptimizationResult.t :=
  match (v ← Json.loads result_text; values ← as_dict v; OptimizationResult.new values) with
  | Ok optimization => optimization
  | Raise _ =>
      OptimizationResult.mk ["Basic optimization applied"] float_zero []
        "Optimization complete" true
  end.

End trip_agents.

(** ** [CrewAITripOrchestrator.plan_trip]
    ([phases/phase2_crewai/trip_orchestrator.py]) *)

Module CrewAIPlanning.

(** [self.phase] *)
Definition phase : string := "phase2_crewai".

Definition trigger_words : list string :=
  ["plan"; "new trip"; "start trip"; "plan a trip"].

(** The line feed. *)
Definition newline : string := String "010"%char "".

(** [_build_context] *)
Definition _build_context (s : store) (user_id : Z) (new_input : string) : string :=
  if existsb (fun w => contains (lower new_input) w) trigger_words
  then "User: " +:+ new_input
  else
    let history := get_recent_chat_by_user s user_id 6 in
    let convo :=
      map (fun m => (if String.eqb (fst m) "user" then "User" else "Assistant")
                    +:+ ": " +:+ snd m) history in
    join newline (convo ++ ["User: " +:+ new_input]).

(** What the tables decide in the course of a call: the keys of the rows
    that are inserted, and what the tables put in the columns that the
    statements leave out. *)
Record table_values : Type := mk_table_values {
  chat_rowid : Z;
  trip_rowid : Z;
  trip_created_at : option string;
  trip_updated_at : option string;
  plan_rowid : Z;
  plan_generated_at : option string;
  plan_updated_at : option string;
  reply_rowid : Z
}.

(** The language model, outside: the text each agent gets back, as a
    function of what the agent is handed. *)
Record model_answers : Type := mk_model_answers {
  extract_answer : string -> string;
  plan_answer : TripRequirements.t -> string;
  optimize_answer : TravelPlan.t -> string
}.

(** The response of a call that stops for want of information. *)
Definition incomplete (missing_fields : pyval) (message : pyval) : pydict :=
  [("success", PBool false);
   ("status", PStr "INCOMPLETE");
   ("missing_fields", missing_fields);
   ("message", message)].

(** [plan_trip], on the day [today]: the state it leaves, and the dict it
    returns or the exception it raises.  The two statements that bind an
    integer the caller or the model's answer chose, the first
    [save_chat_message] and [create_trip], raise [OverflowError] when it is
    not of 64 bits; the keys bound later are keys the tables gave. *)
Definition plan_trip (w : table_values) (llm : model_answers) (today : date)
  (s : store) (user_input : string) (user_id : Z) (trip_title : string)
  : store * result pydict :=
  match ChatHistory.new [("trip_id", PNone); ("user_id", PInt user_id);
                         ("role", PStr "user"); ("phase", PStr phase);
                         ("content", PStr user_input)] with
  | Raise e => (s, Raise e)
  | Ok msg =>
  match bind_ints [ChatHistory.user_id msg] with
  | Raise e => (s, Raise e)
  | Ok _ =>
  let s := fst (save_chat_message s msg (chat_rowid w)) in
  let context_input := _build_context s user_id user_input in
  match trip_agents.info_collector (extract_answer llm context_input) with
  | Raise e => (s, Raise e)
  | Ok requirements =>
  let missing_fields :=
    match TripRequirements.missing_fields requirements with
    | Some l => PList (map PStr l)
    | None => PNone
    end in
  let required_core :=
    [opt_str (TripRequirements.origin requirements);
     opt_str (TripRequirements.destination requirements);
     opt_date (TripRequirements.trip_startdate requirements);
     opt_date (TripRequirements.trip_enddate requirements);
     opt_float (TripRequirements.budget requirements)] in
  if negb (forallb truthy required_core) then
    (s, Ok (incomplete missing_fields (PStr "Core fields missing")))
  else if negb (TripRequirements.is_complete requirements) then
    (s, Ok (incomplete missing_fields
              (py_or (opt_str (TripRequirements.agent_message requirements))
                     (PStr "Additional information needed"))))
  else if match TripRequirements.trip_startdate requirements with
          | Some start => date_leb start today
          | None => false
          end then
    (s, Ok (incomplete (PList [PStr "trip_startdate"])
              (PStr "Trip start date must be in the future")))
  else
  match TripRequirements.to_trip_dict requirements user_id phase trip_title with
  | Raise e => (s, Raise e)
  | Ok trip_data =>
  match Trip.new today trip_data with
  | Raise e => (s, Raise e)
  | Ok trip =>
  match bind_ints [Trip.user_id trip; Trip.no_of_adults trip;
                   Trip.no_of_children trip] with
  | Raise e => (s, Raise e)
  | Ok _ =>
  let '(d, trip_id) :=
    create_trip (tables s) trip (trip_rowid w) (trip_created_at w) (trip_updated_at w) in
  let d := update_trip_status d trip_id "draft" in
  let plan_result := trip_agents.planner requirements (plan_answer llm requirements) in
  match save_travel_plan_to_db d plan_result trip_id 1 (plan_rowid w)
          (plan_generated_at w) (plan_updated_at w) with
  | Raise e => (mk_store d (chat_history s), Raise e)
  | Ok (d, _) =>
  let opt_result := trip_agents.optimizer (optimize_answer llm plan_result) in
  match ChatHistory.new [("trip_id", PInt trip_id); ("user_id", PInt user_id);
                         ("role", PStr "assistant"); ("phase", PStr phase);
                         ("content", PStr "Trip plan generated and optimized")] with
  | Raise e => (mk_store d (chat_history s), Raise e)
  | Ok reply =>
  let s := fst (save_chat_message (mk_store d (chat_history s)) reply (reply_rowid w)) in
  (s, Ok [("success", PBool true);
          ("status", PStr "OPTIMIZED");
          ("trip_id", PInt trip_id);
          ("message", PStr "Trip planned successfully");
          ("requirements", PDict (TripRequirements.dict requirements));
          ("plan", PDict (TravelPlan.dict plan_result));
          ("optimization", PDict (OptimizationResult.dict opt_result))])
  end end end end end end end end.

End CrewAIPlanning.

(** ** Notions the statements use *)

(** The construction is in "trip" mode: [mode] is not given, or is "trip". *)
Definition trip_mode (values : pydict) : bool :=
  is_str (dict_get_default values "mode" (PStr "trip")) "trip".

(** A field is absent: the key is not given, or is given as [None]. *)
Definition is_absent (values : pydict) (key : string) : bool :=
  match dict_lookup values key with
  | None | Some PNone => true
  | Some _ => false
  end.

Definition absent_fields (values : pydict) : list string :=
  List.filter (is_absent values) TripRequirements.required_fields.

(** The value given for [key], if any, is one its field converts. *)
Definition typed {A : Type} (values : pydict) (key : string)
  (coerce : pyval -> option A) : bool :=
  match dict_lookup values key with
  | None => true
  | Some v => match coerce v with Some _ => true | None => false end
  end.

(** Every value given for a field that [auto_fix_and_validate] leaves alone
    is one the field converts. *)
Definition requirement_fields_typed (values : pydict) : bool :=
  typed values "origin" (as_optional as_str)
  && typed values "destination" (as_optional as_str)
  && typed values "trip_startdate" (as_optional as_date)
  && typed values "trip_enddate" (as_optional as_date)
  && typed values "no_of_adults" (as_optional as_int)
  && typed values "no_of_children" as_int
  && typed values "budget" (as_optional as_float)
  && typed values "currency" as_str
  && typed values "accommodation_type" as_str
  && typed values "purpose" as_str
  && typed values "travel_preferences" as_str
  && typed values "travel_constraints" as_str.

Import trip_agents.
Import Json.

(** * Vocabulary of the statements *)

(** What a normalization can return. *)
Definition normalize_range (valid_types : list string) : list string :=
  "hotel" :: map snd accommodation_mapping ++ valid_types.

(** The keyword arguments once [mode] is set. *)
Definition with_mode (values : pydict) : pydict :=
  if dict_has values "mode" then values else dict_set values "mode" (PStr "trip").

(** Keyword arguments with no origin and a budget of zero. *)
Definition no_origin_zero_budget : pydict :=
  [("destination", PStr "Goa");
   ("trip_startdate", PDate (Date 2027 3 15));
   ("trip_enddate", PDate (Date 2027 3 18));
   ("no_of_adults", PInt 2);
   ("budget", PInt 0)].

(** Complete keyword arguments but for a budget of zero. *)
Definition complete_zero_budget : pydict :=
  [("origin", PStr "Bangalore");
   ("destination", PStr "Goa");
   ("trip_startdate", PDate (Date 2027 3 15));
   ("trip_enddate", PDate (Date 2027 3 18));
   ("no_of_adults", PInt 2);
   ("budget", PInt 0)].

(** The keyword arguments of a trip of three nights, and of one that ends
    on the day it starts. *)
Definition goa_trip (trip_enddate : date) : pydict :=
  [("user_id", PInt 1);
   ("phase", PStr "phase2_crewai");
   ("origin", PStr "Bangalore");
   ("destination", PStr "Goa");
   ("trip_startdate", PDate (Date 2027 3 15));
   ("trip_enddate", PDate trip_enddate);
   ("accommodation_type", PStr "Luxury Hotel");
   ("budget", PInt 40000)].

(** The model of a row: the row with its key as [id]. *)
Definition plan_of_row (id : Z) (r : TripPlanModel.t) : TripPlanModel.t :=
  TripPlanModel.mk (Some id) (TripPlanModel.trip_id r)
    (TripPlanModel.itinerary_json r) (TripPlanModel.hotels_json r)
    (TripPlanModel.flights_json r) (TripPlanModel.daily_budget r)
    (TripPlanModel.total_estimated_cost r) (TripPlanModel.generated_at r)
    (TripPlanModel.updated_at r) (TripPlanModel.status r)
    (TripPlanModel.version r) (TripPlanModel.agent_metadata r).

(** The rows of a trip all have other versions. *)
Definition unique_versions (d : db) : Prop :=
  forall i j r s,
    trip_plans d !! i = Some r -> trip_plans d !! j = Some s ->
    TripPlanModel.trip_id r = TripPlanModel.trip_id s ->
    TripPlanModel.version r = TripPlanModel.version s -> i = j.

(** A row of [trip_plans] with empty lists. *)
Definition sample_plan (trip_id version : Z) (status : string) : TripPlanModel.t :=
  TripPlanModel.mk None trip_id (Some "[]") (Some "[]") (Some "[]")
    float_zero float_zero None None status version None.

(** A trip with a first plan marked "confirmed" and a second plan. *)
Definition two_versions_db : db :=
  mk_db ∅ (<[2 := sample_plan 1 2 "draft"]> (<[1 := sample_plan 1 1 "confirmed"]> ∅)).

(** The statuses [continue_trip_approval] is to write: that of the plan
    and that of the trip. *)
Definition approval_outcome (approval_decision : string) : string * string :=
  if String.eqb approval_decision "approved"
  then ("approved", "confirmed")
  else ("rejected", "draft").

(** A row of [trips]. *)
Definition sample_trip (status : string) : Trip.t :=
  Trip.mk (Some 1) 1 "phase3_autogen" "My Trip" "Bangalore" "Goa"
    (Date 2027 3 15) (Date 2027 3 18) "hotel" 2 0 (FDec 40000 0) "INR" status
    "leisure" "none" "none" None None.

(** Trip 1 as [plan_trip] of phase 3 leaves it: in progress, with a draft
    plan. *)
Definition planned_db : db :=
  mk_db (<[1 := sample_trip "in_progress"]> ∅) (<[1 := sample_plan 1 1 "draft"]> ∅).

(** [int(v or dflt)], and [dflt] when it raises. *)
Definition coerced_count (v : pyval) (dflt : Z) : Z :=
  match py_int (py_or v (PInt dflt)) with
  | Ok z => z
  | Raise _ => dflt
  end.

(** [float(v)] unless [v] is [None], and [None] when it raises. *)
Definition coerced_budget (v : pyval) : pyval :=
  match v with
  | PNone => PNone
  | _ => match py_float v with Ok f => PFloat f | Raise _ => PNone end
  end.

(** The value after the blanks are replaced: [None] for a blank. *)
Definition unblank (v : pyval) : pyval := if is_blank v then PNone else v.

(** A payload that counts minus three adults and minus two children. *)
Definition negative_counts : pydict :=
  [("origin", PStr "Bangalore");
   ("no_of_adults", PInt (-3));
   ("no_of_children", PInt (-2))].

(** An answer of the model in which the hotels and the flights are names,
    not objects. *)
Definition names_only_answer : string :=
  match Json.dumps (PDict [("itinerary", PStr "Three days in Goa");
                           ("hotels", PList [PStr "Taj Exotica"]);
                           ("flights", PList [PStr "AI 101"])]) with
  | Ok text => text
  | Raise _ => ""
  end.

(** The placeholders of the guard, as records. *)
Definition fallback_hotel_record (location : string) : HotelSuggestion.t :=
  HotelSuggestion.mk "Tool fallback hotel" float_zero float_zero location [].

Definition fallback_flight_record : FlightSuggestion.t :=
  FlightSuggestion.mk "Tool fallback" "Time TBD" None float_zero "Duration TBD" 0.

(** ** The values JSON has a form for *)

(** The elements of a list, as [encode] writes them between the brackets. *)
Fixpoint encode_items (l : list pyval) : option (list ascii) :=
  match l with
  | [] => Some []
  | x :: l' =>
      a ← encode x;
      match l' with
      | [] => Some a
      | _ :: _ => b ← encode_items l'; Some (a ++ chars ", " ++ b)
      end
  end.

(** The members of a dict, as [encode] writes them between the braces. *)
Fixpoint encode_members (d : list (string * pyval)) : option (list ascii) :=
  match d with
  | [] => Some []
  | (k, x) :: d' =>
      a ← encode x;
      let m := quote k ++ chars ": " ++ a in
      match d' with
      | [] => Some m
      | _ :: _ => b ← encode_members d'; Some (m ++ chars ", " ++ b)
      end
  end.

(** The values [json.dumps] writes and [json.loads] reads back as they
    were, among those of this model: no date in them (dumps raises
    [TypeError] on one), and, as in any Python dict, no key twice in a dict.
    These are the values [json.loads] returns; a tuple or a key that is not
    a string, which dumps writes and loads reads back as a list or as a
    string, is no value of the model. *)
Fixpoint json_ok (v : pyval) : bool :=
  match v with
  | PDate _ => false
  | PList l => forallb json_ok l
  | PDict d =>
      bool_decide (NoDup (map fst d)) && forallb (fun kx => json_ok (snd kx)) d
  | _ => true
  end.

(** A decimal digit. *)
Definition is_digit_char (c : ascii) : bool :=
  match digit_of c with Some _ => true | None => false end.

(** The text does not go on with a digit. *)
Definition digits_end (rest : list ascii) : bool :=
  match rest with
  | [] => true
  | c :: _ => negb (is_digit_char c)
  end.

(** The text does not go on with what could continue a number. *)
Definition number_end (rest : list ascii) : bool :=
  match rest with
  | [] => true
  | c :: _ =>
      negb (is_digit_char c || is_char c "." || is_char c "e" || is_char c "E")
  end.

(** The digits of a natural number, and the number they are read as. *)
Definition nat_digits (z : Z) : uint :=
  match z with
  | Z.pos p => Pos.to_uint p
  | _ => D0 Nil
  end.

(** Induction on a value, with the hypothesis on every element of a list
    and on every value of a dict. *)
Fixpoint pyval_nested_ind (P : pyval -> Prop)
  (HNone : P PNone) (HBool : forall b, P (PBool b)) (HInt : forall z, P (PInt z))
  (HFloat : forall f, P (PFloat f)) (HStr : forall s, P (PStr s))
  (HDate : forall d, P (PDate d))
  (HList : forall l, List.Forall P l -> P (PList l))
  (HDict : forall d, List.Forall (fun kx => P (snd kx)) d -> P (PDict d))
  (v : pyval) {struct v} : P v :=
  match v with
  | PNone => HNone
  | PBool b => HBool b
  | PInt z => HInt z
  | PFloat f => HFloat f
  | PStr s => HStr s
  | PDate d => HDate d
  | PList l =>
      HList l
        ((fix go (l : list pyval) : List.Forall P l :=
            match l with
            | [] => @List.Forall_nil _ P
            | x :: r =>
                @List.Forall_cons _ P x r
                  (pyval_nested_ind P HNone HBool HInt HFloat HStr HDate HList HDict x)
                  (go r)
            end) l)
  | PDict d =>
      HDict d
        ((fix go (d : list (string * pyval)) : List.Forall (fun kx => P (snd kx)) d :=
            match d with
            | [] => @List.Forall_nil _ _
            | kx :: r =>
                @List.Forall_cons _ (fun kx => P (snd kx)) kx r
                  (pyval_nested_ind P HNone HBool HInt HFloat HStr HDate HList HDict (snd kx))
                  (go r)
            end) d)
  end.

(** A character a value can start with. *)
Definition value_start (c : ascii) : bool :=
  negb (is_ws c || is_char c "]" || is_char c "}" || is_char c "," || is_char c ":").

(** What the decoder owes for a value: the text of the value, followed by
    anything that does not continue a number, is read back as the value. *)
Definition reads_back (v : pyval) : Prop :=
  forall out, encode v = Some out -> json_ok v = true ->
  forall fuel rest, (length out <= fuel)%nat -> number_end rest = true ->
  parse_value fuel (out ++ rest) = Some (v, rest).

(** [x or 0.0] for the total of a plan. *)
Definition total_or_zero (total : option pyfloat) : pyfloat :=
  match total with
  | Some f => if truthy (PFloat f) then f else float_zero
  | None => float_zero
  end.

(** The plan that comes back from the database. *)
Definition round_trip (X : TravelPlan.t) (trip_id version : Z) : result TravelPlan.t :=
  m ← TripPlanModel.from_travel_plan X trip_id version;
  TripPlanModel.to_travel_plan m.

(** The list [[h.dict() for h in travel_plan.hotels]]. *)
Definition hotels_value (hs : list HotelSuggestion.t) : pyval :=
  PList (map (fun h => PDict (HotelSuggestion.dict h)) hs).

(** The list [[f.dict() for f in travel_plan.flights]]. *)
Definition flights_value (fs : list FlightSuggestion.t) : pyval :=
  PList (map (fun f => PDict (FlightSuggestion.dict f)) fs).

(** [TravelPlan()]: every field at its default. *)
Definition default_plan : TravelPlan.t :=
  TravelPlan.mk (PStr "Itinerary will be provided") [] [] float_zero None.

(** A plan with a day of itinerary, a hotel, a flight and a total. *)
Definition goa_plan : TravelPlan.t :=
  TravelPlan.mk
    (PList [PDict [("day", PInt 1); ("activities", PList [PStr "Beach"; PStr "Fort"]);
                   ("budget_allocation", PFloat (FDec 1205 (-1)))]])
    [HotelSuggestion.mk "Taj Exotica" (FDec 150 0) (FDec 45 (-1)) "Benaulim"
       ["WiFi"; "Pool"]]
    [FlightSuggestion.mk "Air India" "2026-12-01T09:00" (Some "2026-12-01T11:30")
       (FDec 2005 (-1)) "2h 30m" 0]
    (FDec 100 0) (Some (FDec 9505 (-1))).

(** ** Further inputs *)

(** The keyword arguments of complete requirements. *)
Definition goa_requirements : pydict :=
  [("origin", PStr "Bangalore");
   ("destination", PStr "Goa");
   ("trip_startdate", PStr "2027-03-15");
   ("trip_enddate", PStr "2027-03-18");
   ("no_of_adults", PInt 2);
   ("budget", PInt 40000);
   ("accommodation_type", PStr "budget")].

(** Keyword arguments in "missing" mode that say nothing else. *)
Definition missing_only : pydict := [("mode", PStr "missing")].

(** Keyword arguments of a plan whose lists hold names among the dicts. *)
Definition mixed_plan : pydict :=
  [("itinerary", PStr "Three days in Goa");
   ("hotels", PList [PDict [("name", PStr "Taj Exotica")]; PStr "Leela"; PDict []]);
   ("flights", PList [PStr "AI 101"])].

(** The model of a row of [trips]: the row with its key as [id]. *)
Definition trip_of_row (id : Z) (r : Trip.t) : Trip.t :=
  Trip.mk (Some id) (Trip.user_id r) (Trip.phase r) (Trip.title r)
    (Trip.origin r) (Trip.destination r) (Trip.trip_startdate r)
    (Trip.trip_enddate r) (Trip.accommodation_type r) (Trip.no_of_adults r)
    (Trip.no_of_children r) (Trip.budget r) (Trip.currency r)
    (Trip.trip_status r) (Trip.purpose r) (Trip.travel_preferences r)
    (Trip.travel_constraints r) (Trip.created_at r) (Trip.updated_at r).

(** A row of [trips] that [Trip] validates again when it is read. *)
Definition trip_row_ok (r : Trip.t) : Prop :=
  In (Trip.phase r) Trip.phases
  /\ In (Trip.trip_status r) Trip.statuses
  /\ In (Trip.accommodation_type r) (normalize_range Trip.valid_types)
  /\ 1 <= Trip.no_of_adults r
  /\ 0 <= Trip.no_of_children r
  /\ 0 <= fmant (Trip.budget r)
  /\ valid_date (Trip.trip_startdate r) = true
  /\ valid_date (Trip.trip_enddate r) = true
  /\ date_ltb (Trip.trip_startdate r) (Trip.trip_enddate r) = true.

(** The text [info_collector] hands to [json.loads], before the slice. *)
Definition info_raw (result_text : string) : list ascii :=
  remove_all "```" (remove_all "```json" (chars result_text)).

(** The text [planner] hands to [json.loads], before the slice. *)
Definition planner_raw (result_text : string) : list ascii :=
  drop_trailing_commas "]"%char false
    (drop_trailing_commas "}"%char false
       (remove_all "```" (remove_all "```json" (chars result_text)))).

(** The requirements [info_collector] falls back to. *)
Definition ask_origin_destination : TripRequirements.t :=
  TripRequirements.mk "missing" None None None None (Some 1) 0 None "USD" "hotel"
    "leisure" "none" "none" (Some "MISSING") (Some ["origin"; "destination"])
    (Some "Additional information needed").

(** Complete requirements, as an object. *)
Definition goa_requirements_object : TripRequirements.t :=
  TripRequirements.mk "trip" (Some "Bangalore") (Some "Goa") (Some (Date 2027 3 15))
    (Some (Date 2027 3 18)) (Some 2) 0 (Some (FDec 40000 0)) "INR" "hotel" "leisure"
    "none" "none" None None None.

(** What an answer wrapped in [trip] holds. *)
Definition wrapped_plan : pydict :=
  [("itinerary", PStr "Three days in Goa");
   ("hotels", PList [PDict [("name", PStr "Taj Exotica")]]);
   ("flights", PList [PDict [("airline", PStr "Air India")]])].

(** An answer of the model that wraps its plan in [trip]. *)
Definition wrapped_answer : string :=
  match Json.dumps (PDict [("trip", PDict wrapped_plan)]) with
  | Ok text => text
  | Raise _ => ""
  end.

(** The values SQLite takes as they are: [None], a number or a text. *)
Definition is_scalar (v : pyval) : bool :=
  match v with
  | PNone | PInt _ | PFloat _ | PStr _ => true
  | _ => false
  end.

(** A list or a dict. *)
Definition is_container (v : pyval) : bool :=
  match v with
  | PList _ | PDict _ => true
  | _ => false
  end.

(** ** The run of [plan_trip] *)

(** The message of the user, as [plan_trip] logs it. *)
Definition user_message (user_id : Z) (user_input : string) : ChatHistory.t :=
  ChatHistory.mk None None user_id "user" (Some CrewAIPlanning.phase) user_input
    None None None.

(** The message [plan_trip] logs once the plan is stored. *)
Definition assistant_message (trip_id user_id : Z) : ChatHistory.t :=
  ChatHistory.mk None (Some trip_id) user_id "assistant" (Some CrewAIPlanning.phase)
    "Trip plan generated and optimized" None None None.

(** A model that answers the extraction with the requirements of a trip to
    Goa, the planning with a plan wrapped in [trip], and the optimisation
    with words. *)
Definition goa_answers : CrewAIPlanning.model_answers :=
  CrewAIPlanning.mk_model_answers
    (fun _ => match Json.dumps (PDict goa_requirements) with
              | Ok text => text
              | Raise _ => ""
              end)
    (fun _ => wrapped_answer)
    (fun _ => "The plan is within budget.").

(** Empty tables, and keys and columns as tables without defaults give
    them. *)
Definition empty_store : store := mk_store (mk_db ∅ ∅) ∅.

(** A model that answers the extraction with complete requirements for
    three adults less than none. *)
Definition negative_answers : CrewAIPlanning.model_answers :=
  CrewAIPlanning.mk_model_answers
    (fun _ => match Json.dumps (PDict (dict_set goa_requirements "no_of_adults"
                                         (PInt (-3)))) with
              | Ok text => text
              | Raise _ => ""
              end)
    (fun _ => wrapped_answer)
    (fun _ => "The plan is within budget.").

(** A model that answers everything with words. *)
Definition silent_answers : CrewAIPlanning.model_answers :=
  CrewAIPlanning.mk_model_answers
    (fun _ => "I need to know more.")
    (fun _ => "I need to know more.")
    (fun _ => "I need to know more.").

Definition first_keys : CrewAIPlanning.table_values :=
  CrewAIPlanning.mk_table_values 1 1 None None 1 None None 2.

(** * Theorems *)

(** ** Lemmas on the prelude *)

Lemma bind_Ok {A B : Type} (r : result A) (k : A -> result B) (b : B) :
  (r ≫= k) = Ok b -> exists a, r = Ok a /\ k a = Ok b.
Proof. destruct r as [a|e]; simpl; [eauto | discriminate]. Qed.

Lemma bind_Ok_l {A B : Type} (a : A) (k : A -> result B) :
  (Ok a ≫= k) = k a.
Proof. reflexivity. Qed.

Lemma ok_or_Ok {A : Type} (o : option A) (e : exn) (a : A) :
  ok_or o e = Ok a <-> o = Some a.
Proof. destruct o; simpl; split; congruence. Qed.

(** Splits a successful chain of bindings into its steps. *)
Ltac bind_inv H :=
  repeat match type of H with
    | (_ ≫= _) = Ok _ =>
        let a := fresh "a" in
        let Ha := fresh "Ha" in
        apply bind_Ok in H; destruct H as (a & Ha & H)
    end.

Lemma dict_lookup_set_eq (d : pydict) (k : string) (v : pyval) :
  dict_lookup (dict_set d k v) k = Some v.
Proof.
  induction d as [|[k' v'] d IH]; simpl.
  - now rewrite String.eqb_refl.
  - destruct (String.eqb k' k) eqn:E; simpl; rewrite E; auto.
Qed.

Lemma dict_lookup_set_ne (d : pydict) (k k' : string) (v : pyval) :
  k <> k' -> dict_lookup (dict_set d k v) k' = dict_lookup d k'.
Proof.
  intros Hne. induction d as [|[k0 v0] d IH]; simpl.
  - destruct (String.eqb k k') eqn:E; [apply String.eqb_eq in E; contradiction | reflexivity].
  - destruct (String.eqb k0 k) eqn:E; simpl.
    + apply String.eqb_eq in E; subst k0.
      destruct (String.eqb k k') eqn:E'; [apply String.eqb_eq in E'; contradiction | reflexivity].
    + now rewrite IH.
Qed.

Lemma dict_get_set_eq (d : pydict) (k : string) (v : pyval) :
  dict_get (dict_set d k v) k = v.
Proof. unfold dict_get. now rewrite dict_lookup_set_eq. Qed.

Lemma dict_get_set_ne (d : pydict) (k k' : string) (v : pyval) :
  k <> k' -> dict_get (dict_set d k v) k' = dict_get d k'.
Proof. intros. unfold dict_get. now rewrite dict_lookup_set_ne. Qed.

Lemma field_default_set_ne {A : Type} (d : pydict) (k k' : string) (v : pyval)
  (coerce : pyval -> option A) (dflt : A) :
  k <> k' -> field_default (dict_set d k v) k' coerce dflt = field_default d k' coerce dflt.
Proof. intros. unfold field_default. now rewrite dict_lookup_set_ne. Qed.

Lemma field_required_set_ne {A : Type} (d : pydict) (k k' : string) (v : pyval)
  (coerce : pyval -> option A) :
  k <> k' -> field_required (dict_set d k v) k' coerce = field_required d k' coerce.
Proof. intros. unfold field_required. now rewrite dict_lookup_set_ne. Qed.

Lemma field_default_set_eq {A : Type} (d : pydict) (k : string) (v : pyval)
  (coerce : pyval -> option A) (dflt : A) :
  field_default (dict_set d k v) k coerce dflt = ok_or (coerce v) (invalid k).
Proof. unfold field_default. now rewrite dict_lookup_set_eq. Qed.

Lemma mapM_as_str (l : list string) : mapM as_str (map PStr l) = Some l.
Proof. induction l as [|x l IH]; simpl; [reflexivity | now rewrite IH]. Qed.

Lemma date_leb_ltb (a b : date) : date_leb a b = false -> date_ltb b a = true.
Proof.
  unfold date_leb, date_ltb, date_compare.
  destruct a as [y m d], b as [y' m' d']; simpl.
  rewrite (Z.compare_antisym y y'), (Z.compare_antisym m m'), (Z.compare_antisym d d').
  destruct (y ?= y'); simpl; try discriminate; auto.
  destruct (m ?= m'); simpl; try discriminate; auto.
  destruct (d ?= d'); simpl; try discriminate; auto.
Qed.

Lemma date_ltb_leb (a b : date) : date_ltb a b = true -> date_leb b a = false.
Proof.
  unfold date_leb, date_ltb, date_compare.
  destruct a as [y m d], b as [y' m' d']; simpl.
  rewrite (Z.compare_antisym y y'), (Z.compare_antisym m m'), (Z.compare_antisym d d').
  destruct (y ?= y'); simpl; try discriminate; auto.
  destruct (m ?= m'); simpl; try discriminate; auto.
  destruct (d ?= d'); simpl; try discriminate; auto.
Qed.

(** ** Accommodation types *)

Lemma mapping_exact_range (m : list (string * string)) (v x : string) :
  mapping_exact m v = Some x -> In x (map snd m).
Proof.
  induction m as [|[k y] m IH]; simpl; [discriminate|].
  destruct (String.eqb k v); [intros [= ->]; auto | auto].
Qed.

Lemma mapping_partial_range (m : list (string * string)) (v x : string) :
  mapping_partial m v = Some x -> In x (map snd m).
Proof.
  induction m as [|[k y] m IH]; simpl; [discriminate|].
  destruct (contains v k); [intros [= ->]; auto | auto].
Qed.

Lemma str_in_In (x : string) (l : list string) : str_in x l = true <-> In x l.
Proof.
  unfold str_in. rewrite existsb_exists. split.
  - intros (y & Hy & E). apply String.eqb_eq in E. now subst.
  - intros H. exists x. split; [assumption | apply String.eqb_refl].
Qed.

Lemma normalize_with_range (valid_types : list string) (value : string) :
  In (normalize_with valid_types value) (normalize_range valid_types).
Proof.
  unfold normalize_with, normalize_range.
  destruct (String.eqb value ""); [now left|].
  destruct (mapping_exact _ _) eqn:E1.
  { right. apply in_or_app. left. eapply mapping_exact_range; eauto. }
  destruct (mapping_partial _ _) eqn:E2.
  { right. apply in_or_app. left. eapply mapping_partial_range; eauto. }
  destruct (str_in _ _) eqn:E3; [|now left].
  right. apply in_or_app. right. now apply str_in_In.
Qed.

(** A function that a computation finds to fix every string of a list. *)
Lemma fixed_on_list (f : string -> string) (l : list string) (x : string) :
  forallb (fun y => String.eqb (f y) y) l = true -> In x l -> f x = x.
Proof.
  intros H Hx. rewrite forallb_forall in H. now apply String.eqb_eq, H.
Qed.

(** Normalizing twice is normalizing once, for either validator. *)
Lemma trip_normalize_idempotent (value : string) :
  Trip.normalize_accommodation_type (Trip.normalize_accommodation_type value)
  = Trip.normalize_accommodation_type value.
Proof.
  unfold Trip.normalize_accommodation_type.
  apply (fixed_on_list (normalize_with Trip.valid_types)
                       (normalize_range Trip.valid_types));
    [vm_compute; reflexivity | apply normalize_with_range].
Qed.

Lemma requirements_normalize_idempotent (value : string) :
  TripRequirements.normalize_accommodation_type
    (TripRequirements.normalize_accommodation_type value)
  = TripRequirements.normalize_accommodation_type value.
Proof.
  unfold TripRequirements.normalize_accommodation_type.
  apply (fixed_on_list (normalize_with TripRequirements.valid_types)
                       (normalize_range TripRequirements.valid_types));
    [vm_compute; reflexivity | apply normalize_with_range].
Qed.

(** The validator of [TripRequirements] leaves every literal as it is. *)
Lemma requirements_normalize_literals (x : string) :
  In x accommodation_literals ->
  TripRequirements.normalize_accommodation_type x = x.
Proof.
  apply (fixed_on_list TripRequirements.normalize_accommodation_type);
    vm_compute; reflexivity.
Qed.

Lemma normalize_luxury_hotel :
  Trip.normalize_accommodation_type "luxury hotel" = "luxury"
  /\ TripRequirements.normalize_accommodation_type "luxury hotel" = "luxury".
Proof. split; reflexivity. Qed.

(** A text that no key of the table occurs in and that is no valid type
    goes to "hotel", whatever the list of valid types. *)
Lemma normalize_unmatched (valid_types : list string) (value : string) :
  (forall k x, In (k, x) accommodation_mapping -> contains (lower value) k = false) ->
  str_in (lower value) valid_types = false ->
  normalize_with valid_types value = "hotel".
Proof.
  intros Hkeys Hvalid. unfold normalize_with.
  destruct (String.eqb value ""); [reflexivity|].
  assert (Hpartial : mapping_partial accommodation_mapping (lower value) = None).
  { revert Hkeys. generalize accommodation_mapping as m.
    induction m as [|[k x] m IH]; intros Hkeys; simpl; [reflexivity|].
    rewrite (Hkeys k x) by now left. apply IH. intros; eapply Hkeys; right; eauto. }
  assert (Hexact : mapping_exact accommodation_mapping (lower value) = None).
  { revert Hkeys. generalize accommodation_mapping as m.
    induction m as [|[k x] m IH]; intros Hkeys; simpl; [reflexivity|].
    destruct (String.eqb k (lower value)) eqn:E.
    - apply String.eqb_eq in E. specialize (Hkeys k x (or_introl eq_refl)).
      rewrite <- E in Hkeys. exfalso. revert Hkeys. clear.
      assert (Hs : forall s, starts_with s s = true).
      { induction s; simpl; [reflexivity|]. now rewrite Ascii.eqb_refl. }
      destruct k; simpl; [discriminate|]. rewrite Ascii.eqb_refl, Hs. discriminate.
    - apply IH. intros; eapply Hkeys; right; eauto. }
  now rewrite Hexact, Hpartial, Hvalid.
Qed.

(** C6. [Trip.normalize_accommodation_type] does not leave every literal of
    [Trip.accommodation_type] as it is: "budget", "family-friendly",
    "business" and "youth hostel" are literals of the field and go to
    "hotel", its own [valid_types] listing nine of the thirteen. *)
Theorem trip_normalize_loses_literals :
  Forall (fun x => In x accommodation_literals)
         ["budget"; "family-friendly"; "business"; "youth hostel"]
  /\ map Trip.normalize_accommodation_type
         ["budget"; "family-friendly"; "business"; "youth hostel"]
     = ["hotel"; "hotel"; "hotel"; "hotel"]
  /\ map TripRequirements.normalize_accommodation_type
         ["budget"; "family-friendly"; "business"; "youth hostel"]
     = ["budget"; "family-friendly"; "business"; "youth hostel"].
Proof.
  split; [|split]; [|vm_compute; reflexivity|vm_compute; reflexivity].
  repeat (constructor; [apply str_in_In; reflexivity|]). constructor.
Qed.

(** ** [Trip]: the dates *)

(** Splits every successful chain of bindings among the hypotheses. *)
Ltac binds_inv :=
  repeat match goal with
    | H : (_ ≫= _) = Ok _ |- _ =>
        let a := fresh "a" in
        let Ha := fresh "Ha" in
        apply bind_Ok in H; destruct H as (a & Ha & H)
    end.

Lemma validator_Ok {A : Type} (r : result A) (a : A) :
  validator r = Ok a -> r = Ok a.
Proof. destruct r as [|[]]; simpl; congruence. Qed.

Lemma validate_future_date_Ok (today d : date) (i : option Z) (s : date) :
  Trip.validate_future_date today d i = Ok s -> s = d.
Proof.
  unfold Trip.validate_future_date.
  destruct i; [congruence|]. destruct (date_leb d today); congruence.
Qed.

Lemma trip_validate_dates_Ok (e : date) (start : option date) (e' : date) :
  Trip.validate_dates e start = Ok e' ->
  e' = e /\ forall s, start = Some s -> date_leb e s = false.
Proof.
  unfold Trip.validate_dates. destruct start as [s|].
  - destruct (date_leb e s) eqn:E; [discriminate|].
    intros [= <-]. split; [reflexivity|]. now intros ? [= <-].
  - intros [= <-]. split; [reflexivity | discriminate].
Qed.

Lemma field_default_cases {A : Type} (values : pydict) (key : string)
  (coerce : pyval -> option A) (dflt : A) :
  (exists a, field_default values key coerce dflt = Ok a)
  \/ field_default values key coerce dflt = Raise (ValidationError key).
Proof.
  unfold field_default. destruct (dict_lookup values key) as [v|]; [|eauto].
  destruct (coerce v); simpl; eauto.
Qed.

Lemma field_required_cases {A : Type} (values : pydict) (key : string)
  (coerce : pyval -> option A) :
  (exists a, field_required values key coerce = Ok a)
  \/ field_required values key coerce = Raise (ValidationError key).
Proof.
  unfold field_required. destruct (dict_lookup values key) as [v|]; [|eauto].
  destruct (coerce v); simpl; eauto.
Qed.

(** What a successful construction says of the two dates: they are the
    given ones, converted, and the end is after the start. *)
Lemma trip_new_dates (today : date) (values : pydict) (t : Trip.t) :
  Trip.new today values = Ok t ->
  field_required values "trip_startdate" as_date = Ok (Trip.trip_startdate t)
  /\ field_required values "trip_enddate" as_date = Ok (Trip.trip_enddate t)
  /\ date_leb (Trip.trip_enddate t) (Trip.trip_startdate t) = false.
Proof.
  intros H. unfold Trip.new in H. cbv zeta in H. binds_inv.
  injection H as <-. simpl.
  repeat match goal with
    | Hv : validator _ = Ok _ |- _ => apply validator_Ok in Hv
    end.
  match goal with
  | Hs : Trip.validate_future_date _ _ _ = Ok _ |- _ =>
      pose proof (validate_future_date_Ok _ _ _ _ Hs) as ->
  end.
  match goal with
  | He : Trip.validate_dates _ _ = Ok _ |- _ =>
      apply trip_validate_dates_Ok in He; destruct He as [-> He]
  end.
  repeat split; try assumption.
  match goal with
  | He : forall s, validated _ = Some s -> _,
    H1 : field_required values "trip_startdate" as_date = Ok _,
    H2 : Trip.validate_future_date _ _ _ = Ok _ |- _ =>
      apply He; rewrite H1; simpl; rewrite H2; reflexivity
  end.
Qed.

(** The construction raises nothing but a [ValidationError] before it comes
    to the accommodation type. *)
Lemma trip_new_end_before_start (today : date) (values : pydict) (s e : date) :
  field_required values "trip_startdate" as_date = Ok s ->
  field_required values "trip_enddate" as_date = Ok e ->
  date_leb e s = true ->
  exists msg, Trip.new today values = Raise (ValidationError msg).
Proof.
  intros Hs He Hle. unfold Trip.new. cbv zeta. rewrite Hs, He.
  destruct (field_default_cases values "id" (as_optional as_int) None)
    as [[i ->] | ->]; [|simpl; eauto].
  destruct (field_required_cases values "user_id" as_int)
    as [[u ->] | ->]; [|simpl; eauto].
  destruct (field_required_cases values "phase" (as_literal Trip.phases))
    as [[p ->] | ->]; [|simpl; eauto].
  destruct (field_default_cases values "title" as_str "My Trip")
    as [[ti ->] | ->]; [|simpl; eauto].
  destruct (field_required_cases values "origin" as_str)
    as [[o ->] | ->]; [|simpl; eauto].
  destruct (field_required_cases values "destination" as_str)
    as [[de ->] | ->]; [|simpl; eauto].
  simpl.
  destruct i as [n|]; simpl; [|destruct (date_leb s today); simpl];
    unfold Trip.validate_dates; simpl; try rewrite Hle; simpl; eauto.
Qed.

(** C7. A [Trip] that was constructed has its end date after its start
    date, and a construction whose end date is not after its start date
    raises a validation error. *)
Theorem trip_end_after_start (today : date) (values : pydict) :
  (forall t, Trip.new today values = Ok t ->
     date_ltb (Trip.trip_startdate t) (Trip.trip_enddate t) = true)
  /\ (forall s e,
        field_required values "trip_startdate" as_date = Ok s ->
        field_required values "trip_enddate" as_date = Ok e ->
        date_leb e s = true ->
        exists msg, Trip.new today values = Raise (ValidationError msg)).
Proof.
  split.
  - intros t H. apply trip_new_dates in H as (_ & _ & H).
    now apply date_leb_ltb.
  - intros s e. apply trip_new_end_before_start.
Qed.

(** Both happen: a trip of three nights is constructed, and one that ends on
    the day it starts is refused. *)
Lemma trip_new_goa :
  (exists t, Trip.new (Date 2026 11 5) (goa_trip (Date 2027 3 18)) = Ok t
             /\ Trip.trip_startdate t = Date 2027 3 15
             /\ Trip.trip_enddate t = Date 2027 3 18
             /\ Trip.accommodation_type t = "luxury")
  /\ Trip.new (Date 2026 11 5) (goa_trip (Date 2027 3 15))
     = Raise (ValidationError "Trip end date must be after start date").
Proof.
  split; [eexists; split; [vm_compute; reflexivity | repeat split] | vm_compute].
  reflexivity.
Qed.

(** ** [TripRequirements]: the demotion to "missing" *)

Lemma missing_of_ext (values values' : pydict) :
  (forall f, In f TripRequirements.required_fields ->
             dict_lookup values' f = dict_lookup values f) ->
  TripRequirements.missing_of values' = TripRequirements.missing_of values.
Proof.
  intros H. unfold TripRequirements.missing_of.
  apply filter_ext_in. intros f Hf. unfold dict_get. now rewrite (H f Hf).
Qed.

Lemma with_mode_lookup (values : pydict) (k : string) :
  k <> "mode" -> dict_lookup (with_mode values) k = dict_lookup values k.
Proof.
  intros Hk. unfold with_mode. destruct (dict_has values "mode"); [reflexivity|].
  apply dict_lookup_set_ne. congruence.
Qed.

Lemma with_mode_trip (values : pydict) :
  trip_mode values = true ->
  is_str (dict_get_default (with_mode values) "mode" (PStr "trip")) "trip" = true.
Proof.
  unfold trip_mode, with_mode, dict_has, dict_get_default.
  destruct (dict_lookup values "mode") eqn:E; [now rewrite E|].
  intros _. now rewrite dict_lookup_set_eq.
Qed.

Lemma with_mode_missing_of (values : pydict) :
  TripRequirements.missing_of (with_mode values) = TripRequirements.missing_of values.
Proof.
  apply missing_of_ext. intros f Hf. apply with_mode_lookup.
  simpl in Hf. intuition (subst; discriminate).
Qed.

(** In "trip" mode with a required field that is not truthy, the validator
    rewrites four keys and no other. *)
Lemma auto_fix_demotes (values : pydict) :
  trip_mode values = true ->
  TripRequirements.missing_of values <> [] ->
  let missing := TripRequirements.missing_of values in
  let fixed := TripRequirements.auto_fix_and_validate values in
  dict_lookup fixed "mode" = Some (PStr "missing")
  /\ dict_lookup fixed "missing_fields" = Some (PList (map PStr missing))
  /\ dict_lookup fixed "error" = Some (PStr "MISSING")
  /\ dict_lookup fixed "agent_message"
     = Some (PStr ("Please provide: " +:+ join ", " missing))
  /\ forall k, k <> "mode" -> k <> "missing_fields" -> k <> "error" ->
               k <> "agent_message" ->
               dict_lookup fixed k = dict_lookup values k.
Proof.
  intros Hmode Hmissing missing fixed. subst missing fixed.
  unfold TripRequirements.auto_fix_and_validate. fold (with_mode values).
  rewrite (with_mode_trip values Hmode), with_mode_missing_of.
  destruct (TripRequirements.missing_of values) as [|m ms] eqn:E; [contradiction|].
  repeat split.
  - rewrite !dict_lookup_set_ne by discriminate. apply dict_lookup_set_eq.
  - rewrite !dict_lookup_set_ne by discriminate. apply dict_lookup_set_eq.
  - rewrite !dict_lookup_set_ne by discriminate. apply dict_lookup_set_eq.
  - apply dict_lookup_set_eq.
  - intros k H1 H2 H3 H4.
    rewrite !dict_lookup_set_ne by congruence. now apply with_mode_lookup.
Qed.

Lemma typed_field_default {A : Type} (values fixed : pydict) (key : string)
  (coerce : pyval -> option A) (dflt : A) :
  dict_lookup fixed key = dict_lookup values key ->
  typed values key coerce = true ->
  exists a, field_default fixed key coerce dflt = Ok a.
Proof.
  unfold typed, field_default. intros ->.
  destruct (dict_lookup values key) as [v|]; [|eauto].
  destruct (coerce v); [simpl; eauto | discriminate].
Qed.

(** What the fields make of the arguments once demoted. *)
Lemma demoted_fields (values : pydict) (r : TripRequirements.t) :
  trip_mode values = true ->
  TripRequirements.missing_of values <> [] ->
  TripRequirements.new values = Ok r ->
  TripRequirements.mode r = "missing"
  /\ TripRequirements.error r = Some "MISSING"
  /\ TripRequirements.missing_fields r = Some (TripRequirements.missing_of values)
  /\ TripRequirements.agent_message r
     = Some ("Please provide: " +:+ join ", " (TripRequirements.missing_of values)).
Proof.
  intros Hmode Hmissing H.
  destruct (auto_fix_demotes values Hmode Hmissing) as (Lm & Lf & Le & La & _).
  unfold TripRequirements.new, TripRequirements.validate_fields in H.
  cbv zeta in H. unfold field_default in H.
  rewrite Lm, Lf, Le, La in H. simpl ok_or in H.
  rewrite mapM_as_str in H. simpl in H.
  binds_inv. injection H as <-. simpl. auto.
Qed.

Lemma demoted_constructs (values : pydict) :
  trip_mode values = true ->
  TripRequirements.missing_of values <> [] ->
  requirement_fields_typed values = true ->
  exists r, TripRequirements.new values = Ok r.
Proof.
  intros Hmode Hmissing Htyped.
  destruct (auto_fix_demotes values Hmode Hmissing) as (Lm & Lf & Le & La & Lk).
  unfold requirement_fields_typed in Htyped.
  repeat match type of Htyped with
    | (_ && _) = true => apply andb_prop in Htyped; destruct Htyped as [Htyped ?]
    end.
  unfold TripRequirements.new, TripRequirements.validate_fields. cbv zeta.
  set (fixed := TripRequirements.auto_fix_and_validate values) in *.
  assert (Hk : forall k, In k ["origin"; "destination"; "trip_startdate";
                               "trip_enddate"; "no_of_adults"; "no_of_children";
                               "budget"; "currency"; "accommodation_type";
                               "purpose"; "travel_preferences"; "travel_constraints"] ->
                         dict_lookup fixed k = dict_lookup values k).
  { intros k Hin. apply Lk; simpl in Hin; intuition (subst; discriminate). }
  destruct (typed_field_default values fixed "origin" (as_optional as_str) None)
    as [x1 ->]; [apply Hk; simpl; tauto | assumption |].
  destruct (typed_field_default values fixed "destination" (as_optional as_str) None)
    as [x2 ->]; [apply Hk; simpl; tauto | assumption |].
  destruct (typed_field_default values fixed "trip_startdate" (as_optional as_date) None)
    as [x3 ->]; [apply Hk; simpl; tauto | assumption |].
  destruct (typed_field_default values fixed "no_of_adults" (as_optional as_int) (Some 1))
    as [x5 ->]; [apply Hk; simpl; tauto | assumption |].
  destruct (typed_field_default values fixed "no_of_children" as_int 0)
    as [x6 ->]; [apply Hk; simpl; tauto | assumption |].
  destruct (typed_field_default values fixed "budget" (as_optional as_float) None)
    as [x7 ->]; [apply Hk; simpl; tauto | assumption |].
  destruct (typed_field_default values fixed "currency" as_str "USD")
    as [x8 ->]; [apply Hk; simpl; tauto | assumption |].
  destruct (typed_field_default values fixed "purpose" as_str "leisure")
    as [x9 ->]; [apply Hk; simpl; tauto | assumption |].
  destruct (typed_field_default values fixed "travel_preferences" as_str "none")
    as [x10 ->]; [apply Hk; simpl; tauto | assumption |].
  destruct (typed_field_default values fixed "travel_constraints" as_str "none")
    as [x11 ->]; [apply Hk; simpl; tauto | assumption |].
  unfold field_default. rewrite Lm, Lf, Le, La. simpl ok_or.
  rewrite mapM_as_str.
  rewrite (Hk "trip_enddate") by (simpl; tauto).
  rewrite (Hk "accommodation_type") by (simpl; tauto).
  assert (He : exists e,
    match dict_lookup values "trip_enddate" with
    | Some v =>
        e ← ok_or (as_optional as_date v) (invalid "trip_enddate");
        validator (TripRequirements.validate_dates e (mjoin (validated (Ok x3)))
                     (default "trip" (validated (Ok "missing"))))
    | None => Ok None
    end = Ok e).
  { match goal with
    | Ht : typed values "trip_enddate" _ = true |- _ => unfold typed in Ht
    end.
    destruct (dict_lookup values "trip_enddate") as [v|]; [|eauto].
    destruct (as_optional as_date v) as [e|]; [|discriminate].
    simpl. unfold TripRequirements.validate_dates.
    destruct e, x3; simpl; eauto. }
  destruct He as [e ->].
  assert (Ha : exists a,
    match dict_lookup values "accommodation_type" with
    | Some v =>
        s ← ok_or (as_str v) (invalid "accommodation_type");
        Ok (TripRequirements.normalize_accommodation_type s)
    | None => Ok "hotel"
    end = Ok a).
  { match goal with
    | Ht : typed values "accommodation_type" _ = true |- _ => unfold typed in Ht
    end.
    destruct (dict_lookup values "accommodation_type") as [v|]; [|eauto].
    destruct (as_str v); [simpl; eauto | discriminate]. }
  destruct Ha as [a ->].
  simpl. eauto.
Qed.

Lemma absent_is_missing (values : pydict) (f : string) :
  In f (absent_fields values) -> In f (TripRequirements.missing_of values).
Proof.
  unfold absent_fields, TripRequirements.missing_of. rewrite !filter_In.
  intros [Hf Ha]. split; [assumption|].
  unfold is_absent in Ha. unfold dict_get.
  destruct (dict_lookup values f) as [[]|]; simpl; congruence.
Qed.

(** C1, as the code has it.  In "trip" mode, when a required field is not
    truthy (absent, [None], an empty string or a zero), the object that is
    constructed has mode "missing", error "MISSING" and, as
    [missing_fields], the required fields that are not truthy, in the order
    of the list; every absent field is among them; and the construction
    succeeds as soon as the values given for the other fields are of their
    types. *)
Theorem requirements_demoted (values : pydict) :
  trip_mode values = true ->
  TripRequirements.missing_of values <> [] ->
  (forall r, TripRequirements.new values = Ok r ->
     TripRequirements.mode r = "missing"
     /\ TripRequirements.error r = Some "MISSING"
     /\ TripRequirements.missing_fields r = Some (TripRequirements.missing_of values))
  /\ (requirement_fields_typed values = true ->
      exists r, TripRequirements.new values = Ok r)
  /\ (forall f, In f (absent_fields values) -> In f (TripRequirements.missing_of values))
  /\ (forall f, In f (TripRequirements.missing_of values) <->
                In f TripRequirements.required_fields
                /\ truthy (dict_get values f) = false).
Proof.
  intros Hmode Hmissing. repeat split.
  - eapply demoted_fields; eauto.
  - eapply demoted_fields; eauto.
  - eapply demoted_fields; eauto.
  - now apply demoted_constructs.
  - apply absent_is_missing.
  - unfold TripRequirements.missing_of in H. now apply filter_In in H.
  - unfold TripRequirements.missing_of in H. apply filter_In in H as [_ H].
    now apply negb_true_iff in H.
  - intros [H1 H2]. unfold TripRequirements.missing_of. apply filter_In.
    split; [assumption | now apply negb_true_iff].
Qed.

(** C1, as the spec has it, fails: with no origin and a budget of zero the
    one absent field is [origin], and [missing_fields] lists [budget] too. *)
Lemma requirements_missing_not_absent :
  trip_mode no_origin_zero_budget = true
  /\ absent_fields no_origin_zero_budget = ["origin"]
  /\ exists r, TripRequirements.new no_origin_zero_budget = Ok r
               /\ TripRequirements.mode r = "missing"
               /\ TripRequirements.missing_fields r = Some ["origin"; "budget"].
Proof.
  split; [reflexivity|]. split; [reflexivity|].
  eexists. split; [vm_compute; reflexivity|]. split; reflexivity.
Qed.

(** The demotion at [no_origin_zero_budget]. *)
Lemma requirements_demoted_witness :
  trip_mode no_origin_zero_budget = true
  /\ TripRequirements.missing_of no_origin_zero_budget <> []
  /\ ((forall r, TripRequirements.new no_origin_zero_budget = Ok r ->
         TripRequirements.mode r = "missing"
         /\ TripRequirements.error r = Some "MISSING"
         /\ TripRequirements.missing_fields r
            = Some (TripRequirements.missing_of no_origin_zero_budget))
      /\ (requirement_fields_typed no_origin_zero_budget = true ->
          exists r, TripRequirements.new no_origin_zero_budget = Ok r)
      /\ (forall f, In f (absent_fields no_origin_zero_budget) ->
                    In f (TripRequirements.missing_of no_origin_zero_budget))
      /\ (forall f, In f (TripRequirements.missing_of no_origin_zero_budget) <->
                    In f TripRequirements.required_fields
                    /\ truthy (dict_get no_origin_zero_budget f) = false)).
Proof.
  assert (H1 : trip_mode no_origin_zero_budget = true) by reflexivity.
  assert (H2 : TripRequirements.missing_of no_origin_zero_budget <> [])
    by (vm_compute; discriminate).
  exact (conj H1 (conj H2 (requirements_demoted no_origin_zero_budget H1 H2))).
Defined.

(** ** Truthiness decides presence *)

Lemma missing_of_In (values : pydict) (f : string) :
  In f TripRequirements.required_fields ->
  truthy (dict_get values f) = false ->
  In f (TripRequirements.missing_of values).
Proof.
  intros. unfold TripRequirements.missing_of. apply filter_In.
  split; [assumption | now apply negb_true_iff].
Qed.

(** The first result a chain of bindings depends on. *)
Ltac head_result r :=
  lazymatch r with
  | ?r' ≫= _ => head_result r'
  | _ => r
  end.

(** One step along a chain that succeeded: its first result is a success,
    here and wherever else it stands. *)
Ltac step_bind H :=
  lazymatch type of H with
  | (?r ≫= _) = Ok _ =>
      let h := head_result r in
      destruct h as [?|?] eqn:?; cbn [mbind result_bind] in *; [|discriminate H]
  end.

(** A [Trip] that validates still does with its budget set to zero. *)
Lemma trip_accepts_zero_budget (today : date) (values : pydict) (t : Trip.t) :
  Trip.new today values = Ok t ->
  exists t', Trip.new today (dict_set values "budget" (PInt 0)) = Ok t'
             /\ Trip.budget t' = float_zero.
Proof.
  intros H. unfold Trip.new in *. cbv zeta in *.
  rewrite field_default_set_eq.
  rewrite !field_default_set_ne, !field_required_set_ne by discriminate.
  rewrite (dict_lookup_set_ne values "budget" "accommodation_type") by discriminate.
  change (ok_or (as_float (PInt 0)) (invalid "budget")) with (Ok float_zero).
  repeat step_bind H.
  injection H as <-. eexists. split; reflexivity.
Qed.

(** C10. Presence of a required field is decided by truthiness: in "trip"
    mode a budget of zero, or zero adults, demotes the requirements to
    "missing" with that field among [missing_fields]; and [Trip] takes a
    budget of zero: the trip to Goa is constructed with it, and so is every
    trip that is constructed with another budget. *)
Theorem zero_counts_as_missing (values : pydict) (f : string) :
  trip_mode values = true ->
  In f ["budget"; "no_of_adults"] ->
  dict_get values f = PInt 0 \/ dict_get values f = PFloat float_zero ->
  (forall r, TripRequirements.new values = Ok r ->
     TripRequirements.mode r = "missing"
     /\ exists l, TripRequirements.missing_fields r = Some l /\ In f l)
  /\ (requirement_fields_typed values = true ->
      exists r, TripRequirements.new values = Ok r)
  /\ (exists t,
        Trip.new (Date 2026 1 1)
          (dict_set (goa_trip (Date 2027 3 18)) "budget" (PInt 0)) = Ok t
        /\ Trip.budget t = float_zero)
  /\ (forall today tvalues t,
        Trip.new today tvalues = Ok t ->
        exists t', Trip.new today (dict_set tvalues "budget" (PInt 0)) = Ok t'
                   /\ Trip.budget t' = float_zero).
Proof.
  intros Hmode Hf Hzero.
  assert (Hin : In f (TripRequirements.missing_of values)).
  { apply missing_of_In.
    - simpl in *. intuition.
    - destruct Hzero as [-> | ->]; reflexivity. }
  assert (Hne : TripRequirements.missing_of values <> []).
  { intros E. rewrite E in Hin. contradiction. }
  split; [|split; [|split]].
  - intros r Hr.
    destruct (demoted_fields values r Hmode Hne Hr) as (Hm & _ & Hl & _).
    split; [assumption|]. eauto.
  - now apply demoted_constructs.
  - eexists. split; vm_compute; reflexivity.
  - apply trip_accepts_zero_budget.
Qed.

(** The demotion at [complete_zero_budget]: only the budget is missing;
    and the trip of the same places and dates is constructed with that
    budget. *)
Lemma zero_counts_as_missing_witness :
  trip_mode complete_zero_budget = true
  /\ In "budget" ["budget"; "no_of_adults"]
  /\ (exists r, TripRequirements.new complete_zero_budget = Ok r
                /\ TripRequirements.mode r = "missing"
                /\ TripRequirements.missing_fields r = Some ["budget"])
  /\ (exists t,
        Trip.new (Date 2026 1 1)
          (dict_set (goa_trip (Date 2027 3 18)) "budget" (PInt 0)) = Ok t
        /\ Trip.budget t = float_zero
        /\ Trip.origin t = "Bangalore"
        /\ Trip.destination t = "Goa").
Proof.
  assert (H1 : trip_mode complete_zero_budget = true) by reflexivity.
  assert (H2 : In "budget" ["budget"; "no_of_adults"]) by (simpl; tauto).
  assert (H3 : dict_get complete_zero_budget "budget" = PInt 0
               \/ dict_get complete_zero_budget "budget" = PFloat float_zero)
    by (left; reflexivity).
  pose proof (zero_counts_as_missing complete_zero_budget "budget" H1 H2 H3)
    as (Hr & Hc & (t & Et & Eb) & _).
  split; [exact H1|]. split; [exact H2|]. split.
  - destruct (Hc eq_refl) as [r Er]. exists r.
    split; [exact Er|]. split; [apply (Hr r Er)|].
    revert Er. vm_compute. intros [= <-]. reflexivity.
  - exists t. split; [exact Et|]. split; [exact Eb|].
    revert Et. vm_compute. intros [= <-]. split; reflexivity.
Defined.

(** ** The plan tables *)

Lemma as_optional_opt_str (o : option string) :
  as_optional as_str (opt_str o) = Some o.
Proof. destruct o; reflexivity. Qed.

(** A row becomes a model when its status is a literal of the model, and
    fails the validation otherwise. *)
Lemma plan_row_validates (id : Z) (r : TripPlanModel.t) :
  TripPlanModel.new (plan_row_dict id r)
  = if str_in (TripPlanModel.status r) TripPlanModel.statuses
    then Ok (plan_of_row id r)
    else Raise (ValidationError "status").
Proof.
  destruct r as [i t ij hj fj db tc ga ua st v am].
  unfold TripPlanModel.new, plan_row_dict, plan_of_row, field_default, field_required.
  cbn [dict_lookup String.eqb Ascii.eqb Bool.eqb TripPlanModel.trip_id
       TripPlanModel.itinerary_json TripPlanModel.hotels_json
       TripPlanModel.flights_json TripPlanModel.daily_budget
       TripPlanModel.total_estimated_cost TripPlanModel.generated_at
       TripPlanModel.updated_at TripPlanModel.status TripPlanModel.version
       TripPlanModel.agent_metadata].
  rewrite !as_optional_opt_str.
  cbn [as_optional as_int as_float as_literal ok_or fmap option_fmap option_map
       mbind result_bind].
  destruct (str_in st TripPlanModel.statuses); reflexivity.
Qed.

Lemma plans_of_trip_In (d : db) (trip_id id : Z) (r : TripPlanModel.t) :
  In (id, r) (plans_of_trip d trip_id)
  <-> trip_plans d !! id = Some r /\ TripPlanModel.trip_id r = trip_id.
Proof.
  unfold plans_of_trip. rewrite filter_In, <- list_elem_of_In, elem_of_map_to_list.
  simpl. now rewrite Z.eqb_eq.
Qed.

Lemma latest_None (rows : list (Z * TripPlanModel.t)) :
  latest rows = None <-> rows = [].
Proof.
  destruct rows as [|x rest]; simpl; [tauto|].
  split; [|discriminate].
  destruct (latest rest) as [y|]; [|discriminate].
  destruct (_ <=? _); discriminate.
Qed.

Lemma latest_Some (rows : list (Z * TripPlanModel.t)) (x : Z * TripPlanModel.t) :
  latest rows = Some x ->
  In x rows
  /\ forall y, In y rows ->
               TripPlanModel.version (snd y) <= TripPlanModel.version (snd x).
Proof.
  revert x. induction rows as [|a rest IH]; simpl; [discriminate|].
  intros x. destruct (latest rest) as [y|] eqn:E.
  - destruct (IH y eq_refl) as [Hin Hmax].
    destruct (Z.leb_spec (TripPlanModel.version (snd y)) (TripPlanModel.version (snd a)));
      intros [= <-].
    + split; [now left|]. intros z [<-|Hz]; [lia|]. specialize (Hmax z Hz). lia.
    + split; [now right|]. intros z [<-|Hz]; [lia|]. now apply Hmax.
  - apply latest_None in E. subst rest. intros [= <-].
    split; [now left|]. intros z [<-|[]]. lia.
Qed.

(** What the query without a version fetches: nothing when the trip has no
    row, and otherwise a row of the trip whose version no row of the trip
    exceeds. *)
Lemma select_latest_spec (d : db) (trip_id : Z) :
  match select_plan d trip_id None with
  | None =>
      forall id r, trip_plans d !! id = Some r -> TripPlanModel.trip_id r <> trip_id
  | Some (id, r) =>
      trip_plans d !! id = Some r
      /\ TripPlanModel.trip_id r = trip_id
      /\ forall id' r', trip_plans d !! id' = Some r' ->
                        TripPlanModel.trip_id r' = trip_id ->
                        TripPlanModel.version r' <= TripPlanModel.version r
  end.
Proof.
  unfold select_plan. destruct (latest (plans_of_trip d trip_id)) as [[id r]|] eqn:E.
  - apply latest_Some in E as [Hin Hmax].
    apply plans_of_trip_In in Hin as [Hl Ht]. repeat split; try assumption.
    intros id' r' Hl' Ht'.
    apply (Hmax (id', r')). now apply plans_of_trip_In.
  - apply latest_None in E. intros id r Hl Ht.
    assert (Hin : In (id, r) (plans_of_trip d trip_id)) by now apply plans_of_trip_In.
    rewrite E in Hin. contradiction.
Qed.

Lemma get_trip_plan_selected (d : db) (trip_id : Z) (version : option Z) :
  get_trip_plan_by_trip_id d trip_id version
  = match select_plan d trip_id version with
    | None => Ok None
    | Some (id, r) =>
        if str_in (TripPlanModel.status r) TripPlanModel.statuses
        then Ok (Some (plan_of_row id r))
        else Raise (ValidationError "status")
    end.
Proof.
  unfold get_trip_plan_by_trip_id.
  destruct (select_plan d trip_id version) as [[id r]|]; [|reflexivity].
  rewrite plan_row_validates. now destruct (str_in _ _).
Qed.

(** What the code does without a version, for a trip id that SQLite binds:
    [get_trip_plan_by_trip_id] fetches a row of the trip whose version is
    the greatest among the rows of the trip, and returns [None] when the
    trip has no row; the row it fetched is returned as a model when its
    status is one of "draft", "approved" and "rejected", and a validation
    error is raised when it is not. *)
Lemma get_latest_trip_plan (d : db) (trip_id : Z) :
  sqlite_int trip_id = true ->
  match select_plan d trip_id None with
  | None =>
      (forall id r, trip_plans d !! id = Some r -> TripPlanModel.trip_id r <> trip_id)
      /\ get_trip_plan_by_trip_id d trip_id None = Ok None
  | Some (id, r) =>
      trip_plans d !! id = Some r
      /\ TripPlanModel.trip_id r = trip_id
      /\ (forall id' r', trip_plans d !! id' = Some r' ->
                         TripPlanModel.trip_id r' = trip_id ->
                         TripPlanModel.version r' <= TripPlanModel.version r)
      /\ (In (TripPlanModel.status r) TripPlanModel.statuses ->
          get_trip_plan_by_trip_id d trip_id None = Ok (Some (plan_of_row id r)))
      /\ (~ In (TripPlanModel.status r) TripPlanModel.statuses ->
          get_trip_plan_by_trip_id d trip_id None = Raise (ValidationError "status"))
  end.
Proof.
  intros _. pose proof (select_latest_spec d trip_id) as H.
  rewrite get_trip_plan_selected.
  destruct (select_plan d trip_id None) as [[id r]|]; [|auto].
  destruct H as (H1 & H2 & H3). repeat split; try assumption.
  - intros Hs. apply str_in_In in Hs. now rewrite Hs.
  - intros Hs. destruct (str_in _ _) eqn:E; [|reflexivity].
    apply str_in_In in E. contradiction.
Qed.

(** C5 fails in the code.  Trip 1 has one plan, of version 1: read while
    it is a draft, it is returned.  The plan-status endpoint accepts
    "confirmed" and writes it; the row is still the one of the greatest
    version of the trip, and [get_trip_plan_by_trip_id] without a version
    now raises a validation error instead of returning it. *)
Lemma get_latest_raises_on_confirmed :
  get_trip_plan_by_trip_id planned_db 1 None
  = Ok (Some (plan_of_row 1 (sample_plan 1 1 "draft")))
  /\ exists d',
       app.update_plan_status planned_db 1 "confirmed"
       = (d', [("success", PBool true);
               ("plan_id", PInt 1);
               ("updated_status", PStr "confirmed")])
       /\ select_plan d' 1 None = Some (1, sample_plan 1 1 "confirmed")
       /\ (forall id r, trip_plans d' !! id = Some r ->
                        TripPlanModel.trip_id r = 1 -> TripPlanModel.version r <= 1)
       /\ get_trip_plan_by_trip_id d' 1 None = Raise (ValidationError "status").
Proof.
  split; [vm_compute; reflexivity|].
  exists (mk_db (trips planned_db)
            (<[1 := sample_plan 1 1 "confirmed"]> (trip_plans planned_db))).
  assert (Hsel : select_plan
                   (mk_db (trips planned_db)
                      (<[1 := sample_plan 1 1 "confirmed"]> (trip_plans planned_db)))
                   1 None = Some (1, sample_plan 1 1 "confirmed"))
    by (vm_compute; reflexivity).
  split; [vm_compute; reflexivity|]. split; [exact Hsel|]. split.
  - pose proof (select_latest_spec
                  (mk_db (trips planned_db)
                     (<[1 := sample_plan 1 1 "confirmed"]> (trip_plans planned_db))) 1)
      as H.
    rewrite Hsel in H. destruct H as (_ & _ & H). exact H.
  - vm_compute. reflexivity.
Qed.

(** ** The status "confirmed" of a plan *)

Lemma update_plan_status_confirmed (d : db) (plan_id : Z) (r : TripPlanModel.t) :
  trip_plans d !! plan_id = Some r ->
  app.update_plan_status d plan_id "confirmed"
  = (mk_db (trips d) (<[plan_id := set_plan_status "confirmed" r]> (trip_plans d)),
     [("success", PBool true);
      ("plan_id", PInt plan_id);
      ("updated_status", PStr "confirmed")]).
Proof.
  intros H. unfold app.update_plan_status.
  change (strip (lower "confirmed")) with "confirmed".
  change (negb (str_in "confirmed" app.allowed_statuses)) with false.
  cbv iota. unfold update_trip_plan_status. rewrite H. reflexivity.
Qed.

Lemma get_raises_on_confirmed (d : db) (trip_id : Z) (version : option Z)
  (id : Z) (r : TripPlanModel.t) :
  select_plan d trip_id version = Some (id, r) ->
  TripPlanModel.status r = "confirmed" ->
  get_trip_plan_by_trip_id d trip_id version = Raise (ValidationError "status").
Proof.
  intros Hsel Hst. rewrite get_trip_plan_selected, Hsel, Hst. reflexivity.
Qed.

(** Changing the status of the latest plan of a trip leaves it the latest,
    the versions of a trip being all different. *)
Lemma select_latest_after_status (d : db) (trip_id id : Z) (r : TripPlanModel.t)
  (status : string) :
  unique_versions d ->
  select_plan d trip_id None = Some (id, r) ->
  select_plan
    (mk_db (trips d) (<[id := set_plan_status status r]> (trip_plans d))) trip_id None
  = Some (id, set_plan_status status r).
Proof.
  intros Huniq Hsel.
  pose proof (select_latest_spec d trip_id) as Hold. rewrite Hsel in Hold.
  destruct Hold as (Hl & Ht & Hmax).
  set (d' := mk_db (trips d) (<[id := set_plan_status status r]> (trip_plans d))).
  pose proof (select_latest_spec d' trip_id) as Hnew.
  assert (Hl' : trip_plans d' !! id = Some (set_plan_status status r))
    by apply lookup_insert_eq.
  destruct (select_plan d' trip_id None) as [[id2 r2]|].
  - destruct Hnew as (Hl2 & Ht2 & Hmax2).
    destruct (decide (id2 = id)) as [->|Hne].
    + rewrite Hl' in Hl2. now injection Hl2 as <-.
    + exfalso. apply Hne.
      assert (Hold2 : trip_plans d !! id2 = Some r2).
      { simpl in Hl2. now rewrite lookup_insert_ne in Hl2 by congruence. }
      apply (Huniq id2 id r2 r Hold2 Hl); [congruence|].
      pose proof (Hmax id2 r2 Hold2 Ht2).
      pose proof (Hmax2 id (set_plan_status status r) Hl' Ht).
      simpl in *. lia.
  - exfalso. now apply (Hnew id (set_plan_status status r) Hl').
Qed.

(** C9, as the code has it.  The endpoint lets "confirmed" through and
    writes it to the row; the status of [TripPlanModel] does not admit it;
    so [get_trip_plan_by_trip_id] raises a validation error whenever the
    row it fetches has the status "confirmed", as it does for the trip
    whose latest plan the endpoint has just marked. *)
Theorem confirmed_plan_cannot_be_read :
  (forall d plan_id r,
     trip_plans d !! plan_id = Some r ->
     trip_plans (fst (app.update_plan_status d plan_id "confirmed")) !! plan_id
     = Some (set_plan_status "confirmed" r)
     /\ dict_get (snd (app.update_plan_status d plan_id "confirmed")) "success"
        = PBool true)
  /\ as_literal TripPlanModel.statuses (PStr "confirmed") = None
  /\ (forall d trip_id version id r,
        select_plan d trip_id version = Some (id, r) ->
        TripPlanModel.status r = "confirmed" ->
        get_trip_plan_by_trip_id d trip_id version = Raise (ValidationError "status"))
  /\ (forall d trip_id id r,
        unique_versions d ->
        select_plan d trip_id None = Some (id, r) ->
        get_trip_plan_by_trip_id
          (fst (app.update_plan_status d id "confirmed")) trip_id None
        = Raise (ValidationError "status")).
Proof.
  split; [|split; [|split]].
  - intros d plan_id r H. rewrite (update_plan_status_confirmed d plan_id r H).
    split; [apply lookup_insert_eq | reflexivity].
  - reflexivity.
  - apply get_raises_on_confirmed.
  - intros d trip_id id r Huniq Hsel.
    pose proof (select_latest_spec d trip_id) as Hold. rewrite Hsel in Hold.
    destruct Hold as (Hl & _).
    rewrite (update_plan_status_confirmed d id r Hl). simpl fst.
    eapply get_raises_on_confirmed.
    + now apply select_latest_after_status.
    + reflexivity.
Qed.

(** C9, as it is stated, fails: the stored status of plan 1 is "confirmed"
    and the trip is read all the same, by its latest plan or by version. *)
Lemma confirmed_plan_of_read_trip :
  trip_plans two_versions_db !! 1 = Some (sample_plan 1 1 "confirmed")
  /\ get_trip_plan_by_trip_id two_versions_db 1 None
     = Ok (Some (plan_of_row 2 (sample_plan 1 2 "draft")))
  /\ get_trip_plan_by_trip_id two_versions_db 1 (Some 2)
     = Ok (Some (plan_of_row 2 (sample_plan 1 2 "draft"))).
Proof. repeat split; vm_compute; reflexivity. Qed.

(** ** Approval *)

(** The orchestrator of phase 2 does what the spec says, on a trip whose
    latest plan can be read. *)
Lemma crewai_approval (d : db) (trip_id id : Z) (r : TripPlanModel.t) (t : Trip.t)
  (approval_decision user_feedback : string) :
  select_plan d trip_id None = Some (id, r) ->
  In (TripPlanModel.status r) TripPlanModel.statuses ->
  trips d !! trip_id = Some t ->
  exists d' response,
    CrewAITripOrchestrator.continue_trip_approval
      d trip_id approval_decision user_feedback = Ok (d', response)
    /\ trip_plans d' !! id
       = Some (set_plan_status (fst (approval_outcome approval_decision)) r)
    /\ trips d' !! trip_id
       = Some (set_trip_status (snd (approval_outcome approval_decision)) t).
Proof.
  intros Hsel Hst Ht.
  pose proof (select_latest_spec d trip_id) as Hspec. rewrite Hsel in Hspec.
  destruct Hspec as (Hl & _).
  unfold CrewAITripOrchestrator.continue_trip_approval.
  rewrite get_trip_plan_selected, Hsel.
  apply str_in_In in Hst. rewrite Hst. cbn [mbind result_bind].
  unfold approval_outcome, update_status_of, update_trip_plan_status.
  cbn [plan_of_row TripPlanModel.id]. rewrite Hl.
  destruct (String.eqb approval_decision "approved"); do 2 eexists;
    (split; [reflexivity|]); cbn; split;
    try apply lookup_insert_eq; rewrite lookup_alter_eq, Ht; reflexivity.
Qed.

(** C3 fails on the orchestrator of phase 3, which sets the status of the
    plan and leaves the trip as it was, and on that of phase 4, which has no
    such method. *)
Theorem autogen_approval_leaves_trip :
  (exists d' response,
     continue_trip_approval AutoGen planned_db 1 "approved" "" = Ok (d', response)
     /\ TripPlanModel.status <$> trip_plans d' !! 1 = Some "approved"
     /\ Trip.trip_status <$> trips d' !! 1 = Some "in_progress")
  /\ (exists d' response,
        continue_trip_approval CrewAI planned_db 1 "approved" "" = Ok (d', response)
        /\ TripPlanModel.status <$> trip_plans d' !! 1 = Some "approved"
        /\ Trip.trip_status <$> trips d' !! 1 = Some "confirmed")
  /\ (exists e, continue_trip_approval LangGraph planned_db 1 "approved" "" = Raise e).
Proof.
  split; [|split].
  - do 2 eexists. split; [vm_compute; reflexivity|]. split; vm_compute; reflexivity.
  - do 2 eexists. split; [vm_compute; reflexivity|]. split; vm_compute; reflexivity.
  - eexists. reflexivity.
Qed.

(** ** The post-processing of the extractor *)

Lemma blanks_to_none_lookup (data : pydict) (k : string) :
  dict_lookup (blanks_to_none data) k = unblank <$> dict_lookup data k.
Proof.
  induction data as [|[k' v] data IH]; simpl; [reflexivity|].
  destruct (String.eqb k' k); [reflexivity | assumption].
Qed.

Lemma blanks_to_none_get (data : pydict) (k : string) :
  dict_get (blanks_to_none data) k = unblank (dict_get data k).
Proof.
  unfold dict_get. rewrite blanks_to_none_lookup.
  now destruct (dict_lookup data k).
Qed.

Lemma fix_mode_get (data : pydict) (k : string) :
  k <> "mode" -> dict_get (fix_mode data) k = dict_get data k.
Proof.
  intros Hk. unfold fix_mode. destruct (is_mode _); [reflexivity|].
  apply dict_get_set_ne. congruence.
Qed.

Lemma default_if_falsy_get (data : pydict) (key k : string) (dflt : pyval) :
  k <> key -> dict_get (default_if_falsy data key dflt) k = dict_get data k.
Proof.
  intros Hk. unfold default_if_falsy. destruct (truthy _); [reflexivity|].
  apply dict_get_set_ne. congruence.
Qed.

Lemma fix_budget_get_ne (data : pydict) (k : string) :
  k <> "budget" -> dict_get (fix_budget data) k = dict_get data k.
Proof.
  intros Hk. unfold fix_budget.
  destruct (dict_get data "budget"); try reflexivity;
    apply dict_get_set_ne; congruence.
Qed.

Lemma fix_budget_get (data : pydict) :
  dict_get (fix_budget data) "budget" = coerced_budget (dict_get data "budget").
Proof.
  unfold fix_budget, coerced_budget.
  destruct (dict_get data "budget") eqn:E; try apply dict_get_set_eq.
  exact E.
Qed.

Lemma fix_count_get_ne (data : pydict) (key k : string) (dflt : Z) :
  k <> key -> dict_get (fix_count data key dflt) k = dict_get data k.
Proof. intros Hk. unfold fix_count. apply dict_get_set_ne. congruence. Qed.

Lemma fix_count_get (data : pydict) (key : string) (dflt : Z) :
  dict_get (fix_count data key dflt) key = PInt (coerced_count (dict_get data key) dflt).
Proof. unfold fix_count. apply dict_get_set_eq. Qed.

Lemma fix_strings_get (data : pydict) (k : string) :
  ~ In k (map fst required_string_defaults) ->
  dict_get (fix_strings data) k = dict_get data k.
Proof.
  unfold fix_strings. revert data.
  induction required_string_defaults as [|[key dflt] l IH]; intros data Hk; simpl.
  - reflexivity.
  - rewrite IH by (intros H; apply Hk; now right).
    apply default_if_falsy_get. intros ->. apply Hk. now left.
Qed.

Lemma coerced_budget_shape (v : pyval) :
  coerced_budget v = PNone \/ exists f, coerced_budget v = PFloat f.
Proof.
  unfold coerced_budget. destruct v; auto; destruct (py_float _); eauto.
Qed.

Lemma coerced_budget_twice (v : pyval) :
  coerced_budget (coerced_budget v) = coerced_budget v.
Proof.
  destruct (coerced_budget_shape v) as [-> | [f ->]]; reflexivity.
Qed.

(** A blank string counts like an absent value. *)
Lemma coerced_count_unblank (v : pyval) (dflt : Z) :
  coerced_count (unblank v) dflt = coerced_count v dflt.
Proof.
  unfold unblank, is_blank, is_str.
  destruct v as [| | | |s| | |]; try reflexivity.
  destruct (String.eqb s "") eqn:E1; [apply String.eqb_eq in E1; now subst|].
  destruct (String.eqb s "null") eqn:E2; [apply String.eqb_eq in E2; now subst|].
  destruct (String.eqb s "undefined") eqn:E3; [apply String.eqb_eq in E3; now subst|].
  reflexivity.
Qed.

Lemma post_process_adults (data : pydict) :
  dict_get (post_process data) "no_of_adults"
  = PInt (coerced_count (dict_get data "no_of_adults") 1).
Proof.
  unfold post_process.
  rewrite fix_strings_get by (simpl; intuition discriminate).
  rewrite fix_budget_get_ne by discriminate.
  rewrite fix_count_get_ne by discriminate.
  rewrite fix_count_get.
  rewrite fix_budget_get_ne by discriminate.
  rewrite fix_mode_get by discriminate.
  rewrite !default_if_falsy_get by discriminate.
  rewrite blanks_to_none_get, fix_mode_get by discriminate.
  now rewrite coerced_count_unblank.
Qed.

Lemma post_process_children (data : pydict) :
  dict_get (post_process data) "no_of_children"
  = PInt (coerced_count (dict_get data "no_of_children") 0).
Proof.
  unfold post_process.
  rewrite fix_strings_get by (simpl; intuition discriminate).
  rewrite fix_budget_get_ne by discriminate.
  rewrite fix_count_get.
  rewrite fix_count_get_ne by discriminate.
  rewrite fix_budget_get_ne by discriminate.
  rewrite fix_mode_get by discriminate.
  rewrite !default_if_falsy_get by discriminate.
  rewrite blanks_to_none_get, fix_mode_get by discriminate.
  now rewrite coerced_count_unblank.
Qed.

Lemma post_process_budget (data : pydict) :
  dict_get (post_process data) "budget"
  = coerced_budget (unblank (dict_get data "budget")).
Proof.
  unfold post_process.
  rewrite fix_strings_get by (simpl; intuition discriminate).
  rewrite fix_budget_get.
  rewrite !fix_count_get_ne by discriminate.
  rewrite fix_budget_get, coerced_budget_twice.
  rewrite fix_mode_get by discriminate.
  rewrite !default_if_falsy_get by discriminate.
  rewrite blanks_to_none_get, fix_mode_get by discriminate.
  reflexivity.
Qed.

(** C8, as the code has it.  After the post-processing [no_of_adults] is
    the integer [int(v or 1)] of the payload's value [v], and 1 when that
    raises; [no_of_children] is [int(v or 0)], and 0 when that raises;
    [budget] is a float or [None].  The count of adults is at least 1, and
    that of children at least 0, when the payload gives a non-negative
    integer, or nothing that [int] reads; no bound is enforced otherwise. *)
Theorem post_process_numbers (data : pydict) :
  dict_get (post_process data) "no_of_adults"
  = PInt (coerced_count (dict_get data "no_of_adults") 1)
  /\ dict_get (post_process data) "no_of_children"
     = PInt (coerced_count (dict_get data "no_of_children") 0)
  /\ (dict_get (post_process data) "budget" = PNone
      \/ exists f, dict_get (post_process data) "budget" = PFloat f)
  /\ (forall v dflt e, py_int (py_or v (PInt dflt)) = Raise e ->
                       coerced_count v dflt = dflt)
  /\ (forall z, 0 <= z -> 1 <= coerced_count (PInt z) 1)
  /\ (forall z, 0 <= z -> 0 <= coerced_count (PInt z) 0).
Proof.
  split; [apply post_process_adults|].
  split; [apply post_process_children|].
  split; [rewrite post_process_budget; apply coerced_budget_shape|].
  split; [intros v dflt e H; unfold coerced_count; now rewrite H|].
  split; intros z Hz; unfold coerced_count, py_or; simpl;
    destruct (Z.eqb_spec z 0); simpl; lia.
Qed.

(** C8, as the spec has it, fails: the negative counts pass through the
    post-processing, and through the construction of the requirements. *)
Lemma post_process_keeps_negative_counts :
  dict_get (post_process negative_counts) "no_of_adults" = PInt (-3)
  /\ dict_get (post_process negative_counts) "no_of_children" = PInt (-2)
  /\ exists r, TripRequirements.new (post_process negative_counts) = Ok r
               /\ TripRequirements.no_of_adults r = Some (-3)
               /\ TripRequirements.no_of_children r = -2.
Proof.
  split; [vm_compute; reflexivity|]. split; [vm_compute; reflexivity|].
  eexists. split; [vm_compute; reflexivity|]. split; reflexivity.
Qed.

(** ** The plan builder *)

Lemma guard_hotels (requirements : TripRequirements.t) (data : pydict) :
  truthy (dict_get data "hotels") = false ->
  dict_lookup (guard requirements data) "hotels"
  = Some (PList [fallback_hotel requirements]).
Proof.
  intros H. unfold guard. rewrite H.
  destruct (truthy (dict_get (dict_set data "hotels" _) "flights")).
  - apply dict_lookup_set_eq.
  - rewrite dict_lookup_set_ne by discriminate. apply dict_lookup_set_eq.
Qed.

Lemma guard_flights (requirements : TripRequirements.t) (data : pydict) :
  truthy (dict_get data "flights") = false ->
  dict_lookup (guard requirements data) "flights"
  = Some (PList [fallback_flight requirements]).
Proof.
  intros H. unfold guard.
  destruct (truthy (dict_get data "hotels")).
  - rewrite H. apply dict_lookup_set_eq.
  - rewrite dict_get_set_ne by discriminate. rewrite H. apply dict_lookup_set_eq.
Qed.

(** Where the guard is reached it does what the spec says: a plan that the
    [try] branch returns has the one placeholder in place of hotels, or of
    flights, that the answer left empty. *)
Lemma planner_guard_fills (requirements : TripRequirements.t) (data : pydict)
  (plan : TravelPlan.t) :
  TravelPlan.new (guard requirements data) = Ok plan ->
  (truthy (dict_get data "hotels") = false ->
   exists location, TravelPlan.hotels plan = [fallback_hotel_record location])
  /\ (truthy (dict_get data "flights") = false ->
      TravelPlan.flights plan = [fallback_flight_record]).
Proof.
  intros H. unfold TravelPlan.new in H. cbv zeta in H. split; intros Hempty.
  - rewrite (guard_hotels _ _ Hempty) in H.
    binds_inv. injection H as <-. simpl.
    match goal with
    | Hh : TravelPlan.validate_hotels _ = Ok _ |- _ =>
        unfold TravelPlan.validate_hotels, TravelPlan.validate_suggestions,
          fallback_hotel, HotelSuggestion.new in Hh;
        simpl in Hh;
        destruct (TripRequirements.destination requirements) as [location|];
        simpl in Hh; [|discriminate Hh];
        injection Hh as <-
    end.
    now exists location.
  - rewrite (guard_flights _ _ Hempty) in H.
    binds_inv. injection H as <-. simpl.
    match goal with
    | Hf : TravelPlan.validate_flights _ = Ok _ |- _ =>
        unfold TravelPlan.validate_flights, TravelPlan.validate_suggestions,
          fallback_flight, FlightSuggestion.new in Hf;
        simpl in Hf; injection Hf as <-
    end.
    reflexivity.
Qed.

(** C4 fails on two return paths.  When the answer of the model holds no
    JSON object the [except] branch returns a plan whose two lists are
    empty, whatever the requirements; and when the answer lists its hotels
    and flights as names the guard lets them through and the validators of
    [TravelPlan] drop them, which leaves the lists empty too. *)
Theorem planner_returns_empty_lists (requirements : TripRequirements.t) :
  planner requirements "Sorry, I could not build a plan."
  = TravelPlan.mk (PStr "Fallback plan") [] [] float_zero
                  (TripRequirements.budget requirements)
  /\ planner requirements names_only_answer
     = TravelPlan.mk (PStr "Three days in Goa") [] [] float_zero None.
Proof. split; vm_compute; reflexivity. Qed.

(** ** [json.loads] reads back what [json.dumps] writes *)

Lemma encode_list l : encode (PList l) = (body ← encode_items l; Some ("["%char :: body ++ ["]"%char])).
Proof. reflexivity. Qed.

Lemma encode_dict d : encode (PDict d) = (body ← encode_members d; Some ("{"%char :: body ++ ["}"%char])).
Proof. reflexivity. Qed.

Lemma scan_string_escape (c : ascii) (r : list ascii) :
  scan_string (escape_char c ++ r)
  = ('(b, r') ← scan_string r; Some (c :: b, r')).
Proof.
  destruct c as [[] [] [] [] [] [] [] []]; reflexivity.
Qed.

Lemma number_end_digits_end rest : number_end rest = true -> digits_end rest = true.
Proof.
  destruct rest as [|c r]; simpl; [reflexivity|].
  destruct (is_digit_char c); [discriminate | reflexivity].
Qed.

Lemma scan_digits_end rest : digits_end rest = true -> scan_digits rest = (Nil, rest).
Proof.
  destruct rest as [|c r]; simpl; [reflexivity|].
  unfold is_digit_char. destruct (digit_of c); [discriminate | reflexivity].
Qed.

Lemma scan_digits_uint (d : uint) (rest : list ascii) :
  digits_end rest = true -> scan_digits (uint_chars d ++ rest) = (d, rest).
Proof.
  intros H. induction d; simpl; try (rewrite IHd; reflexivity).
  now apply scan_digits_end.
Qed.

Lemma scan_frac_end rest : number_end rest = true -> scan_frac rest = None.
Proof.
  destruct rest as [|c r]; simpl; [reflexivity|].
  destruct (is_char c "."); [|reflexivity].
  rewrite orb_true_r. discriminate.
Qed.

Lemma scan_exp_end rest : number_end rest = true -> scan_exp rest = None.
Proof.
  destruct rest as [|c r]; simpl; [reflexivity|].
  destruct (is_char c "e"), (is_char c "E"); simpl; try reflexivity;
    rewrite ?orb_true_r; discriminate.
Qed.

Lemma pos_to_uint_head (p : positive) :
  Pos.to_uint p <> Nil /\ forall d, Pos.to_uint p <> D0 d.
Proof.
  split; [apply Unsigned.to_uint_nonnil|].
  intros d E.
  assert (Hn : unorm (Pos.to_uint p) = Pos.to_uint p).
  { rewrite <- (Unsigned.to_of (Pos.to_uint p)), Unsigned.of_to. reflexivity. }
  destruct (nzhead (Pos.to_uint p)) eqn:Hz;
    [ apply (Unsigned.to_uint_nonzero p); rewrite <- Hn; now apply unorm_0
    | rewrite unorm_nzhead in Hn by congruence;
      apply (nzhead_nonzero (Pos.to_uint p) d); congruence .. ].
Qed.

Lemma scan_int_part_uint (u : uint) (rest : list ascii) :
  u <> Nil -> (forall d, u <> D0 d) -> digits_end rest = true ->
  scan_int_part (uint_chars u ++ rest) = Some (u, rest).
Proof.
  intros Hnil Hzero Hrest.
  destruct u; try congruence; try (exfalso; eapply Hzero; reflexivity);
    simpl; rewrite scan_digits_uint by assumption; reflexivity.
Qed.

Lemma Z_of_uint_pos (p : positive) : Z_of_uint (Pos.to_uint p) = Z.pos p.
Proof. unfold Z_of_uint, N.of_uint. now rewrite Unsigned.of_to. Qed.

Lemma scan_int_part_nat (z : Z) (rest : list ascii) :
  0 <= z -> digits_end rest = true ->
  scan_int_part (uint_chars (nat_digits z) ++ rest) = Some (nat_digits z, rest)
  /\ Z_of_uint (nat_digits z) = z.
Proof.
  intros Hz Hrest. destruct z as [|p|p]; [| |lia].
  - split; reflexivity.
  - split; [|apply Z_of_uint_pos].
    destruct (pos_to_uint_head p). now apply scan_int_part_uint.
Qed.

Lemma Z_chars_split (z : Z) :
  Z_chars z = (if z <? 0 then ["-"%char] else []) ++ uint_chars (nat_digits (Z.abs z)).
Proof. destruct z; reflexivity. Qed.

Lemma uint_chars_head (u : uint) :
  u <> Nil -> exists c cs, uint_chars u = c :: cs /\ is_digit_char c = true.
Proof. destruct u; try congruence; intros _; simpl; eauto. Qed.

Lemma nat_digits_nonnil (z : Z) : nat_digits z <> Nil.
Proof. destruct z; simpl; try discriminate. apply Unsigned.to_uint_nonnil. Qed.

Lemma digit_not_minus (c : ascii) : is_digit_char c = true -> is_char c "-" = false.
Proof.
  destruct c as [[] [] [] [] [] [] [] []]; try reflexivity; discriminate.
Qed.

Lemma signed_abs (z : Z) : signed (z <? 0) (Z.abs z) = z.
Proof. unfold signed. destruct (Z.ltb_spec z 0); lia. Qed.

(** What [scan_number] makes of the sign and the integer part. *)
Lemma scan_number_start (z : Z) (rest : list ascii) :
  digits_end rest = true ->
  exists c cs,
    Z_chars z ++ rest = c :: cs
    /\ (is_digit_char c = true \/ c = "-"%char)
    /\ scan_number (c :: cs)
       = (let '(fd, s3) :=
            match scan_frac rest with
            | Some (fd, s3) => (Some fd, s3)
            | None => (None, rest)
            end in
          let '(ex, s4) :=
            match scan_exp s3 with
            | Some (e, s4) => (Some e, s4)
            | None => (None, s3)
            end in
          match fd, ex with
          | None, None =>
              Some (PInt (signed (z <? 0) (Z_of_uint (nat_digits (Z.abs z)))), s4)
          | _, _ =>
              let fdigits := default Nil fd in
              let mant :=
                signed (z <? 0)
                       (Z_of_uint (Decimal.app (nat_digits (Z.abs z)) fdigits)) in
              let e := default 0 ex - Z.of_nat (Decimal.nb_digits fdigits) in
              Some (PFloat (FDec mant e), s4)
          end).
Proof.
  intros Hrest. rewrite Z_chars_split.
  destruct (scan_int_part_nat (Z.abs z) rest (Z.abs_nonneg z) Hrest) as [Hscan _].
  destruct (uint_chars_head (nat_digits (Z.abs z)) (nat_digits_nonnil _))
    as (c & cs & Hc & Hd).
  destruct (z <? 0).
  - exists "-"%char, (uint_chars (nat_digits (Z.abs z)) ++ rest).
    split; [reflexivity|]. split; [now right|].
    unfold scan_number. cbn [is_char Ascii.eqb Bool.eqb].
    rewrite Hscan. reflexivity.
  - exists c, (cs ++ rest). rewrite Hc in *.
    split; [reflexivity|]. split; [now left|].
    unfold scan_number. rewrite (digit_not_minus c Hd).
    simpl app in Hscan. rewrite Hscan. reflexivity.
Qed.

Lemma scan_number_int (z : Z) (rest : list ascii) :
  number_end rest = true ->
  scan_number (Z_chars z ++ rest) = Some (PInt z, rest).
Proof.
  intros Hrest.
  destruct (scan_number_start z rest (number_end_digits_end _ Hrest))
    as (c & cs & -> & _ & ->).
  rewrite (scan_frac_end _ Hrest), (scan_exp_end _ Hrest).
  destruct (scan_int_part_nat (Z.abs z) rest (Z.abs_nonneg z)
              (number_end_digits_end _ Hrest)) as [_ ->].
  now rewrite signed_abs.
Qed.

Lemma scan_exp_Z (e : Z) (rest : list ascii) :
  digits_end rest = true ->
  scan_exp ("e"%char :: Z_chars e ++ rest) = Some (e, rest).
Proof.
  intros Hrest. rewrite Z_chars_split.
  destruct (uint_chars_head (nat_digits (Z.abs e)) (nat_digits_nonnil _))
    as (c & cs & Hc & Hd).
  assert (Hscan : scan_digits (uint_chars (nat_digits (Z.abs e)) ++ rest)
                  = (nat_digits (Z.abs e), rest)) by now apply scan_digits_uint.
  assert (Hval : Z_of_uint (nat_digits (Z.abs e)) = Z.abs e).
  { destruct (Z.abs e) eqn:E; [reflexivity | apply Z_of_uint_pos | lia]. }
  assert (Hplus : is_char c "+" = false).
  { revert Hd. clear.
    destruct c as [[] [] [] [] [] [] [] []]; try reflexivity; discriminate. }
  pose proof (nat_digits_nonnil (Z.abs e)) as Hnil.
  unfold scan_exp. cbn [is_char Ascii.eqb Bool.eqb orb].
  destruct (Z.ltb_spec e 0) as [Es|Es].
  - cbn [app is_char Ascii.eqb Bool.eqb]. rewrite Hscan.
    destruct (nat_digits (Z.abs e)); try congruence;
      rewrite Hval; unfold signed; do 2 f_equal; lia.
  - cbn [app]. rewrite Hc in *. cbn [app] in *.
    rewrite (digit_not_minus c Hd), Hplus, Hscan.
    destruct (nat_digits (Z.abs e)); try congruence;
      rewrite Hval; unfold signed; do 2 f_equal; lia.
Qed.

Lemma scan_number_float (m e : Z) (rest : list ascii) :
  digits_end rest = true ->
  scan_number (Z_chars m ++ "e"%char :: Z_chars e ++ rest)
  = Some (PFloat (FDec m e), rest).
Proof.
  intros Hrest.
  destruct (scan_number_start m ("e"%char :: Z_chars e ++ rest) eq_refl)
    as (c & cs & -> & _ & ->).
  change (scan_frac ("e"%char :: Z_chars e ++ rest)) with (@None (uint * list ascii)).
  cbv iota beta zeta.
  rewrite (scan_exp_Z e rest Hrest). cbv iota beta zeta. cbn [default].
  rewrite DecimalFacts.app_nil_r. cbn [nb_digits Z.of_nat].
  destruct (scan_int_part_nat (Z.abs m) rest (Z.abs_nonneg m) Hrest) as [_ ->].
  rewrite signed_abs.
  replace (id e - Z.of_nat 0) with e by (unfold id; simpl; lia). reflexivity.
Qed.

Lemma scan_string_body (cs rest : list ascii) :
  scan_string (flat_map escape_char cs ++ dquote :: rest) = Some (cs, rest).
Proof.
  induction cs as [|c cs IH]; [reflexivity|].
  cbn [flat_map]. rewrite <- app_assoc, scan_string_escape, IH. reflexivity.
Qed.

Lemma Z_chars_head (z : Z) :
  exists c cs, Z_chars z = c :: cs /\ (is_digit_char c = true \/ c = "-"%char).
Proof.
  destruct z as [|p|p]; simpl.
  - exists "0"%char, []. split; [reflexivity | now left].
  - destruct (uint_chars_head (Pos.to_uint p) (Unsigned.to_uint_nonnil p))
      as (c & cs & -> & Hd). eauto.
  - eauto.
Qed.

Lemma number_start_value (c : ascii) :
  is_digit_char c = true \/ c = "-"%char -> value_start c = true.
Proof.
  intros [H| ->]; [|reflexivity]. revert H.
  destruct c as [[] [] [] [] [] [] [] []]; try reflexivity; discriminate.
Qed.

Lemma parse_value_number (n : nat) (c : ascii) (cs : list ascii) :
  is_digit_char c = true \/ c = "-"%char ->
  parse_value (S n) (c :: cs) = scan_number (c :: cs).
Proof.
  intros [H| ->]; [|reflexivity]. revert H.
  destruct c as [[] [] [] [] [] [] [] []]; try reflexivity; discriminate.
Qed.

Lemma encode_head (v : pyval) (out : list ascii) :
  encode v = Some out -> exists c cs, out = c :: cs /\ value_start c = true.
Proof.
  destruct v as [|[]|z|f|s|d|l|d].
  - intros [= <-]. eexists _, _. split; reflexivity.
  - intros [= <-]. eexists _, _. split; reflexivity.
  - intros [= <-]. eexists _, _. split; reflexivity.
  - intros [= <-]. destruct (Z_chars_head z) as (c & cs & -> & H).
    eauto using number_start_value.
  - simpl. intros [= <-]. destruct (Z_chars_head (fmant f)) as (c & cs & -> & H).
    eexists _, _. split; [reflexivity|]. now apply number_start_value.
  - intros [= <-]. eexists _, _. split; reflexivity.
  - discriminate.
  - rewrite encode_list. destruct (encode_items l); simpl; [|discriminate].
    intros [= <-]. eexists _, _. split; reflexivity.
  - rewrite encode_dict. destruct (encode_members d); simpl; [|discriminate].
    intros [= <-]. eexists _, _. split; reflexivity.
Qed.

Lemma skip_ws_start (c : ascii) (cs : list ascii) :
  value_start c = true -> skip_ws (c :: cs) = c :: cs.
Proof.
  unfold value_start. simpl. destruct (is_ws c); [discriminate | reflexivity].
Qed.

Lemma parse_value_ws (fuel : nat) (s : list ascii) :
  parse_value fuel (" "%char :: s) = parse_value fuel s.
Proof. destruct fuel; reflexivity. Qed.

Lemma parse_items_ws (fuel : nat) (s : list ascii) :
  parse_items fuel (" "%char :: s) = parse_items fuel s.
Proof. destruct fuel; [reflexivity|]. simpl. now rewrite parse_value_ws. Qed.

Lemma parse_members_ws (fuel : nat) (s : list ascii) (acc : pydict) :
  parse_members fuel (" "%char :: s) acc = parse_members fuel s acc.
Proof. destruct fuel; reflexivity. Qed.

Lemma dict_set_fresh (acc : pydict) (k : string) (v : pyval) :
  ~ In k (map fst acc) -> dict_set acc k v = acc ++ [(k, v)].
Proof.
  induction acc as [|[k' v'] acc IH]; simpl; [reflexivity|].
  intros H. destruct (String.eqb_spec k' k); [tauto|].
  rewrite IH by tauto. reflexivity.
Qed.

Lemma str_of_chars (s : string) : str_of (chars s) = s.
Proof. apply string_of_list_ascii_of_string. Qed.

Lemma chars_str_of (l : list ascii) : chars (str_of l) = l.
Proof. apply list_ascii_of_string_of_list_ascii. Qed.

Lemma length_str_of (l : list ascii) : String.length (str_of l) = length l.
Proof. induction l; simpl; congruence. Qed.

Lemma parse_items_encode (l : list pyval) :
  List.Forall reads_back l -> l <> [] ->
  forall body, encode_items l = Some body -> forallb json_ok l = true ->
  forall fuel rest, (length body < fuel)%nat ->
  parse_items fuel (body ++ "]"%char :: rest) = Some (l, rest).
Proof.
  induction 1 as [|x l Hx Hl IH]; [congruence|]. intros _ body Henc Hok fuel rest Hfuel.
  simpl in Henc. destruct (encode x) as [a|] eqn:Ea; simpl in Henc; [|discriminate].
  simpl in Hok. apply andb_prop in Hok as [Hokx Hokl].
  destruct fuel as [|n]; [lia|].
  destruct l as [|y l'].
  - injection Henc as <-. simpl.
    rewrite (Hx a Ea Hokx n ("]"%char :: rest)) by (simpl in *; first [lia | reflexivity]).
    reflexivity.
  - destruct (encode_items (y :: l')) as [b|] eqn:Eb; simpl in Henc; [|discriminate].
    injection Henc as <-.
    rewrite !length_app in Hfuel. simpl in Hfuel.
    rewrite <- !app_assoc. simpl.
    rewrite (Hx a Ea Hokx n) by (first [lia | reflexivity]).
    cbn [mbind option_bind skip_ws is_ws is_char Ascii.eqb Bool.eqb orb].
    rewrite parse_items_ws.
    rewrite (IH ltac:(discriminate) b eq_refl Hokl n rest) by lia.
    reflexivity.
Qed.

Ltac len_norm H :=
  repeat first [rewrite length_app in H | progress cbn [length] in H].
Ltac app_norm := repeat first [rewrite <- app_assoc | progress cbn [app]].

Lemma parse_members_start (n : nat) (k : string) (tail : list ascii) (acc : pydict) :
  parse_members (S n)
    (dquote :: flat_map escape_char (chars k)
            ++ dquote :: ":"%char :: " "%char :: tail) acc
  = ('(v, r3) ← parse_value n tail;
     let acc' := dict_set acc k v in
     match skip_ws r3 with
     | [] => None
     | c3 :: r4 =>
         if is_char c3 "," then parse_members n r4 acc'
         else if is_char c3 "}" then Some (acc', r4)
         else None
     end).
Proof.
  change (parse_members (S n) (dquote :: ?s) acc)
    with ('(k0, r1) ← scan_string s;
          match skip_ws r1 with
          | [] => None
          | c1 :: r2 =>
              if is_char c1 ":" then
                '(v, r3) ← parse_value n r2;
                let acc' := dict_set acc (str_of k0) v in
                match skip_ws r3 with
                | [] => None
                | c3 :: r4 =>
                    if is_char c3 "," then parse_members n r4 acc'
                    else if is_char c3 "}" then Some (acc', r4)
                    else None
                end
              else None
          end).
  rewrite scan_string_body.
  cbn [mbind option_bind skip_ws is_ws is_char Ascii.eqb Bool.eqb orb].
  rewrite parse_value_ws, str_of_chars. reflexivity.
Qed.

Lemma parse_members_encode (d : pydict) :
  List.Forall (fun kx => reads_back (snd kx)) d -> d <> [] ->
  forall body, encode_members d = Some body ->
  forallb (fun kx => json_ok (snd kx)) d = true ->
  forall fuel rest acc, (length body < fuel)%nat ->
  NoDup (map fst acc ++ map fst d) ->
  parse_members fuel (body ++ "}"%char :: rest) acc = Some (acc ++ d, rest).
Proof.
  induction 1 as [|[k x] d Hx Hd IH]; [congruence|].
  intros _ body Henc Hok fuel rest acc Hfuel Hnd.
  cbn [encode_members] in Henc. cbn [snd] in Hx.
  destruct (encode x) as [a|] eqn:Ea; cbn [mbind option_bind] in Henc; [|discriminate].
  simpl in Hok. apply andb_prop in Hok as [Hokx Hokd].
  destruct fuel as [|n]; [lia|].
  assert (Hfresh : ~ In k (map fst acc)).
  { simpl in Hnd. apply NoDup_app in Hnd as (_ & Hnd & _).
    intros Hin. apply (Hnd k); [now apply list_elem_of_In | left]. }
  assert (Hnd' : NoDup (map fst (acc ++ [(k, x)]) ++ map fst d)).
  { rewrite map_app, <- app_assoc. exact Hnd. }
  destruct d as [|y d'].
  - injection Henc as <-. unfold quote in *. len_norm Hfuel. app_norm.
    rewrite parse_members_start.
    rewrite (Hx a Ea Hokx n ("}"%char :: rest)) by (first [lia | reflexivity]).
    cbn. now rewrite dict_set_fresh.
  - destruct (encode_members (y :: d')) as [b|] eqn:Eb;
      cbn [mbind option_bind] in Henc; [|discriminate].
    injection Henc as <-. unfold quote in *. len_norm Hfuel. app_norm.
    rewrite parse_members_start.
    rewrite (Hx a Ea Hokx n) by (first [lia | reflexivity]).
    cbn [mbind option_bind skip_ws is_ws is_char Ascii.eqb Bool.eqb orb].
    rewrite parse_members_ws, dict_set_fresh by assumption.
    rewrite (IH ltac:(discriminate) b eq_refl Hokd n rest (acc ++ [(k, x)])) by
      (first [lia | assumption]).
    now rewrite <- app_assoc.
Qed.

Lemma parse_value_string (n : nat) (r : list ascii) :
  parse_value (S n) (dquote :: r)
  = ('(b, r') ← scan_string r; Some (PStr (str_of b), r')).
Proof. reflexivity. Qed.

Lemma parse_value_list (n : nat) (r : list ascii) :
  parse_value (S n) ("["%char :: r)
  = match skip_ws r with
    | [] => None
    | c' :: r' =>
        if is_char c' "]" then Some (PList [], r')
        else '(l, r'') ← parse_items n r; Some (PList l, r'')
    end.
Proof. reflexivity. Qed.

Lemma parse_value_dict (n : nat) (r : list ascii) :
  parse_value (S n) ("{"%char :: r)
  = match skip_ws r with
    | [] => None
    | c' :: r' =>
        if is_char c' "}" then Some (PDict [], r')
        else '(d, r'') ← parse_members n r []; Some (PDict d, r'')
    end.
Proof. reflexivity. Qed.

Lemma value_start_not_close (c : ascii) :
  value_start c = true -> is_char c "]" = false /\ is_char c "}" = false.
Proof.
  unfold value_start. destruct (is_ws c), (is_char c "]"), (is_char c "}");
    simpl; try discriminate; auto.
Qed.

Lemma encode_items_head (l : list pyval) (body : list ascii) :
  l <> [] -> encode_items l = Some body ->
  exists c cs, body = c :: cs /\ value_start c = true.
Proof.
  destruct l as [|x l]; [congruence|]. intros _. simpl.
  destruct (encode x) as [a|] eqn:Ea; simpl; [|discriminate].
  destruct (encode_head x a Ea) as (c & cs & -> & Hc).
  destruct l; [intros [= <-]; eauto|].
  destruct (encode_items _); simpl; [|discriminate].
  intros [= <-]. eexists _, _. split; [reflexivity | assumption].
Qed.

(** The decoder reads back what the encoder writes. *)
Lemma parse_encode (v : pyval) : reads_back v.
Proof.
  induction v as [|b|z|f|s|d|l IH|d IH] using pyval_nested_ind;
    intros out Henc Hok fuel rest Hfuel Hrest.
  - injection Henc as <-. destruct fuel as [|n]; [simpl in Hfuel; lia|]. reflexivity.
  - destruct b; injection Henc as <-;
      (destruct fuel as [|n]; [simpl in Hfuel; lia|]); reflexivity.
  - injection Henc as <-.
    destruct (Z_chars_head z) as (c & cs & E & Hc).
    destruct fuel as [|n]; [rewrite E in Hfuel; simpl in Hfuel; lia|].
    rewrite <- (scan_number_int z rest Hrest). rewrite E in *.
    now apply parse_value_number.
  - simpl in Henc. injection Henc as <-.
    destruct (Z_chars_head (fmant f)) as (c & cs & E & Hc).
    destruct fuel as [|n]; [rewrite E in Hfuel; simpl in Hfuel; lia|].
    destruct f as [m e]. simpl in *.
    rewrite <- app_assoc. simpl.
    rewrite <- (scan_number_float m e rest (number_end_digits_end _ Hrest)).
    rewrite E in *. now apply parse_value_number.
  - injection Henc as <-.
    destruct fuel as [|n]; [simpl in Hfuel; lia|].
    unfold quote. cbn [app]. rewrite parse_value_string, <- app_assoc.
    cbn [app]. rewrite scan_string_body. cbn. now rewrite str_of_chars.
  - discriminate.
  - rewrite encode_list in Henc.
    destruct (encode_items l) as [body|] eqn:Eb; simpl in Henc; [|discriminate].
    injection Henc as <-.
    destruct fuel as [|n]; [simpl in Hfuel; lia|].
    cbn [app]. rewrite parse_value_list, <- app_assoc. cbn [app].
    destruct l as [|x l'].
    + injection Eb as <-. reflexivity.
    + destruct (encode_items_head (x :: l') body ltac:(discriminate) Eb)
        as (c & cs & -> & Hc).
      cbn [app]. rewrite (skip_ws_start c _ Hc).
      destruct (value_start_not_close c Hc) as [-> _].
      change (c :: cs ++ "]"%char :: rest) with ((c :: cs) ++ "]"%char :: rest).
      rewrite (parse_items_encode (x :: l') IH ltac:(discriminate) (c :: cs) Eb).
      * reflexivity.
      * exact Hok.
      * simpl in Hfuel. rewrite length_app in Hfuel. simpl in *. lia.
  - rewrite encode_dict in Henc.
    destruct (encode_members d) as [body|] eqn:Eb; simpl in Henc; [|discriminate].
    injection Henc as <-.
    destruct fuel as [|n]; [simpl in Hfuel; lia|].
    cbn [app]. rewrite parse_value_dict, <- app_assoc. cbn [app].
    simpl in Hok. apply andb_prop in Hok as [Hnd Hok].
    apply bool_decide_eq_true in Hnd.
    destruct d as [|[k x] d'].
    + injection Eb as <-. reflexivity.
    + assert (Hb : exists cs, body = dquote :: cs).
      { simpl in Eb. destruct (encode x); simpl in Eb; [|discriminate].
        destruct d'; [|destruct (encode_members _); simpl in Eb; [|discriminate]];
          injection Eb as <-; unfold quote; eauto. }
      destruct Hb as [cs ->].
      change (skip_ws ((dquote :: cs) ++ "}"%char :: rest))
        with ((dquote :: cs) ++ "}"%char :: rest).
      cbn [app is_char Ascii.eqb Bool.eqb dquote].
      change ("034"%char) with dquote.
      change (dquote :: cs ++ "}"%char :: rest)
        with ((dquote :: cs) ++ "}"%char :: rest).
      rewrite (parse_members_encode ((k, x) :: d') IH ltac:(discriminate)
                 (dquote :: cs) Eb Hok n rest []).
      * reflexivity.
      * simpl in Hfuel. rewrite length_app in Hfuel. simpl in *. lia.
      * exact Hnd.
Qed.

(** [json.loads(json.dumps(v)) == v] for a value JSON has a form for. *)
Theorem loads_dumps (v : pyval) (text : string) :
  json_ok v = true -> dumps v = Ok text -> loads text = Ok v.
Proof.
  intros Hok. unfold dumps, loads.
  destruct (encode v) as [out|] eqn:E; [|discriminate].
  intros [= <-]. rewrite chars_str_of, length_str_of.
  rewrite <- (app_nil_r out) at 2.
  rewrite (parse_encode v out E Hok (S (length out)) []) by (first [lia | reflexivity]).
  reflexivity.
Qed.

Lemma dumps_ok (v : pyval) : json_ok v = true -> exists text, dumps v = Ok text.
Proof.
  intros Hok. unfold dumps.
  enough (exists out, encode v = Some out) as [out ->] by eauto.
  induction v as [|b|z|f|s|d|l IH|d IH] using pyval_nested_ind;
    try (eexists; reflexivity); try discriminate.
  - destruct b; eexists; reflexivity.
  - rewrite encode_list.
    enough (exists body, encode_items l = Some body) as [body ->] by (simpl; eauto).
    simpl in Hok. induction IH as [|x l' Hx Hl IHl]; [simpl; eauto|].
    simpl in Hok. apply andb_prop in Hok as [Hokx Hokl].
    destruct (Hx Hokx) as [a Ea]. destruct (IHl Hokl) as [b Eb].
    simpl. rewrite Ea. simpl. destruct l'; [eauto|]. rewrite Eb. simpl. eauto.
  - rewrite encode_dict.
    enough (exists body, encode_members d = Some body) as [body ->] by (simpl; eauto).
    simpl in Hok. apply andb_prop in Hok as [_ Hok].
    induction IH as [|[k x] d' Hx Hd IHd]; [simpl; eauto|].
    simpl in Hok. apply andb_prop in Hok as [Hokx Hokd]. cbn [snd] in Hx.
    destruct (Hx Hokx) as [a Ea]. destruct (IHd Hokd) as [b Eb].
    simpl. rewrite Ea. simpl. destruct d'; [eauto|]. rewrite Eb. simpl. eauto.
Qed.

Lemma dumps_nonempty (v : pyval) (text : string) :
  dumps v = Ok text -> text <> "".
Proof.
  unfold dumps. destruct (encode v) as [out|] eqn:E; [|discriminate].
  intros [= <-]. destruct (encode_head v out E) as (c & cs & -> & _). discriminate.
Qed.

(** ** The round trip of a plan through [TripPlanModel] *)

Lemma json_ok_strs (l : list string) : forallb json_ok (map PStr l) = true.
Proof. induction l; simpl; auto. Qed.

Lemma json_ok_hotels (hs : list HotelSuggestion.t) : json_ok (hotels_value hs) = true.
Proof.
  unfold hotels_value. cbn [json_ok]. induction hs as [|h hs IH]; [reflexivity|].
  cbn [map forallb]. rewrite IH, andb_true_r.
  unfold HotelSuggestion.dict. cbn [json_ok map fst snd forallb].
  rewrite json_ok_strs. reflexivity.
Qed.

Lemma json_ok_flights (fs : list FlightSuggestion.t) : json_ok (flights_value fs) = true.
Proof.
  unfold flights_value. cbn [json_ok]. induction fs as [|f fs IH]; [reflexivity|].
  cbn [map forallb]. rewrite IH, andb_true_r.
  unfold FlightSuggestion.dict. cbn [json_ok map fst snd forallb].
  destruct (FlightSuggestion.arrival_time f); reflexivity.
Qed.

Lemma hotel_new_dict (h : HotelSuggestion.t) :
  HotelSuggestion.new (HotelSuggestion.dict h) = Ok h.
Proof.
  destruct h as [n p r l a].
  unfold HotelSuggestion.new, HotelSuggestion.dict, field_default.
  cbn [dict_lookup String.eqb Ascii.eqb Bool.eqb HotelSuggestion.name
       HotelSuggestion.price_per_night HotelSuggestion.rating
       HotelSuggestion.location HotelSuggestion.amenities as_str as_float
       as_str_list ok_or].
  rewrite mapM_as_str. reflexivity.
Qed.

Lemma flight_new_dict (f : FlightSuggestion.t) :
  FlightSuggestion.new (FlightSuggestion.dict f) = Ok f.
Proof.
  destruct f as [a d t p u s].
  unfold FlightSuggestion.new, FlightSuggestion.dict, field_default.
  cbn [dict_lookup String.eqb Ascii.eqb Bool.eqb FlightSuggestion.airline
       FlightSuggestion.departure_time FlightSuggestion.arrival_time
       FlightSuggestion.price FlightSuggestion.duration FlightSuggestion.stops
       as_str as_float as_int ok_or].
  rewrite as_optional_opt_str. reflexivity.
Qed.

Lemma validate_built {A : Type} (build : pydict -> result A) (dict : A -> pydict)
  (xs : list A) :
  (forall x, build (dict x) = Ok x) ->
  TravelPlan.validate_suggestions build (PList (map (fun x => PDict (dict x)) xs))
  = Ok xs.
Proof.
  intros H. unfold TravelPlan.validate_suggestions.
  destruct xs as [|x xs]; [reflexivity|].
  cbn [truthy map TravelPlan.iterate mbind result_bind].
  change (PDict (dict x) :: map (fun x => PDict (dict x)) xs)
    with (map (fun x => PDict (dict x)) (x :: xs)).
  induction (x :: xs) as [|y ys IH]; [reflexivity|].
  cbn [map TravelPlan.build_each]. rewrite H, IH. reflexivity.
Qed.

Lemma loads_or_dumps (v : pyval) (text : string) (dflt : pyval) :
  json_ok v = true -> Json.dumps v = Ok text ->
  TripPlanModel.loads_or (Some text) dflt = Ok v.
Proof.
  intros Hok Hd. unfold TripPlanModel.loads_or. cbn [opt_str truthy default].
  destruct (String.eqb_spec text "") as [->|_].
  - now apply dumps_nonempty in Hd.
  - cbn [negb]. now apply loads_dumps.
Qed.

(** The round trip of a plan whose itinerary JSON has a form for: all comes
    back as it was, but for a total that was [None] or zero, which comes
    back as [0.0]. *)
Lemma round_trip_plan (X : TravelPlan.t) (trip_id version : Z) :
  json_ok (TravelPlan.itinerary X) = true ->
  TravelPlan.as_itinerary (TravelPlan.itinerary X) = Some (TravelPlan.itinerary X) ->
  round_trip X trip_id version
  = Ok (TravelPlan.mk (TravelPlan.itinerary X) (TravelPlan.hotels X)
          (TravelPlan.flights X) (TravelPlan.daily_budget X)
          (Some (total_or_zero (TravelPlan.total_estimated_cost X)))).
Proof.
  intros Hok Hit. destruct X as [it hs fs daily total]. cbn [TravelPlan.itinerary
    TravelPlan.hotels TravelPlan.flights TravelPlan.daily_budget
    TravelPlan.total_estimated_cost] in *.
  unfold round_trip, TripPlanModel.from_travel_plan.
  cbn [TravelPlan.itinerary TravelPlan.hotels TravelPlan.flights
       TravelPlan.daily_budget TravelPlan.total_estimated_cost].
  fold (hotels_value hs). fold (flights_value fs).
  destruct (dumps_ok it Hok) as [ti Eti].
  destruct (dumps_ok _ (json_ok_hotels hs)) as [th Eth].
  destruct (dumps_ok _ (json_ok_flights fs)) as [tf Etf].
  rewrite Eti, Eth, Etf. cbn [mbind result_bind].
  assert (Etotal : py_or (opt_float total) (PFloat float_zero)
                   = PFloat (total_or_zero total)).
  { unfold py_or, total_or_zero. destruct total as [f|]; [|reflexivity].
    cbn [opt_float]. now destruct (truthy (PFloat f)). }
  rewrite Etotal.
  unfold TripPlanModel.new, field_default, field_required.
  cbn [dict_lookup String.eqb Ascii.eqb Bool.eqb as_optional as_str as_int as_float
       as_literal ok_or fmap option_fmap option_map mbind result_bind].
  change (str_in "draft" TripPlanModel.statuses) with true. cbv iota.
  cbn [ok_or mbind result_bind].
  unfold TripPlanModel.to_travel_plan.
  cbn [TripPlanModel.itinerary_json TripPlanModel.hotels_json
       TripPlanModel.flights_json TripPlanModel.daily_budget
       TripPlanModel.total_estimated_cost].
  rewrite (loads_or_dumps it ti _ Hok Eti).
  rewrite (loads_or_dumps _ th _ (json_ok_hotels hs) Eth).
  rewrite (loads_or_dumps _ tf _ (json_ok_flights fs) Etf).
  cbn [mbind result_bind].
  unfold TravelPlan.new, field_default.
  cbn [dict_lookup String.eqb Ascii.eqb Bool.eqb].
  rewrite Hit.
  unfold TravelPlan.validate_hotels, TravelPlan.validate_flights, hotels_value,
    flights_value.
  rewrite (validate_built _ _ hs hotel_new_dict).
  rewrite (validate_built _ _ fs flight_new_dict).
  reflexivity.
Qed.

(** C2 (amended).  For every TravelPlan X whose itinerary is made of the
    values [json.loads] returns ([None], booleans, integers, finite floats,
    strings, lists, and dicts whose keys are strings: no tuple, no other
    key, no date) and whose numbers are finite, every trip id and every
    version, the round trip
    [TripPlanModel.from_travel_plan(X, t, v).to_travel_plan()] returns a
    TravelPlan whose itinerary, hotels and flights (hence their numbers) and
    daily_budget are those of X; its total_estimated_cost is that of X when
    X has a total that is not zero, and [0.0] when the total of X is [None]
    (or zero). *)
Theorem plan_round_trip (X : TravelPlan.t) (trip_id version : Z) :
  json_ok (TravelPlan.itinerary X) = true ->
  TravelPlan.as_itinerary (TravelPlan.itinerary X) = Some (TravelPlan.itinerary X) ->
  exists Y : TravelPlan.t,
    round_trip X trip_id version = Ok Y /\
    TravelPlan.itinerary Y = TravelPlan.itinerary X /\
    TravelPlan.hotels Y = TravelPlan.hotels X /\
    TravelPlan.flights Y = TravelPlan.flights X /\
    TravelPlan.hotel_count Y = TravelPlan.hotel_count X /\
    TravelPlan.flight_count Y = TravelPlan.flight_count X /\
    TravelPlan.daily_budget Y = TravelPlan.daily_budget X /\
    TravelPlan.total_estimated_cost Y
    = Some (total_or_zero (TravelPlan.total_estimated_cost X)) /\
    (forall f, TravelPlan.total_estimated_cost X = Some f -> truthy (PFloat f) = true ->
       TravelPlan.total_estimated_cost Y = TravelPlan.total_estimated_cost X) /\
    (TravelPlan.total_estimated_cost X = None ->
       TravelPlan.total_estimated_cost Y = Some float_zero).
Proof.
  intros Hok Hit. eexists. split; [apply (round_trip_plan X trip_id version Hok Hit)|].
  unfold TravelPlan.hotel_count, TravelPlan.flight_count.
  cbn [TravelPlan.itinerary TravelPlan.hotels TravelPlan.flights
       TravelPlan.daily_budget TravelPlan.total_estimated_cost].
  repeat split; try reflexivity.
  - intros f -> Hf. unfold total_or_zero. now rewrite Hf.
  - now intros ->.
Qed.

(** The round trip of [goa_plan]. *)
Lemma plan_round_trip_witness :
  exists Y : TravelPlan.t,
    round_trip goa_plan 7 2 = Ok Y /\
    TravelPlan.itinerary Y = TravelPlan.itinerary goa_plan /\
    TravelPlan.hotel_count Y = 1%nat /\
    TravelPlan.flight_count Y = 1%nat /\
    TravelPlan.daily_budget Y = FDec 100 0 /\
    TravelPlan.total_estimated_cost Y = Some (FDec 9505 (-1)).
Proof.
  destruct (plan_round_trip goa_plan 7 2 eq_refl eq_refl)
    as (Y & HY & Hi & Hh & Hf & Hhc & Hfc & Hd & Ht & _).
  exists Y. repeat split; assumption.
Defined.

(** C2, the claim as it stands: [TravelPlan()] has no total, and comes back
    with the total [0.0]. *)
Lemma default_plan_round_trip :
  TravelPlan.total_estimated_cost default_plan = None /\
  round_trip default_plan 1 1
  = Ok (TravelPlan.mk (PStr "Itinerary will be provided") [] [] float_zero
          (Some float_zero)).
Proof. split; [reflexivity | vm_compute; reflexivity]. Qed.

(** * Further properties of the code *)

(** ** Dates *)

Lemma digit_val_char (k : Z) : 0 <= k <= 9 -> digit_val (digit_char k) = Some k.
Proof.
  intros H.
  assert (E : k = 0 \/ k = 1 \/ k = 2 \/ k = 3 \/ k = 4 \/ k = 5 \/ k = 6 \/ k = 7
              \/ k = 8 \/ k = 9) by lia.
  repeat (destruct E as [-> | E]; [reflexivity|]). subst. reflexivity.
Qed.

Lemma digits_val_pad2 (n : Z) : 0 <= n <= 99 -> digits_val (pad2 n) 0 = Some n.
Proof.
  intros H. unfold pad2. cbn [digits_val].
  rewrite !digit_val_char by (Z.div_mod_to_equations; lia).
  cbn [mbind option_bind]. f_equal. Z.div_mod_to_equations. lia.
Qed.

Lemma digits_val_pad4 (n : Z) : 0 <= n <= 9999 -> digits_val (pad4 n) 0 = Some n.
Proof.
  intros H. unfold pad4. cbn [digits_val].
  rewrite !digit_val_char by (Z.div_mod_to_equations; lia).
  cbn [mbind option_bind]. f_equal. Z.div_mod_to_equations. lia.
Qed.

Lemma valid_date_bounds (d : date) :
  valid_date d = true ->
  1 <= year d <= 9999 /\ 1 <= month d <= 12
  /\ 1 <= day d <= days_in_month (year d) (month d).
Proof.
  unfold valid_date. rewrite !andb_true_iff, !Z.leb_le. tauto.
Qed.

Lemma days_in_month_le (y m : Z) : 28 <= days_in_month y m <= 31.
Proof.
  unfold days_in_month.
  destruct (m =? 2); [destruct (is_leap y); lia|].
  destruct ((m =? 4) || (m =? 6) || (m =? 9) || (m =? 11)); lia.
Qed.

Lemma fromisoformat_isoformat (d : date) :
  valid_date d = true -> date_fromisoformat (date_isoformat d) = Some d.
Proof.
  intros Hv. pose proof (valid_date_bounds d Hv) as (Hy & Hm & Hd).
  pose proof (days_in_month_le (year d) (month d)).
  unfold date_fromisoformat, date_isoformat. rewrite chars_str_of.
  unfold pad4 at 1, pad2 at 1 2. cbn [app]. cbn [Ascii.eqb Bool.eqb andb].
  change [digit_char (year d / 1000 mod 10); digit_char (year d / 100 mod 10);
          digit_char (year d / 10 mod 10); digit_char (year d mod 10)]
    with (pad4 (year d)).
  change [digit_char (month d / 10 mod 10); digit_char (month d mod 10)]
    with (pad2 (month d)).
  change [digit_char (day d / 10 mod 10); digit_char (day d mod 10)]
    with (pad2 (day d)).
  rewrite digits_val_pad4, !digits_val_pad2 by lia.
  cbn [mbind option_bind]. destruct d as [y m x]. cbn [year month day] in *.
  now rewrite Hv.
Qed.

Lemma days_before_year_succ (y : Z) :
  days_before_year (y + 1) = days_before_year y + 365 + (if is_leap y then 1 else 0).
Proof.
  unfold days_before_year, is_leap. cbv zeta.
  replace (y + 1 - 1) with y by lia.
  destruct (y mod 4 =? 0) eqn:E4; destruct (y mod 100 =? 0) eqn:E100;
    destruct (y mod 400 =? 0) eqn:E400; cbn [andb orb negb];
    rewrite ?Z.eqb_eq, ?Z.eqb_neq in *; Z.div_mod_to_equations; lia.
Qed.

Lemma days_before_year_mono (y z : Z) :
  y <= z -> days_before_year y <= days_before_year z.
Proof.
  unfold days_before_year. cbv zeta. intros H. Z.div_mod_to_equations. lia.
Qed.

Lemma month_cases (m : Z) :
  1 <= m <= 12 ->
  m = 1 \/ m = 2 \/ m = 3 \/ m = 4 \/ m = 5 \/ m = 6 \/ m = 7 \/ m = 8 \/ m = 9
  \/ m = 10 \/ m = 11 \/ m = 12.
Proof. lia. Qed.

Lemma days_before_month_next (y m : Z) :
  1 <= m <= 12 ->
  days_before_month y m + days_in_month y m
  = if m =? 12 then 365 + (if is_leap y then 1 else 0) else days_before_month y (m + 1).
Proof.
  intros H. apply month_cases in H.
  unfold days_before_month, days_in_month.
  repeat (destruct H as [-> | H]; [destruct (is_leap y); reflexivity|]).
  subst. destruct (is_leap y); reflexivity.
Qed.

Lemma days_before_month_mono (y m n : Z) :
  1 <= m -> m <= n -> n <= 12 -> days_before_month y m <= days_before_month y n.
Proof.
  intros H1 H2 H3.
  assert (Hm : 1 <= m <= 12) by lia. assert (Hn : 1 <= n <= 12) by lia.
  apply month_cases in Hm, Hn. unfold days_before_month.
  repeat (destruct Hm as [-> | Hm]);
    repeat (destruct Hn as [-> | Hn]); subst;
    try lia; destruct (is_leap y); apply Z.leb_le; reflexivity.
Qed.

Lemma days_before_month_bounds (y m : Z) :
  1 <= m <= 12 ->
  0 <= days_before_month y m
  /\ days_before_month y m + days_in_month y m <= 365 + (if is_leap y then 1 else 0).
Proof.
  intros H. apply month_cases in H.
  unfold days_before_month, days_in_month.
  repeat (destruct H as [-> | H];
          [destruct (is_leap y); split; apply Z.leb_le; reflexivity|]).
  subst. destruct (is_leap y); split; apply Z.leb_le; reflexivity.
Qed.

(** A later date has a greater ordinal. *)
Lemma toordinal_lt (a b : date) :
  valid_date a = true -> valid_date b = true ->
  date_ltb a b = true -> toordinal a < toordinal b.
Proof.
  intros Ha Hb. apply valid_date_bounds in Ha, Hb.
  destruct Ha as (_ & Hma & Hda), Hb as (_ & Hmb & Hdb).
  unfold date_ltb, date_compare, toordinal.
  destruct a as [ya ma da], b as [yb mb db]. cbn [year month day] in *.
  pose proof (days_before_month_bounds ya ma Hma) as (Ha0 & Ha1).
  pose proof (days_before_month_bounds yb mb Hmb) as (Hb0 & Hb1).
  destruct (ya ?= yb) eqn:Ey.
  - apply Z.compare_eq in Ey. subst yb.
    destruct (ma ?= mb) eqn:Em.
    + apply Z.compare_eq in Em. subst mb.
      destruct (da ?= db) eqn:Ed; try discriminate.
      rewrite Z.compare_lt_iff in Ed. lia.
    + intros _. rewrite Z.compare_lt_iff in Em.
      pose proof (days_before_month_next ya ma Hma) as Hn.
      destruct (ma =? 12) eqn:E12; [rewrite Z.eqb_eq in E12; lia|].
      pose proof (days_before_month_mono ya (ma + 1) mb). lia.
    + discriminate.
  - intros _. rewrite Z.compare_lt_iff in Ey.
    pose proof (days_before_year_succ ya) as Hs.
    pose proof (days_before_year_mono (ya + 1) yb). lia.
  - discriminate.
Qed.

(** ** [Trip]: what a constructed trip satisfies *)

Lemma as_literal_In (allowed : list string) (v : pyval) (s : string) :
  as_literal allowed v = Some s -> v = PStr s /\ In s allowed.
Proof.
  destruct v; try discriminate. simpl.
  destruct (str_in s0 allowed) eqn:E; [|discriminate].
  intros [= <-]. split; [reflexivity | now apply str_in_In].
Qed.

Lemma at_least_Ok (bound : Z) (key : string) (z z' : Z) :
  Trip.at_least bound key z = Ok z' -> z' = z /\ bound <= z.
Proof.
  unfold Trip.at_least. destruct (bound <=? z) eqn:E; [|discriminate].
  intros [= <-]. split; [reflexivity | now apply Z.leb_le].
Qed.

Lemma non_negative_Ok (key : string) (f f' : pyfloat) :
  Trip.non_negative key f = Ok f' -> f' = f /\ 0 <= fmant f.
Proof.
  unfold Trip.non_negative. destruct (0 <=? fmant f) eqn:E; [|discriminate].
  intros [= <-]. split; [reflexivity | now apply Z.leb_le].
Qed.

Lemma field_default_literal (values : pydict) (key : string) (allowed : list string)
  (dflt s : string) :
  In dflt allowed ->
  field_default values key (as_literal allowed) dflt = Ok s -> In s allowed.
Proof.
  unfold field_default. intros Hd.
  destruct (dict_lookup values key) as [v|]; [|now intros [= <-]].
  intros H. apply ok_or_Ok in H. now apply as_literal_In in H.
Qed.

Lemma field_required_literal (values : pydict) (key : string) (allowed : list string)
  (s : string) :
  field_required values key (as_literal allowed) = Ok s -> In s allowed.
Proof.
  unfold field_required.
  destruct (dict_lookup values key) as [v|]; [|discriminate].
  intros H. apply ok_or_Ok in H. now apply as_literal_In in H.
Qed.

(** What [Trip]'s validator of the accommodation type lets through. *)
Lemma trip_accommodation_range (values : pydict) (a : string) :
  match dict_lookup values "accommodation_type" with
  | None => Ok "hotel"
  | Some v =>
      a ← Trip.normalize_accommodation_value v;
      ok_or (as_literal accommodation_literals (PStr a)) (invalid "accommodation_type")
  end = Ok a ->
  In a (normalize_range Trip.valid_types) /\ In a accommodation_literals.
Proof.
  destruct (dict_lookup values "accommodation_type") as [v|].
  - intros H. apply bind_Ok in H. destruct H as (x & Hx & H).
    apply ok_or_Ok in H. apply as_literal_In in H. destruct H as [[= ->] Hin].
    split; [|assumption].
    destruct v; simpl in Hx; try (injection Hx as <-; now left).
    + injection Hx as <-. apply normalize_with_range.
    + destruct l; [injection Hx as <-; now left | discriminate].
    + destruct d; [injection Hx as <-; now left | discriminate].
  - intros [= <-]. split; [now left | now left].
Qed.

Lemma trip_new_fields (today : date) (values : pydict) (t : Trip.t) :
  Trip.new today values = Ok t ->
  In (Trip.phase t) Trip.phases
  /\ In (Trip.trip_status t) Trip.statuses
  /\ In (Trip.accommodation_type t) (normalize_range Trip.valid_types)
  /\ In (Trip.accommodation_type t) accommodation_literals
  /\ 1 <= Trip.no_of_adults t
  /\ 0 <= Trip.no_of_children t
  /\ 0 <= fmant (Trip.budget t).
Proof.
  intros H. unfold Trip.new in H. cbv zeta in H. binds_inv.
  injection H as <-. cbn [Trip.phase Trip.trip_status Trip.accommodation_type
    Trip.no_of_adults Trip.no_of_children Trip.budget].
  repeat match goal with
    | Hb : Trip.at_least _ _ _ = Ok _ |- _ =>
        apply at_least_Ok in Hb; destruct Hb as [-> Hb]
    | Hb : Trip.non_negative _ _ = Ok _ |- _ =>
        apply non_negative_Ok in Hb; destruct Hb as [-> Hb]
    | Hb : field_required _ "phase" _ = Ok _ |- _ =>
        apply field_required_literal in Hb
    | Hb : field_default _ "trip_status" _ _ = Ok _ |- _ =>
        apply field_default_literal in Hb; [|now left]
    | Hb : match dict_lookup _ "accommodation_type" with _ => _ end = Ok _ |- _ =>
        apply trip_accommodation_range in Hb; destruct Hb
    end.
  repeat split; assumption.
Qed.

(** X1. A [Trip] that was constructed has at least one adult, no negative
    count of children, hence at least one traveler, and a budget that is
    not negative; its phase, status and accommodation type are literals of
    their fields, and the accommodation type is none of "budget",
    "family-friendly", "business" and "youth hostel", which the validator
    never returns. *)
Theorem trip_field_bounds (today : date) (values : pydict) (t : Trip.t) :
  Trip.new today values = Ok t ->
  1 <= Trip.no_of_adults t
  /\ 0 <= Trip.no_of_children t
  /\ 1 <= Trip.total_travelers t
  /\ 0 <= fmant (Trip.budget t)
  /\ In (Trip.phase t) Trip.phases
  /\ In (Trip.trip_status t) Trip.statuses
  /\ In (Trip.accommodation_type t) accommodation_literals
  /\ ~ In (Trip.accommodation_type t)
          ["budget"; "family-friendly"; "business"; "youth hostel"].
Proof.
  intros H. apply trip_new_fields in H.
  destruct H as (Hp & Hs & Hr & Ha & Hn & Hc & Hb).
  unfold Trip.total_travelers. repeat split; try assumption; try lia.
  intros Hin.
  assert (Hall : forallb (fun x => negb (str_in x ["budget"; "family-friendly";
                                                   "business"; "youth hostel"]))
                         (normalize_range Trip.valid_types) = true)
    by (vm_compute; reflexivity).
  rewrite forallb_forall in Hall. specialize (Hall _ Hr).
  apply str_in_In in Hin. rewrite Hin in Hall. discriminate.
Qed.

(** The bounds on the trip of [goa_trip]. *)
Lemma trip_field_bounds_witness :
  exists t, Trip.new (Date 2026 11 5) (goa_trip (Date 2027 3 18)) = Ok t
            /\ 1 <= Trip.total_travelers t
            /\ 0 <= fmant (Trip.budget t).
Proof.
  eexists. split; [vm_compute; reflexivity|].
  destruct (trip_field_bounds (Date 2026 11 5) (goa_trip (Date 2027 3 18)) _ eq_refl)
    as (_ & _ & Ht & Hb & _).
  split; assumption.
Defined.

(** X2. A [Trip] that was constructed lasts two days at least:
    [duration_days] is never below 2, and so never the zero that
    [daily_budget] would divide by. *)
Theorem trip_duration_days (today : date) (values : pydict) (t : Trip.t) :
  Trip.new today values = Ok t ->
  valid_date (Trip.trip_startdate t) = true ->
  valid_date (Trip.trip_enddate t) = true ->
  2 <= Trip.duration_days t.
Proof.
  intros H Hs He. apply trip_new_dates in H. destruct H as (_ & _ & H).
  apply date_leb_ltb in H.
  pose proof (toordinal_lt _ _ Hs He H).
  unfold Trip.duration_days, days_between. lia.
Qed.

(** The trip of [goa_trip] lasts four days. *)
Lemma trip_duration_days_witness :
  exists t, Trip.new (Date 2026 11 5) (goa_trip (Date 2027 3 18)) = Ok t
            /\ Trip.duration_days t = 4
            /\ 2 <= Trip.duration_days t.
Proof.
  eexists. split; [vm_compute; reflexivity|]. split; [reflexivity|].
  apply (trip_duration_days (Date 2026 11 5) (goa_trip (Date 2027 3 18)));
    reflexivity.
Defined.

(** ** [User]: the email *)

Lemma validate_email_Ok (e e' : string) :
  User.validate_email e = Ok e' ->
  e' = e /\ contains e "@" = true /\ contains e "." = true.
Proof.
  unfold User.validate_email.
  destruct (contains e "@"), (contains e "."), (truthy (PStr e)); simpl;
    try discriminate.
  intros [= <-]. auto.
Qed.

Lemma validate_email_Raise (e : string) :
  contains e "@" = false \/ contains e "." = false ->
  User.validate_email e = Raise (ValueError "Email must contain @ and . characters").
Proof.
  unfold User.validate_email.
  intros [-> | ->]; simpl; rewrite ?orb_true_r; reflexivity.
Qed.

(** X3. A [User] that was constructed has an email with an "@" and a "."
    in it; a construction whose email lacks one of them raises a validation
    error. *)
Theorem user_email_checked (values : pydict) :
  (forall u, User.new values = Ok u ->
     contains (User.email u) "@" = true /\ contains (User.email u) "." = true)
  /\ (forall e, dict_lookup values "email" = Some (PStr e) ->
        contains e "@" = false \/ contains e "." = false ->
        exists msg, User.new values = Raise (ValidationError msg)).
Proof.
  split.
  - intros u H. unfold User.new in H. cbv zeta in H. binds_inv.
    injection H as <-. cbn [User.email].
    match goal with
    | Hv : validator _ = Ok _ |- _ =>
        apply validator_Ok, validate_email_Ok in Hv; destruct Hv as (-> & ? & ?)
    end.
    auto.
  - intros e He Hbad. unfold User.new. cbv zeta.
    destruct (field_default_cases values "id" (as_optional as_int) None)
      as [[i ->] | ->]; [|simpl; eauto].
    destruct (field_required_cases values "name" as_str) as [[n ->] | ->];
      [|simpl; eauto].
    unfold field_required at 1. rewrite He. cbn [as_str ok_or mbind result_bind].
    rewrite (validate_email_Raise e Hbad). simpl. eauto.
Qed.

(** ** [TripRequirements]: the two modes *)

(** What the fields of a constructed object come from. *)
Lemma requirements_fields (fixed : pydict) (r : TripRequirements.t) :
  TripRequirements.validate_fields fixed = Ok r ->
  let r_mode := field_default fixed "mode" (as_literal TripRequirements.modes) "trip" in
  let r_start := field_default fixed "trip_startdate" (as_optional as_date) None in
  r_mode = Ok (TripRequirements.mode r)
  /\ field_default fixed "origin" (as_optional as_str) None
     = Ok (TripRequirements.origin r)
  /\ field_default fixed "destination" (as_optional as_str) None
     = Ok (TripRequirements.destination r)
  /\ r_start = Ok (TripRequirements.trip_startdate r)
  /\ match dict_lookup fixed "trip_enddate" with
     | None => Ok None
     | Some v =>
         e ← ok_or (as_optional as_date v) (invalid "trip_enddate");
         validator (TripRequirements.validate_dates e (mjoin (validated r_start))
                      (default "trip" (validated r_mode)))
     end = Ok (TripRequirements.trip_enddate r)
  /\ field_default fixed "no_of_adults" (as_optional as_int) (Some 1)
     = Ok (TripRequirements.no_of_adults r)
  /\ field_default fixed "budget" (as_optional as_float) None
     = Ok (TripRequirements.budget r)
  /\ field_default fixed "error" (as_optional (as_literal ["MISSING"])) None
     = Ok (TripRequirements.error r)
  /\ field_default fixed "missing_fields" (as_optional as_str_list) None
     = Ok (TripRequirements.missing_fields r)
  /\ field_default fixed "agent_message" (as_optional as_str) None
     = Ok (TripRequirements.agent_message r).
Proof.
  intros H. unfold TripRequirements.validate_fields in H. cbv zeta in H |- *.
  binds_inv. injection H as <-.
  cbn [TripRequirements.mode TripRequirements.origin TripRequirements.destination
       TripRequirements.trip_startdate TripRequirements.trip_enddate
       TripRequirements.no_of_adults TripRequirements.budget TripRequirements.error
       TripRequirements.missing_fields TripRequirements.agent_message].
  repeat split; assumption.
Qed.

(** A field that is truthy and optional is there once validated. *)
Lemma field_default_truthy {A : Type} (values : pydict) (key : string)
  (coerce : pyval -> option A) (dflt o : option A) :
  truthy (dict_get values key) = true ->
  field_default values key (as_optional coerce) dflt = Ok o ->
  exists a, o = Some a /\ coerce (dict_get values key) = Some a.
Proof.
  unfold dict_get, field_default.
  destruct (dict_lookup values key) as [v|]; [|discriminate].
  intros Ht H. apply ok_or_Ok in H.
  destruct v; try discriminate; simpl in H;
    match type of H with
    | Some <$> ?c = Some _ => destruct c as [a|] eqn:E; [|discriminate]
    end; injection H as <-; eauto.
Qed.

Lemma as_str_truthy (v : pyval) (s : string) :
  truthy v = true -> as_str v = Some s -> v = PStr s /\ s <> "".
Proof.
  destruct v; try discriminate. simpl. intros Ht [= <-].
  split; [reflexivity|]. intros ->. discriminate.
Qed.

(** The four shapes of what [auto_fix_and_validate] returns. *)
Lemma auto_fix_cases (values : pydict) :
  let fixed := TripRequirements.auto_fix_and_validate values in
  (fixed = with_mode values
   /\ dict_lookup fixed "mode" = Some (PStr "trip")
   /\ TripRequirements.missing_of fixed = [])
  \/ (trip_mode values = true /\ TripRequirements.missing_of values <> [])
  \/ (dict_lookup fixed "mode" = Some (PStr "missing")
      /\ truthy (dict_get fixed "missing_fields") = true
      /\ truthy (dict_get fixed "error") = true
      /\ truthy (dict_get fixed "agent_message") = true)
  \/ (exists m, dict_lookup fixed "mode" = Some m
                /\ is_str m "trip" = false /\ is_str m "missing" = false).
Proof.
  cbv zeta. unfold TripRequirements.auto_fix_and_validate. fold (with_mode values).
  assert (Hm : exists m, dict_lookup (with_mode values) "mode" = Some m
                         /\ dict_get_default (with_mode values) "mode" (PStr "trip") = m
                         /\ (is_str m "trip" = true -> trip_mode values = true)).
  { unfold with_mode, dict_has, trip_mode, dict_get_default.
    destruct (dict_lookup values "mode") as [m|] eqn:E.
    - rewrite E. eauto.
    - rewrite dict_lookup_set_eq. eauto. }
  destruct Hm as (m & Hl & Hd & Ht). rewrite Hd.
  destruct (is_str m "trip") eqn:E1.
  - destruct (TripRequirements.missing_of (with_mode values)) eqn:E.
    + left. repeat split; try assumption.
      rewrite Hl. destruct m; try discriminate. simpl in E1.
      apply String.eqb_eq in E1. now subst.
    + right. left. split; [auto|]. rewrite <- with_mode_missing_of, E. discriminate.
  - destruct (is_str m "missing") eqn:E2.
    + right. right. left.
      assert (Hmm : m = PStr "missing").
      { destruct m; try discriminate. simpl in E2.
        apply String.eqb_eq in E2. now subst. }
      set (v1 := if truthy (dict_get (with_mode values) "missing_fields")
                 then with_mode values
                 else dict_set (with_mode values) "missing_fields"
                        (PList [PStr "origin"; PStr "destination"])).
      assert (H1 : truthy (dict_get v1 "missing_fields") = true
                   /\ dict_lookup v1 "mode" = Some m).
      { subst v1.
        destruct (truthy (dict_get (with_mode values) "missing_fields")) eqn:E;
          [auto|].
        rewrite dict_get_set_eq, dict_lookup_set_ne by discriminate. auto. }
      set (v2 := if truthy (dict_get v1 "error") then v1
                 else dict_set v1 "error" (PStr "MISSING")).
      assert (H2 : truthy (dict_get v2 "error") = true
                   /\ truthy (dict_get v2 "missing_fields") = true
                   /\ dict_lookup v2 "mode" = Some m).
      { subst v2. destruct (truthy (dict_get v1 "error")) eqn:E; [tauto|].
        rewrite dict_get_set_eq, dict_get_set_ne, dict_lookup_set_ne by discriminate.
        tauto. }
      destruct H2 as (He & Hf & Hmode).
      destruct (truthy (dict_get v2 "agent_message")) eqn:E.
      * rewrite Hmode, Hmm. auto.
      * rewrite dict_get_set_eq, !dict_get_set_ne, dict_lookup_set_ne by discriminate.
        rewrite Hmode, Hmm. auto.
    + right. right. right. eauto.
Qed.

Lemma field_default_mode (fixed : pydict) (m : pyval) (s : string) :
  dict_lookup fixed "mode" = Some m ->
  field_default fixed "mode" (as_literal TripRequirements.modes) "trip" = Ok s ->
  m = PStr s.
Proof.
  unfold field_default. intros -> H. apply ok_or_Ok in H.
  now apply as_literal_In in H.
Qed.

(** What a constructed object in "trip" mode was constructed from. *)
Lemma trip_mode_fixed (values : pydict) (r : TripRequirements.t) :
  TripRequirements.new values = Ok r ->
  TripRequirements.mode r = "trip" ->
  TripRequirements.auto_fix_and_validate values = with_mode values
  /\ forall f, In f TripRequirements.required_fields ->
               truthy (dict_get (with_mode values) f) = true.
Proof.
  intros H Hmode. unfold TripRequirements.new in H.
  pose proof (requirements_fields _ _ H) as Hf. cbv zeta in Hf.
  destruct Hf as (Hm & _). rewrite Hmode in Hm.
  destruct (auto_fix_cases values) as [(E & _ & Hmiss) | [(Ht & Hmiss) | [(Hl & _) | (m & Hl & H1 & H2)]]].
  - split; [assumption|]. rewrite E in Hmiss. intros f Hin.
    destruct (truthy (dict_get (with_mode values) f)) eqn:Et; [reflexivity|].
    pose proof (missing_of_In _ _ Hin Et) as Hc. rewrite Hmiss in Hc. contradiction.
  - destruct (demoted_fields values r Ht Hmiss H) as (Hc & _). congruence.
  - pose proof (field_default_mode _ _ _ Hl Hm). discriminate.
  - pose proof (field_default_mode _ _ _ Hl Hm). subst m. discriminate.
Qed.

Lemma requirements_validate_dates_Ok (e0 : option date) (s e : date) (e' : option date) :
  TripRequirements.validate_dates e0 (Some s) "trip" = Ok e' ->
  e0 = Some e -> e' = Some e /\ date_ltb s e = true.
Proof.
  intros H ->. unfold TripRequirements.validate_dates in H. simpl in H.
  destruct (date_leb e s) eqn:E; [discriminate|].
  injection H as <-. split; [reflexivity | now apply date_leb_ltb].
Qed.

(** In "trip" mode the six required fields are there. *)
Lemma trip_mode_present (values : pydict) (r : TripRequirements.t) :
  TripRequirements.new values = Ok r ->
  TripRequirements.mode r = "trip" ->
  exists o d s e a b,
    TripRequirements.origin r = Some o /\ o <> ""
    /\ TripRequirements.destination r = Some d /\ d <> ""
    /\ TripRequirements.trip_startdate r = Some s
    /\ TripRequirements.trip_enddate r = Some e
    /\ date_ltb s e = true
    /\ TripRequirements.no_of_adults r = Some a
    /\ TripRequirements.budget r = Some b.
Proof.
  intros H Hmode. destruct (trip_mode_fixed values r H Hmode) as (E & Ht).
  unfold TripRequirements.new in H. rewrite E in H.
  pose proof (requirements_fields _ _ H) as Hf. cbv zeta in Hf.
  destruct Hf as (Hm & Ho & Hd & Hs & He & Ha & Hb & _).
  assert (T : forall f, In f TripRequirements.required_fields ->
                        truthy (dict_get (with_mode values) f) = true) by exact Ht.
  destruct (field_default_truthy _ _ _ _ _ (T "origin" ltac:(simpl; tauto)) Ho)
    as (o & Eo & Co).
  destruct (field_default_truthy _ _ _ _ _ (T "destination" ltac:(simpl; tauto)) Hd)
    as (d & Ed & Cd).
  destruct (field_default_truthy _ _ _ _ _ (T "trip_startdate" ltac:(simpl; tauto)) Hs)
    as (s & Es & _).
  destruct (field_default_truthy _ _ _ _ _ (T "no_of_adults" ltac:(simpl; tauto)) Ha)
    as (a & Ea & _).
  destruct (field_default_truthy _ _ _ _ _ (T "budget" ltac:(simpl; tauto)) Hb)
    as (b & Eb & _).
  apply as_str_truthy in Co; [|apply T; simpl; tauto].
  apply as_str_truthy in Cd; [|apply T; simpl; tauto].
  pose proof (T "trip_enddate" ltac:(simpl; tauto)) as Te.
  unfold dict_get in Te.
  destruct (dict_lookup (with_mode values) "trip_enddate") as [v|] eqn:El;
    [|discriminate].
  apply bind_Ok in He. destruct He as (e0 & He0 & He).
  apply ok_or_Ok in He0. apply validator_Ok in He.
  rewrite Hm, Hs, Es in He. cbn [validated mjoin option_join default Datatypes.id] in He.
  rewrite Hmode in He.
  assert (exists e, e0 = Some e) as (e & Ee).
  { destruct v; try discriminate; simpl in He0;
      try (injection He0 as <-; eauto).
    destruct (date_fromisoformat s0); [|discriminate]. injection He0 as <-. eauto. }
  destruct (requirements_validate_dates_Ok _ _ _ _ He Ee) as (Ee' & Hlt).
  exists o, d, s, e, a, b. rewrite Eo, Ed, Es, Ee', Ea, Eb.
  destruct Co as (_ & Co), Cd as (_ & Cd). repeat split; assumption.
Qed.

(** X4. A [TripRequirements] that was constructed in "trip" mode, as every
    complete one is, has its six required fields: origin and destination
    are non-empty strings, the two dates are there with the end after the
    start, and the count of adults and the budget are not [None]. *)
Theorem requirements_trip_mode (values : pydict) (r : TripRequirements.t) :
  TripRequirements.new values = Ok r ->
  (TripRequirements.is_complete r = true -> TripRequirements.mode r = "trip")
  /\ (TripRequirements.mode r = "trip" ->
      exists o d s e a b,
        TripRequirements.origin r = Some o /\ o <> ""
        /\ TripRequirements.destination r = Some d /\ d <> ""
        /\ TripRequirements.trip_startdate r = Some s
        /\ TripRequirements.trip_enddate r = Some e
        /\ date_ltb s e = true
        /\ TripRequirements.no_of_adults r = Some a
        /\ TripRequirements.budget r = Some b).
Proof.
  intros H. split.
  - unfold TripRequirements.is_complete. intros Hc.
    apply andb_true_iff in Hc. destruct Hc as (Hc & _). now apply String.eqb_eq.
  - now apply (trip_mode_present values).
Qed.

(** The requirements of [goa_requirements] are in "trip" mode, with their
    fields. *)
Lemma requirements_trip_mode_witness :
  exists r, TripRequirements.new goa_requirements = Ok r
            /\ TripRequirements.is_complete r = true
            /\ exists o d s e a b,
                 TripRequirements.origin r = Some o /\ o <> ""
                 /\ TripRequirements.destination r = Some d /\ d <> ""
                 /\ TripRequirements.trip_startdate r = Some s
                 /\ TripRequirements.trip_enddate r = Some e
                 /\ date_ltb s e = true
                 /\ TripRequirements.no_of_adults r = Some a
                 /\ TripRequirements.budget r = Some b.
Proof.
  eexists. split; [vm_compute; reflexivity|]. split; [reflexivity|].
  apply (requirements_trip_mode goa_requirements _ eq_refl). reflexivity.
Defined.

Lemma as_str_list_truthy (v : pyval) (l : list string) :
  truthy v = true -> as_str_list v = Some l -> exists f l', l = f :: l'.
Proof.
  destruct v; try discriminate. simpl.
  destruct l0 as [|x l0]; [discriminate|]. intros _ H.
  cbn [mapM] in H. destruct (as_str x); [|discriminate].
  simpl in H. destruct (mapM as_str l0); [|discriminate].
  injection H as <-. eauto.
Qed.

(** In "missing" mode the three fields of the missing information are
    there. *)
Lemma missing_mode_fields (values : pydict) (r : TripRequirements.t) :
  TripRequirements.new values = Ok r ->
  TripRequirements.mode r = "missing" ->
  TripRequirements.error r = Some "MISSING"
  /\ (exists f l, TripRequirements.missing_fields r = Some (f :: l))
  /\ (exists m, TripRequirements.agent_message r = Some m /\ m <> "").
Proof.
  intros H Hmode.
  destruct (auto_fix_cases values)
    as [(E & Hl & _) | [(Ht & Hmiss) | [(Hl & Tf & Te & Ta) | (m & Hl & H1 & H2)]]].
  - unfold TripRequirements.new in H.
    pose proof (requirements_fields _ _ H) as Hf. cbv zeta in Hf.
    destruct Hf as (Hm & _). rewrite Hmode in Hm.
    pose proof (field_default_mode _ _ _ Hl Hm). discriminate.
  - destruct (demoted_fields values r Ht Hmiss H) as (_ & He & Hf & Ha).
    split; [assumption|]. split.
    + destruct (TripRequirements.missing_of values) as [|f l]; [contradiction|].
      eauto.
    + eexists. split; [eassumption|]. discriminate.
  - unfold TripRequirements.new in H.
    pose proof (requirements_fields _ _ H) as Hf. cbv zeta in Hf.
    destruct Hf as (_ & _ & _ & _ & _ & _ & _ & He & Hf & Ha).
    destruct (field_default_truthy _ _ _ _ _ Te He) as (e & Ee & Ce).
    destruct (field_default_truthy _ _ _ _ _ Tf Hf) as (l & El & Cl).
    destruct (field_default_truthy _ _ _ _ _ Ta Ha) as (m & Em & Cm).
    apply as_literal_In in Ce. destruct Ce as (_ & [<- | []]).
    apply as_str_list_truthy in Cl; [|assumption]. destruct Cl as (f & l' & ->).
    apply as_str_truthy in Cm; [|assumption]. destruct Cm as (_ & Cm).
    rewrite Ee, El, Em. split; [reflexivity|]. split; eauto.
  - unfold TripRequirements.new in H.
    pose proof (requirements_fields _ _ H) as Hf. cbv zeta in Hf.
    destruct Hf as (Hm & _). rewrite Hmode in Hm.
    pose proof (field_default_mode _ _ _ Hl Hm). subst m. discriminate.
Qed.

(** X5. A [TripRequirements] that was constructed is in one of the two
    modes; in "missing" mode its error is "MISSING", its list of missing
    fields is not empty and it carries a message, so it is not complete,
    [to_trip_dict] raises on it and [get_missing_info] asks for the fields
    of the list. *)
Theorem requirements_missing_mode (values : pydict) (r : TripRequirements.t) :
  TripRequirements.new values = Ok r ->
  (TripRequirements.mode r = "trip" \/ TripRequirements.mode r = "missing")
  /\ (TripRequirements.mode r = "missing" ->
      TripRequirements.error r = Some "MISSING"
      /\ (exists f l,
            TripRequirements.missing_fields r = Some (f :: l)
            /\ TripRequirements.get_missing_info r
               = "Please provide: " +:+ join ", " (f :: l))
      /\ (exists m, TripRequirements.agent_message r = Some m /\ m <> "")
      /\ TripRequirements.is_complete r = false
      /\ forall user_id phase title,
           exists msg,
             TripRequirements.to_trip_dict r user_id phase title
             = Raise (ValueError msg)).
Proof.
  intros H. split.
  - unfold TripRequirements.new in H.
    pose proof (requirements_fields _ _ H) as Hf. cbv zeta in Hf.
    destruct Hf as (Hm & _). apply field_default_literal in Hm; [|now left].
    simpl in Hm. intuition.
  - intros Hmode.
    destruct (missing_mode_fields values r H Hmode) as (He & (f & l & Hf) & Ha).
    assert (Hc : TripRequirements.is_complete r = false).
    { unfold TripRequirements.is_complete. now rewrite Hmode. }
    split; [assumption|]. split; [|split; [assumption|split; [assumption|]]].
    + exists f, l. split; [assumption|].
      unfold TripRequirements.get_missing_info. now rewrite Hf, Hmode.
    + intros. unfold TripRequirements.to_trip_dict. rewrite Hc. eauto.
Qed.

(** Requirements in "missing" mode that say nothing else ask for the
    origin and the destination. *)
Lemma requirements_missing_mode_witness :
  exists r, TripRequirements.new missing_only = Ok r
            /\ TripRequirements.mode r = "missing"
            /\ TripRequirements.error r = Some "MISSING"
            /\ TripRequirements.missing_fields r = Some ["origin"; "destination"]
            /\ TripRequirements.is_complete r = false.
Proof.
  eexists. split; [vm_compute; reflexivity|]. split; [reflexivity|].
  destruct (requirements_missing_mode missing_only _ eq_refl) as (_ & H).
  destruct (H eq_refl) as (He & _ & _ & Hc & _).
  split; [exact He|]. split; [reflexivity | exact Hc].
Defined.

(** ** From complete requirements to a trip *)

(** [x or 1] and [x or 500.0] for the count of adults and the budget. *)
Lemma py_or_int (a dflt : Z) :
  py_or (PInt a) (PInt dflt) = PInt (if a =? 0 then dflt else a).
Proof. unfold py_or. simpl. now destruct (a =? 0). Qed.

Lemma py_or_float (b dflt : pyfloat) :
  py_or (PFloat b) (PFloat dflt) = PFloat (if fmant b =? 0 then dflt else b).
Proof. unfold py_or. simpl. now destruct (fmant b =? 0). Qed.

Lemma trip_normalize_literal (a : string) :
  str_in (Trip.normalize_accommodation_type a) accommodation_literals = true.
Proof.
  assert (Hall : forallb (fun x => str_in x accommodation_literals)
                         (normalize_range Trip.valid_types) = true)
    by (vm_compute; reflexivity).
  rewrite forallb_forall in Hall.
  exact (Hall _ (normalize_with_range Trip.valid_types a)).
Qed.

Lemma requirements_become_trip (today : date) (values : pydict)
  (r : TripRequirements.t) (user_id : Z) (phase title : string) :
  TripRequirements.new values = Ok r ->
  TripRequirements.is_complete r = true ->
  In phase Trip.phases ->
  (forall s, TripRequirements.trip_startdate r = Some s -> date_ltb today s = true) ->
  0 <= default 1 (TripRequirements.no_of_adults r) ->
  0 <= TripRequirements.no_of_children r ->
  0 <= fmant (default float_zero (TripRequirements.budget r)) ->
  exists d t,
    TripRequirements.to_trip_dict r user_id phase title = Ok d
    /\ Trip.new today d = Ok t
    /\ Trip.id t = None
    /\ Trip.user_id t = user_id
    /\ Trip.phase t = phase
    /\ Trip.title t = title
    /\ TripRequirements.origin r = Some (Trip.origin t)
    /\ TripRequirements.destination r = Some (Trip.destination t)
    /\ TripRequirements.trip_startdate r = Some (Trip.trip_startdate t)
    /\ TripRequirements.trip_enddate r = Some (Trip.trip_enddate t)
    /\ Trip.accommodation_type t
       = Trip.normalize_accommodation_type (TripRequirements.accommodation_type r)
    /\ 1 <= Trip.no_of_adults t
    /\ Trip.no_of_children t = TripRequirements.no_of_children r
    /\ Trip.trip_status t = "draft".
Proof.
  intros H Hc Hphase Hfuture Ha Hch Hb.
  assert (Hmode : TripRequirements.mode r = "trip").
  { unfold TripRequirements.is_complete in Hc. apply andb_true_iff in Hc.
    now apply String.eqb_eq. }
  destruct (trip_mode_present values r H Hmode)
    as (o & d & s & e & a & b & Eo & _ & Ed & _ & Es & Ee & Hlt & Ea & Eb).
  unfold TripRequirements.to_trip_dict. rewrite Hc.
  rewrite Eo, Ed, Es, Ee, Ea, Eb in *. cbn [default Datatypes.id] in Ha, Hb.
  cbn [opt_str opt_date opt_int opt_float]. rewrite py_or_int, py_or_float.
  eexists. eexists. split; [reflexivity|].
  unfold Trip.new, field_default, field_required.
  cbn [dict_lookup String.eqb Ascii.eqb Bool.eqb as_optional as_int as_str as_date
       as_float ok_or mbind result_bind].
  apply str_in_In in Hphase. cbn [as_literal]. rewrite Hphase.
  cbn [ok_or mbind result_bind validated mjoin option_join].
  unfold Trip.validate_future_date.
  rewrite (date_ltb_leb _ _ (Hfuture s eq_refl)).
  cbn [validator mbind result_bind validated]. unfold Trip.validate_dates.
  rewrite (date_ltb_leb _ _ Hlt).
  cbn [validator mbind result_bind Trip.normalize_accommodation_value].
  rewrite trip_normalize_literal. cbn [ok_or mbind result_bind].
  unfold Trip.at_least, Trip.non_negative.
  assert (E1 : (1 <=? (if a =? 0 then 1 else a)) = true).
  { apply Z.leb_le. destruct (a =? 0) eqn:E; [lia|]. apply Z.eqb_neq in E. lia. }
  rewrite E1.
  assert (E2 : (0 <=? TripRequirements.no_of_children r) = true) by now apply Z.leb_le.
  rewrite E2.
  assert (E3 : (0 <=? fmant (if fmant b =? 0 then FDec 5000 (-1) else b)) = true).
  { apply Z.leb_le. destruct (fmant b =? 0); simpl; lia. }
  rewrite E3.
  change (str_in "draft" Trip.statuses) with true.
  cbn [ok_or mbind result_bind].
  split; [reflexivity|].
  cbn [Trip.id Trip.user_id Trip.phase Trip.title Trip.origin Trip.destination
       Trip.trip_startdate Trip.trip_enddate Trip.accommodation_type
       Trip.no_of_adults Trip.no_of_children Trip.trip_status].
  repeat split. now apply Z.leb_le.
Qed.

Lemma negative_adults_refused (today : date) (values : pydict)
  (r : TripRequirements.t) (user_id : Z) (phase title : string) :
  TripRequirements.new values = Ok r ->
  TripRequirements.is_complete r = true ->
  default 1 (TripRequirements.no_of_adults r) < 0 ->
  exists d msg,
    TripRequirements.to_trip_dict r user_id phase title = Ok d
    /\ Trip.new today d = Raise (ValidationError msg).
Proof.
  intros H Hc Ha.
  assert (Hmode : TripRequirements.mode r = "trip").
  { unfold TripRequirements.is_complete in Hc. apply andb_true_iff in Hc.
    now apply String.eqb_eq. }
  destruct (trip_mode_present values r H Hmode)
    as (o & d & s & e & a & b & Eo & _ & Ed & _ & Es & Ee & Hlt & Ea & Eb).
  unfold TripRequirements.to_trip_dict. rewrite Hc.
  rewrite Eo, Ed, Es, Ee, Ea, Eb in *. cbn [default Datatypes.id] in Ha.
  cbn [opt_str opt_date opt_int opt_float]. rewrite py_or_int, py_or_float.
  eexists.
  match goal with
  | |- exists msg, _ /\ ?P = Raise _ =>
      cut (exists msg, P = Raise (ValidationError msg));
      [intros [msg Hm]; exists msg; split; [reflexivity | exact Hm]|]
  end.
  unfold Trip.new, field_default, field_required.
  cbn [dict_lookup String.eqb Ascii.eqb Bool.eqb as_optional as_int as_str as_date
       as_float ok_or mbind result_bind as_literal].
  destruct (str_in phase Trip.phases); [|eexists; reflexivity].
  cbn [ok_or mbind result_bind validated mjoin option_join].
  unfold Trip.validate_future_date.
  destruct (date_leb s today); [eexists; reflexivity|].
  cbn [validator mbind result_bind validated]. unfold Trip.validate_dates.
  rewrite (date_ltb_leb _ _ Hlt).
  cbn [validator mbind result_bind Trip.normalize_accommodation_value].
  rewrite trip_normalize_literal. cbn [ok_or mbind result_bind].
  unfold Trip.at_least.
  assert (E1 : (1 <=? (if a =? 0 then 1 else a)) = false).
  { apply Z.leb_gt. destruct (a =? 0) eqn:E; [|lia]. apply Z.eqb_eq in E. lia. }
  rewrite E1. eexists. reflexivity.
Qed.

(** X6. Complete requirements make a trip: when the phase is one of the
    four, the start is after today and no count and no budget is negative,
    the construction of [Trip] from [to_trip_dict] succeeds, with the fields of
    the requirements, the accommodation type normalized once more, at least
    one adult and the status "draft".  A negative count of adults, which the
    requirements accept, makes the construction of the trip raise. *)
Theorem requirements_to_trip (today : date) (values : pydict)
  (r : TripRequirements.t) (user_id : Z) (phase title : string) :
  TripRequirements.new values = Ok r ->
  TripRequirements.is_complete r = true ->
  (In phase Trip.phases ->
   (forall s, TripRequirements.trip_startdate r = Some s -> date_ltb today s = true) ->
   0 <= default 1 (TripRequirements.no_of_adults r) ->
   0 <= TripRequirements.no_of_children r ->
   0 <= fmant (default float_zero (TripRequirements.budget r)) ->
   exists d t,
     TripRequirements.to_trip_dict r user_id phase title = Ok d
     /\ Trip.new today d = Ok t
     /\ Trip.id t = None
     /\ Trip.user_id t = user_id
     /\ Trip.phase t = phase
     /\ Trip.title t = title
     /\ TripRequirements.origin r = Some (Trip.origin t)
     /\ TripRequirements.destination r = Some (Trip.destination t)
     /\ TripRequirements.trip_startdate r = Some (Trip.trip_startdate t)
     /\ TripRequirements.trip_enddate r = Some (Trip.trip_enddate t)
     /\ Trip.accommodation_type t
        = Trip.normalize_accommodation_type (TripRequirements.accommodation_type r)
     /\ 1 <= Trip.no_of_adults t
     /\ Trip.no_of_children t = TripRequirements.no_of_children r
     /\ Trip.trip_status t = "draft")
  /\ (default 1 (TripRequirements.no_of_adults r) < 0 ->
      exists d msg,
        TripRequirements.to_trip_dict r user_id phase title = Ok d
        /\ Trip.new today d = Raise (ValidationError msg)).
Proof.
  intros H Hc. split.
  - now apply (requirements_become_trip today values).
  - now apply (negative_adults_refused today values).
Qed.

(** The requirements of [goa_requirements], whose accommodation type is
    "budget", make a trip in a "hotel". *)
Lemma requirements_to_trip_witness :
  exists r d t,
    TripRequirements.new goa_requirements = Ok r
    /\ TripRequirements.accommodation_type r = "budget"
    /\ TripRequirements.to_trip_dict r 1 "phase2_crewai" "My Trip" = Ok d
    /\ Trip.new (Date 2026 11 5) d = Ok t
    /\ Trip.accommodation_type t = "hotel"
    /\ Trip.trip_status t = "draft".
Proof.
  eexists.
  destruct (requirements_to_trip (Date 2026 11 5) goa_requirements _ 1
              "phase2_crewai" "My Trip" eq_refl eq_refl) as (H & _).
  destruct H as (d & t & Hd & Ht & _ & _ & _ & _ & _ & _ & _ & _ & Ha & _ & _ & Hs).
  - simpl. tauto.
  - intros s [= <-]. reflexivity.
  - simpl. lia.
  - simpl. lia.
  - simpl. lia.
  - exists d, t. split; [reflexivity|]. split; [reflexivity|].
    split; [exact Hd|]. split; [exact Ht|]. split; [|exact Hs].
    rewrite Ha. reflexivity.
Defined.

(** X7. After a demotion from "trip" mode the message of the object is
    what [get_missing_info] returns: "Please provide: " and the missing
    fields, separated by commas. *)
Theorem demotion_message (values : pydict) (r : TripRequirements.t) :
  trip_mode values = true ->
  TripRequirements.missing_of values <> [] ->
  TripRequirements.new values = Ok r ->
  TripRequirements.agent_message r = Some (TripRequirements.get_missing_info r)
  /\ TripRequirements.get_missing_info r
     = "Please provide: " +:+ join ", " (TripRequirements.missing_of values).
Proof.
  intros Hmode Hmissing H.
  destruct (demoted_fields values r Hmode Hmissing H) as (Hm & _ & Hf & Ha).
  assert (E : TripRequirements.get_missing_info r
              = "Please provide: " +:+ join ", " (TripRequirements.missing_of values)).
  { unfold TripRequirements.get_missing_info. rewrite Hf, Hm.
    destruct (TripRequirements.missing_of values); [contradiction | reflexivity]. }
  split; [now rewrite E | exact E].
Qed.

(** With no origin and a budget of zero the message asks for both. *)
Lemma demotion_message_witness :
  exists r, TripRequirements.new no_origin_zero_budget = Ok r
            /\ TripRequirements.agent_message r = Some "Please provide: origin, budget"
            /\ TripRequirements.get_missing_info r = "Please provide: origin, budget".
Proof.
  eexists. split; [vm_compute; reflexivity|].
  destruct (demotion_message no_origin_zero_budget _ eq_refl
              ltac:(discriminate) eq_refl) as (Ha & Hg).
  split; [reflexivity | exact Hg].
Defined.

(** ** [TravelPlan]: the suggestions that are kept *)

Lemma build_each_dicts {A : Type} (build : pydict -> result A) (items : list pyval)
  (xs : list A) :
  TravelPlan.build_each build items = Ok xs ->
  Forall2 (fun v x => exists d, v = PDict d /\ build d = Ok x)
          (List.filter TravelPlan.is_dict items) xs.
Proof.
  revert xs. induction items as [|v items IH]; intros xs H.
  - injection H as <-. constructor.
  - destruct v; simpl in H |- *; try (now apply IH).
    apply bind_Ok in H. destruct H as (x & Hx & H).
    apply bind_Ok in H. destruct H as (xs' & Hxs & H).
    injection H as <-. constructor; [eauto | now apply IH].
Qed.

(** X8. The validators of [TravelPlan] keep the entries of the list they
    are handed that are dicts or objects of the model (an object being
    written here as its dict), each built into its model, in their order,
    and pass over any other entry (a string, a number, [None], a list)
    without an error: the plan has as many hotels as the list has dicts or
    objects of the model, and likewise for the flights. *)
Theorem travel_plan_keeps_dicts (values : pydict) (p : TravelPlan.t) :
  TravelPlan.new values = Ok p ->
  (forall l, dict_lookup values "hotels" = Some (PList l) ->
     Forall2 (fun v h => exists d, v = PDict d /\ HotelSuggestion.new d = Ok h)
             (List.filter TravelPlan.is_dict l) (TravelPlan.hotels p)
     /\ TravelPlan.hotel_count p = length (List.filter TravelPlan.is_dict l))
  /\ (forall l, dict_lookup values "flights" = Some (PList l) ->
        Forall2 (fun v f => exists d, v = PDict d /\ FlightSuggestion.new d = Ok f)
                (List.filter TravelPlan.is_dict l) (TravelPlan.flights p)
        /\ TravelPlan.flight_count p = length (List.filter TravelPlan.is_dict l)).
Proof.
  intros H. unfold TravelPlan.new in H. cbv zeta in H. binds_inv.
  injection H as <-.
  unfold TravelPlan.hotel_count, TravelPlan.flight_count.
  cbn [TravelPlan.hotels TravelPlan.flights].
  split; intros l Hl;
    match goal with
    | Hv : match dict_lookup values ?k with _ => _ end = Ok _,
      Hl : dict_lookup values ?k = Some _ |- _ =>
        rewrite Hl in Hv;
        unfold TravelPlan.validate_hotels, TravelPlan.validate_flights,
          TravelPlan.validate_suggestions in Hv;
        destruct l as [|v l];
        [ injection Hv as <-; split; [constructor | reflexivity]
        | cbn [truthy TravelPlan.iterate mbind result_bind] in Hv;
          apply build_each_dicts in Hv;
          split; [exact Hv | symmetry; exact (Forall2_length _ _ _ Hv)] ]
    end.
Qed.

(** Of three hotels two are dicts, and the one flight is a name. *)
Lemma travel_plan_keeps_dicts_witness :
  exists p, TravelPlan.new mixed_plan = Ok p
            /\ TravelPlan.hotel_count p = 2%nat
            /\ TravelPlan.flight_count p = 0%nat.
Proof.
  eexists. split; [vm_compute; reflexivity|].
  destruct (travel_plan_keeps_dicts mixed_plan _ eq_refl) as (Hh & Hf).
  destruct (Hh _ eq_refl) as (_ & Eh). destruct (Hf _ eq_refl) as (_ & Ef).
  split; [exact Eh | exact Ef].
Defined.

(** ** The trips table *)

Lemma trip_normalize_range_fixed (a : string) :
  In a (normalize_range Trip.valid_types) -> Trip.normalize_accommodation_type a = a.
Proof.
  apply fixed_on_list. vm_compute. reflexivity.
Qed.

(** A row that is well formed is the trip that is read. *)
Lemma trip_row_validates (today : date) (id : Z) (r : Trip.t) :
  trip_row_ok r ->
  Trip.new today (trip_row_dict id r) = Ok (trip_of_row id r).
Proof.
  intros (Hp & Hs & Ha & Hn & Hc & Hb & Vs & Ve & Hlt).
  unfold Trip.new, trip_row_dict, field_default, field_required.
  cbn [dict_lookup String.eqb Ascii.eqb Bool.eqb as_optional as_int as_str as_date
       as_float as_literal ok_or mbind result_bind fmap option_fmap option_map].
  apply str_in_In in Hp, Hs. rewrite Hp, Hs.
  rewrite !fromisoformat_isoformat by assumption.
  cbn [ok_or mbind result_bind validated mjoin option_join
       Trip.validate_future_date validator].
  unfold Trip.validate_dates. rewrite (date_ltb_leb _ _ Hlt).
  cbn [validator mbind result_bind Trip.normalize_accommodation_value].
  rewrite (trip_normalize_range_fixed _ Ha).
  pose proof (trip_normalize_literal (Trip.accommodation_type r)) as Hl.
  rewrite (trip_normalize_range_fixed _ Ha) in Hl. rewrite Hl.
  unfold Trip.at_least, Trip.non_negative.
  apply Z.leb_le in Hn, Hc, Hb. rewrite Hn, Hc, Hb.
  rewrite !as_optional_opt_str. reflexivity.
Qed.

(** A trip that was constructed, of dates that exist, is well formed as a
    row, whatever the table stamps it with. *)
Lemma constructed_trip_row_ok (today : date) (values : pydict) (t : Trip.t)
  (created_at updated_at : option string) :
  Trip.new today values = Ok t ->
  valid_date (Trip.trip_startdate t) = true ->
  valid_date (Trip.trip_enddate t) = true ->
  trip_row_ok (trip_row t created_at updated_at).
Proof.
  intros H Vs Ve.
  pose proof (trip_new_fields _ _ _ H) as (Hp & Hs & Ha & _ & Hn & Hc & Hb).
  pose proof (trip_new_dates _ _ _ H) as (_ & _ & Hd).
  apply date_leb_ltb in Hd.
  unfold trip_row_ok, trip_row.
  cbn [Trip.phase Trip.trip_status Trip.accommodation_type Trip.no_of_adults
       Trip.no_of_children Trip.budget Trip.trip_startdate Trip.trip_enddate].
  repeat split; assumption.
Qed.

(** X9. A trip that was constructed and then created in the table is read
    back by [get_trip_by_id] under the key the table gave it: the same
    trip, with that key as its [id] and the stamps of the table; the rows
    that were there are left as they were. *)
Theorem created_trip_read_back (today today' : date) (values : pydict) (t : Trip.t)
  (d : db) (lastrowid : Z) (created_at updated_at : option string) :
  Trip.new today values = Ok t ->
  valid_date (Trip.trip_startdate t) = true ->
  valid_date (Trip.trip_enddate t) = true ->
  trips d !! lastrowid = None ->
  let '(d', trip_id) := create_trip d t lastrowid created_at updated_at in
  get_trip_by_id today' d' trip_id
  = Ok (Some (trip_of_row trip_id (trip_row t created_at updated_at)))
  /\ (forall id, id <> trip_id -> trips d' !! id = trips d !! id)
  /\ trip_plans d' = trip_plans d.
Proof.
  intros H Vs Ve Hfresh. cbn [create_trip]. split; [|split].
  - unfold get_trip_by_id. cbn [trips]. rewrite lookup_insert_eq.
    rewrite (trip_row_validates today' lastrowid _
               (constructed_trip_row_ok today values t created_at updated_at H Vs Ve)).
    reflexivity.
  - intros id Hid. cbn [trips]. now rewrite lookup_insert_ne.
  - reflexivity.
Qed.

(** The trip of [goa_trip], created in an empty table and read after it
    has ended. *)
Lemma created_trip_read_back_witness :
  exists t,
    Trip.new (Date 2026 11 5) (goa_trip (Date 2027 3 18)) = Ok t
    /\ get_trip_by_id (Date 2028 1 1)
         (fst (create_trip (mk_db ∅ ∅) t 1 (Some "2026-11-05 10:00:00") None)) 1
       = Ok (Some (trip_of_row 1 (trip_row t (Some "2026-11-05 10:00:00") None))).
Proof.
  eexists. split; [vm_compute; reflexivity|].
  pose proof (created_trip_read_back (Date 2026 11 5) (Date 2028 1 1)
                (goa_trip (Date 2027 3 18)) _ (mk_db ∅ ∅) 1
                (Some "2026-11-05 10:00:00") None eq_refl eq_refl eq_refl eq_refl)
    as H.
  exact (proj1 H).
Defined.

Lemma greatest_id_None {A : Type} (rows : list (Z * A)) :
  greatest_id rows = None <-> rows = [].
Proof.
  destruct rows as [|x rest]; [tauto|]. simpl.
  destruct (greatest_id rest) as [y|]; [destruct (fst y <=? fst x)|];
    split; discriminate.
Qed.

Lemma greatest_id_Some {A : Type} (rows : list (Z * A)) (x : Z * A) :
  greatest_id rows = Some x ->
  In x rows /\ forall y, In y rows -> fst y <= fst x.
Proof.
  revert x. induction rows as [|a rest IH]; intros x; [discriminate|]. simpl.
  destruct (greatest_id rest) as [y|] eqn:E.
  - destruct (IH y eq_refl) as (Hin & Hmax).
    destruct (fst y <=? fst a) eqn:C; intros [= <-].
    + apply Z.leb_le in C. split; [now left|].
      intros z [<- | Hz]; [lia|]. specialize (Hmax z Hz). lia.
    + apply Z.leb_gt in C. split; [now right|].
      intros z [<- | Hz]; [lia | auto].
  - intros [= <-]. apply greatest_id_None in E. subst rest.
    split; [now left|]. intros z [<- | []]. lia.
Qed.

Lemma active_trips_of_In (d : db) (user_id id : Z) (r : Trip.t) :
  In (id, r) (active_trips_of d user_id)
  <-> trips d !! id = Some r /\ Trip.user_id r = user_id
      /\ In (Trip.trip_status r) active_statuses.
Proof.
  unfold active_trips_of. rewrite filter_In, <- list_elem_of_In, elem_of_map_to_list.
  cbn [snd]. rewrite andb_true_iff, Z.eqb_eq, str_in_In. tauto.
Qed.

(** What the trip that is read has of its row. *)
Lemma trip_row_read (today : date) (id : Z) (r t : Trip.t) :
  Trip.new today (trip_row_dict id r) = Ok t ->
  Trip.id t = Some id /\ Trip.user_id t = Trip.user_id r
  /\ Trip.trip_status t = Trip.trip_status r.
Proof.
  intros H. unfold Trip.new, trip_row_dict, field_default, field_required in H.
  cbn [dict_lookup String.eqb Ascii.eqb Bool.eqb as_optional as_int as_str
       as_float as_literal ok_or mbind result_bind fmap option_fmap option_map] in H.
  binds_inv. injection H as <-. cbn [Trip.id Trip.user_id Trip.trip_status].
  match goal with
  | Hs : ok_or (if str_in ?s Trip.statuses then _ else _) _ = Ok _ |- _ =>
      destruct (str_in s Trip.statuses); [injection Hs as <- | discriminate]
  end.
  auto.
Qed.

(** X10. For a user id that SQLite binds, [get_active_trip_for_user]
    returns a trip of the user whose status is "draft", "confirmed" or
    "in_progress", never one that is completed or cancelled: the one of the
    greatest key among these; and it returns [None] exactly when the user
    has no such trip. *)
Theorem active_trip_of_user (today : date) (d : db) (user_id : Z) :
  sqlite_int user_id = true ->
  (forall t, get_active_trip_for_user today d user_id = Ok (Some t) ->
     Trip.user_id t = user_id
     /\ In (Trip.trip_status t) active_statuses
     /\ exists id r,
          Trip.id t = Some id /\ trips d !! id = Some r
          /\ forall id' r', trips d !! id' = Some r' -> Trip.user_id r' = user_id ->
                            In (Trip.trip_status r') active_statuses -> id' <= id)
  /\ (get_active_trip_for_user today d user_id = Ok None
      <-> forall id r, trips d !! id = Some r -> Trip.user_id r = user_id ->
                       ~ In (Trip.trip_status r) active_statuses).
Proof.
  intros _. unfold get_active_trip_for_user. split.
  - intros t H.
    destruct (greatest_id (active_trips_of d user_id)) as [[id r]|] eqn:E;
      [|discriminate].
    apply bind_Ok in H. destruct H as (t' & Ht & [= <-]).
    apply greatest_id_Some in E. destruct E as (Hin & Hmax).
    apply active_trips_of_In in Hin. destruct Hin as (Hl & Hu & Hs).
    apply trip_row_read in Ht. destruct Ht as (Hi & Hu' & Hs').
    rewrite Hu', Hs'. repeat split; try assumption.
    exists id, r. repeat split; try assumption.
    intros id' r' Hl' Hu'' Hs''.
    apply (Hmax (id', r')). apply active_trips_of_In. auto.
  - destruct (greatest_id (active_trips_of d user_id)) as [[id r]|] eqn:E.
    + apply greatest_id_Some in E. destruct E as (Hin & _).
      apply active_trips_of_In in Hin. destruct Hin as (Hl & Hu & Hs).
      split.
      * intros H. destruct (Trip.new today (trip_row_dict id r)); discriminate.
      * intros H. exfalso. exact (H id r Hl Hu Hs).
    + apply greatest_id_None in E. split; [|reflexivity].
      intros _ id r Hl Hu Hs.
      assert (Hin : In (id, r) (active_trips_of d user_id))
        by (apply active_trips_of_In; auto).
      rewrite E in Hin. contradiction.
Qed.

(** The user of [planned_db] has a trip in progress, and no other user
    has one. *)
Lemma active_trip_of_user_witness :
  sqlite_int 1 = true
  /\ sqlite_int 2 = true
  /\ (exists t, get_active_trip_for_user (Date 2027 4 1) planned_db 1 = Ok (Some t)
                /\ Trip.user_id t = 1
                /\ In (Trip.trip_status t) active_statuses
                /\ Trip.id t = Some 1)
  /\ get_active_trip_for_user (Date 2027 4 1) planned_db 2 = Ok None.
Proof.
  split; [reflexivity|]. split; [reflexivity|]. split.
  - destruct (active_trip_of_user (Date 2027 4 1) planned_db 1 eq_refl) as (H & _).
    eexists. split; [vm_compute; reflexivity|].
    destruct (H _ ltac:(vm_compute; reflexivity)) as (Hu & Hs & _).
    split; [exact Hu|]. split; [exact Hs | reflexivity].
  - destruct (active_trip_of_user (Date 2027 4 1) planned_db 2 eq_refl) as (_ & H).
    apply H. intros id r Hl Hu. exfalso.
    unfold planned_db in Hl. cbn [trips] in Hl.
    destruct (decide (id = 1)) as [-> | Hne].
    + rewrite lookup_insert_eq in Hl. injection Hl as <-. discriminate Hu.
    + rewrite lookup_insert_ne in Hl by congruence.
      rewrite lookup_empty in Hl. discriminate Hl.
Defined.

(** ** The plans table *)

Lemma head_all {A : Type} (l : list A) (x : A) :
  In x l -> (forall y, In y l -> y = x) -> head l = Some x.
Proof.
  destruct l as [|a l]; [contradiction|]. intros _ H. simpl.
  f_equal. apply H. now left.
Qed.

(** The row of a trip and version that no other row has is the one
    selected by that version. *)
Lemma select_version_unique (d : db) (trip_id v id : Z) (r : TripPlanModel.t) :
  trip_plans d !! id = Some r ->
  TripPlanModel.trip_id r = trip_id ->
  TripPlanModel.version r = v ->
  (forall id' r', trip_plans d !! id' = Some r' -> TripPlanModel.trip_id r' = trip_id ->
                  TripPlanModel.version r' = v -> id' = id) ->
  select_plan d trip_id (Some v) = Some (id, r).
Proof.
  intros Hl Ht Hv Huniq. unfold select_plan. apply head_all.
  - apply filter_In. split; [now apply plans_of_trip_In|].
    cbn [snd]. now apply Z.eqb_eq.
  - intros [id' r'] Hin. apply filter_In in Hin. destruct Hin as (Hin & Hv').
    apply plans_of_trip_In in Hin. destruct Hin as (Hl' & Ht').
    cbn [snd] in Hv'. apply Z.eqb_eq in Hv'.
    pose proof (Huniq id' r' Hl' Ht' Hv'). subst id'. congruence.
Qed.

(** The row of a trip whose version is above those of its other rows is
    the latest. *)
Lemma select_latest_greatest (d : db) (trip_id id : Z) (r : TripPlanModel.t) :
  trip_plans d !! id = Some r ->
  TripPlanModel.trip_id r = trip_id ->
  (forall id' r', trip_plans d !! id' = Some r' -> TripPlanModel.trip_id r' = trip_id ->
                  id' <> id -> TripPlanModel.version r' < TripPlanModel.version r) ->
  select_plan d trip_id None = Some (id, r).
Proof.
  intros Hl Ht Hmax. unfold select_plan.
  destruct (latest (plans_of_trip d trip_id)) as [[id' r']|] eqn:E.
  - apply latest_Some in E. destruct E as (Hin & Hge).
    apply plans_of_trip_In in Hin. destruct Hin as (Hl' & Ht').
    destruct (decide (id' = id)) as [-> | Hne]; [congruence|].
    pose proof (Hmax id' r' Hl' Ht' Hne) as Hlt.
    assert (Hin : In (id, r) (plans_of_trip d trip_id))
      by (apply plans_of_trip_In; auto).
    specialize (Hge _ Hin). cbn [snd] in Hge. lia.
  - apply latest_None in E.
    assert (Hin : In (id, r) (plans_of_trip d trip_id))
      by (apply plans_of_trip_In; auto).
    rewrite E in Hin. contradiction.
Qed.

(** What [from_travel_plan] returns for a plan whose itinerary JSON has a
    form for. *)
Lemma from_travel_plan_Ok (X : TravelPlan.t) (trip_id version : Z) :
  json_ok (TravelPlan.itinerary X) = true ->
  exists ij hj fj,
    TripPlanModel.from_travel_plan X trip_id version
    = Ok (TripPlanModel.mk None trip_id (Some ij) (Some hj) (Some fj)
            (TravelPlan.daily_budget X)
            (total_or_zero (TravelPlan.total_estimated_cost X))
            None None "draft" version None).
Proof.
  intros Hok. unfold TripPlanModel.from_travel_plan.
  fold (hotels_value (TravelPlan.hotels X)). fold (flights_value (TravelPlan.flights X)).
  destruct (dumps_ok _ Hok) as [ti ->].
  destruct (dumps_ok _ (json_ok_hotels (TravelPlan.hotels X))) as [th ->].
  destruct (dumps_ok _ (json_ok_flights (TravelPlan.flights X))) as [tf ->].
  cbn [mbind result_bind].
  assert (Etotal : py_or (opt_float (TravelPlan.total_estimated_cost X))
                     (PFloat float_zero)
                   = PFloat (total_or_zero (TravelPlan.total_estimated_cost X))).
  { unfold py_or, total_or_zero.
    destruct (TravelPlan.total_estimated_cost X) as [f|]; [|reflexivity].
    cbn [opt_float]. now destruct (truthy (PFloat f)). }
  rewrite Etotal.
  unfold TripPlanModel.new, field_default, field_required.
  cbn [dict_lookup String.eqb Ascii.eqb Bool.eqb as_optional as_str as_int as_float
       as_literal ok_or fmap option_fmap option_map mbind result_bind].
  change (str_in "draft" TripPlanModel.statuses) with true. cbv iota.
  cbn [ok_or mbind result_bind]. eauto.
Qed.

Lemma saved_plan_read (X : TravelPlan.t) (trip_id version : Z) (d : db)
  (lastrowid : Z) (generated_at updated_at : option string) :
  json_ok (TravelPlan.itinerary X) = true ->
  TravelPlan.as_itinerary (TravelPlan.itinerary X) = Some (TravelPlan.itinerary X) ->
  trip_plans d !! lastrowid = None ->
  (forall id r, trip_plans d !! id = Some r -> TripPlanModel.trip_id r = trip_id ->
                TripPlanModel.version r <> version) ->
  exists d' m,
    save_travel_plan_to_db d X trip_id version lastrowid generated_at updated_at
    = Ok (d', lastrowid)
    /\ trips d' = trips d
    /\ (forall id, id <> lastrowid -> trip_plans d' !! id = trip_plans d !! id)
    /\ get_trip_plan_by_trip_id d' trip_id (Some version) = Ok (Some m)
    /\ TripPlanModel.id m = Some lastrowid
    /\ TripPlanModel.trip_id m = trip_id
    /\ TripPlanModel.version m = version
    /\ TripPlanModel.status m = "draft"
    /\ TripPlanModel.generated_at m = generated_at
    /\ TripPlanModel.to_travel_plan m
       = Ok (TravelPlan.mk (TravelPlan.itinerary X) (TravelPlan.hotels X)
               (TravelPlan.flights X) (TravelPlan.daily_budget X)
               (Some (total_or_zero (TravelPlan.total_estimated_cost X))))
    /\ ((forall id r, trip_plans d !! id = Some r -> TripPlanModel.trip_id r = trip_id ->
                      TripPlanModel.version r < version) ->
        get_trip_plan_by_trip_id d' trip_id None = Ok (Some m)).
Proof.
  intros Hok Hit Hfresh Huniq.
  pose proof (round_trip_plan X trip_id version Hok Hit) as Hrt.
  unfold round_trip in Hrt.
  destruct (from_travel_plan_Ok X trip_id version Hok) as (ij & hj & fj & Hfrom).
  rewrite Hfrom in Hrt. cbn [mbind result_bind] in Hrt.
  unfold save_travel_plan_to_db. rewrite Hfrom. cbn [mbind result_bind create_trip_plan].
  set (m := TripPlanModel.mk None trip_id (Some ij) (Some hj) (Some fj)
              (TravelPlan.daily_budget X)
              (total_or_zero (TravelPlan.total_estimated_cost X))
              None None "draft" version None) in *.
  set (row := plan_row m generated_at updated_at).
  set (d' := mk_db (trips d) (<[lastrowid := row]> (trip_plans d))).
  assert (Hrow : trip_plans d' !! lastrowid = Some row)
    by (subst d'; cbn [trip_plans]; apply lookup_insert_eq).
  assert (Hother : forall id r, trip_plans d' !! id = Some r -> id <> lastrowid ->
                                trip_plans d !! id = Some r).
  { intros id r Hl Hne. subst d'. cbn [trip_plans] in Hl.
    now rewrite lookup_insert_ne in Hl. }
  exists d', (plan_of_row lastrowid row).
  split; [reflexivity|]. split; [reflexivity|]. split.
  { intros id Hne. subst d'. cbn [trip_plans]. now rewrite lookup_insert_ne. }
  assert (Hget : forall v, select_plan d' trip_id v = Some (lastrowid, row) ->
                           get_trip_plan_by_trip_id d' trip_id v
                           = Ok (Some (plan_of_row lastrowid row))).
  { intros v Hsel. rewrite get_trip_plan_selected, Hsel. reflexivity. }
  split.
  { apply Hget. apply select_version_unique; try assumption; try reflexivity.
    intros id' r' Hl' Ht' Hv'.
    destruct (decide (id' = lastrowid)) as [-> | Hne]; [reflexivity|].
    exfalso. exact (Huniq id' r' (Hother _ _ Hl' Hne) Ht' Hv'). }
  do 5 (split; [reflexivity|]).
  split; [exact Hrt|].
  intros Hmax. apply Hget. apply select_latest_greatest; try assumption; try reflexivity.
  intros id' r' Hl' Ht' Hne. exact (Hmax id' r' (Hother _ _ Hl' Hne) Ht').
Qed.

(** X11. A plan of JSON values that is saved for a trip under a version the
    trip does not have yet, both integers that SQLite binds, is read back
    by that version: [get_trip_plan_by_trip_id]
    returns a model with the key of the new row, the status "draft" and
    that version, whose [to_travel_plan] is the plan that was saved (its
    total as [from_travel_plan] stores it); it is also what is read when no
    version is asked for, provided the version is above those the trip had.
    The trips and the other plans are left as they were. *)
Theorem saved_plan_read_back (X : TravelPlan.t) (trip_id version : Z) (d : db)
  (lastrowid : Z) (generated_at updated_at : option string) :
  sqlite_int trip_id = true ->
  sqlite_int version = true ->
  json_ok (TravelPlan.itinerary X) = true ->
  TravelPlan.as_itinerary (TravelPlan.itinerary X) = Some (TravelPlan.itinerary X) ->
  trip_plans d !! lastrowid = None ->
  (forall id r, trip_plans d !! id = Some r -> TripPlanModel.trip_id r = trip_id ->
                TripPlanModel.version r <> version) ->
  exists d' m,
    save_travel_plan_to_db d X trip_id version lastrowid generated_at updated_at
    = Ok (d', lastrowid)
    /\ trips d' = trips d
    /\ (forall id, id <> lastrowid -> trip_plans d' !! id = trip_plans d !! id)
    /\ get_trip_plan_by_trip_id d' trip_id (Some version) = Ok (Some m)
    /\ TripPlanModel.id m = Some lastrowid
    /\ TripPlanModel.trip_id m = trip_id
    /\ TripPlanModel.version m = version
    /\ TripPlanModel.status m = "draft"
    /\ TripPlanModel.generated_at m = generated_at
    /\ TripPlanModel.to_travel_plan m
       = Ok (TravelPlan.mk (TravelPlan.itinerary X) (TravelPlan.hotels X)
               (TravelPlan.flights X) (TravelPlan.daily_budget X)
               (Some (total_or_zero (TravelPlan.total_estimated_cost X))))
    /\ ((forall id r, trip_plans d !! id = Some r -> TripPlanModel.trip_id r = trip_id ->
                      TripPlanModel.version r < version) ->
        get_trip_plan_by_trip_id d' trip_id None = Ok (Some m)).
Proof.
  intros _ _.
  exact (saved_plan_read X trip_id version d lastrowid generated_at updated_at).
Qed.

Lemma planned_db_plans (id : Z) (r : TripPlanModel.t) :
  trip_plans planned_db !! id = Some r -> id = 1 /\ r = sample_plan 1 1 "draft".
Proof.
  unfold planned_db. cbn [trip_plans]. intros H.
  destruct (decide (id = 1)) as [-> | Hne].
  - rewrite lookup_insert_eq in H. injection H as <-. auto.
  - rewrite lookup_insert_ne, lookup_empty in H by congruence. discriminate.
Qed.

(** [goa_plan], saved as the second version of the trip of [planned_db], is
    what is read for the trip from then on. *)
Lemma saved_plan_read_back_witness :
  exists d' m,
    save_travel_plan_to_db planned_db goa_plan 1 2 2 None None = Ok (d', 2)
    /\ get_trip_plan_by_trip_id d' 1 None = Ok (Some m)
    /\ TripPlanModel.version m = 2
    /\ TripPlanModel.to_travel_plan m = Ok goa_plan.
Proof.
  destruct (saved_plan_read_back goa_plan 1 2 planned_db 2 None None
              eq_refl eq_refl eq_refl eq_refl)
    as (d' & m & Hs & _ & _ & _ & _ & _ & Hv & _ & _ & Ht & Hl).
  - reflexivity.
  - intros id r H _. apply planned_db_plans in H. destruct H as (_ & ->). discriminate.
  - exists d', m. split; [exact Hs|]. split; [|split; [exact Hv | exact Ht]].
    apply Hl. intros id r H _. apply planned_db_plans in H. destruct H as (_ & ->).
    reflexivity.
Defined.

Lemma head_filter_None {A : Type} (P : A -> bool) (l : list A) :
  (forall x, In x l -> P x = false) -> head (List.filter P l) = None.
Proof.
  induction l as [|a l IH]; [reflexivity|]. intros H. simpl.
  rewrite (H a) by now left. apply IH. intros x Hx. apply H. now right.
Qed.

(** X12. [update_trip_plan_status] answers [False] and changes nothing
    when no plan has the key; when one has, it answers [True], writes the
    status as it is given, whatever it is, and changes nothing else.  With
    versions that are unique per trip the plan is then read, by its version,
    with the new status when that is "draft", "approved" or "rejected", and
    the read raises a validation error when it is anything else. *)
Theorem plan_status_written (d : db) (plan_id : Z) (status : string) :
  (trip_plans d !! plan_id = None ->
   update_trip_plan_status d plan_id status = (d, false))
  /\ (forall r, trip_plans d !! plan_id = Some r ->
        let d' := fst (update_trip_plan_status d plan_id status) in
        snd (update_trip_plan_status d plan_id status) = true
        /\ trips d' = trips d
        /\ trip_plans d' !! plan_id = Some (set_plan_status status r)
        /\ (forall id, id <> plan_id -> trip_plans d' !! id = trip_plans d !! id)
        /\ (unique_versions d ->
            get_trip_plan_by_trip_id d' (TripPlanModel.trip_id r)
              (Some (TripPlanModel.version r))
            = if str_in status TripPlanModel.statuses
              then Ok (Some (plan_of_row plan_id (set_plan_status status r)))
              else Raise (ValidationError "status"))).
Proof.
  unfold update_trip_plan_status. split.
  - now intros ->.
  - intros r Hr. rewrite Hr. cbn [fst snd trips trip_plans].
    split; [reflexivity|]. split; [reflexivity|].
    split; [apply lookup_insert_eq|].
    split; [intros id Hne; now rewrite lookup_insert_ne|].
    intros Huniq. rewrite get_trip_plan_selected.
    rewrite (select_version_unique _ _ _ plan_id (set_plan_status status r)).
    + reflexivity.
    + cbn [trip_plans]. apply lookup_insert_eq.
    + reflexivity.
    + reflexivity.
    + cbn [trip_plans]. intros id' r' Hl Ht Hv.
      destruct (decide (id' = plan_id)) as [-> | Hne]; [reflexivity|].
      rewrite lookup_insert_ne in Hl by congruence.
      exact (Huniq id' plan_id r' r Hl Hr Ht Hv).
Qed.

(** X13. [delete_trip_plan] answers [False] and changes nothing when no
    plan has the key; when one has, it answers [True] and only that row
    goes, so that, with versions that are unique per trip, the trip has no
    plan of that version any more. *)
Theorem plan_deleted (d : db) (plan_id : Z) :
  (trip_plans d !! plan_id = None -> delete_trip_plan d plan_id = (d, false))
  /\ (forall r, trip_plans d !! plan_id = Some r ->
        let d' := fst (delete_trip_plan d plan_id) in
        snd (delete_trip_plan d plan_id) = true
        /\ trips d' = trips d
        /\ trip_plans d' !! plan_id = None
        /\ (forall id, id <> plan_id -> trip_plans d' !! id = trip_plans d !! id)
        /\ (unique_versions d ->
            get_trip_plan_by_trip_id d' (TripPlanModel.trip_id r)
              (Some (TripPlanModel.version r)) = Ok None)).
Proof.
  unfold delete_trip_plan. split.
  - now intros ->.
  - intros r Hr. rewrite Hr. cbn [fst snd trips trip_plans].
    split; [reflexivity|]. split; [reflexivity|].
    split; [apply lookup_delete_eq|].
    split; [intros id Hne; now rewrite lookup_delete_ne|].
    intros Huniq. unfold get_trip_plan_by_trip_id, select_plan.
    rewrite head_filter_None; [reflexivity|].
    intros [id' r'] Hin. apply plans_of_trip_In in Hin. cbn [trip_plans] in Hin.
    destruct Hin as (Hl & Ht). cbn [snd]. apply Z.eqb_neq. intros Hv.
    destruct (decide (id' = plan_id)) as [-> | Hne].
    + rewrite lookup_delete_eq in Hl. discriminate.
    + rewrite lookup_delete_ne in Hl by congruence.
      apply Hne. exact (Huniq id' plan_id r' r Hl Hr Ht Hv).
Qed.

(** ** The slice between the braces *)

Lemma find_char_range (c : ascii) (s : list ascii) :
  find_char c s = -1 \/ 0 <= find_char c s < Z.of_nat (length s).
Proof.
  induction s as [|x r IH]; [now left|]. cbn [find_char length].
  destruct (Ascii.eqb x c); [right; lia|].
  destruct (find_char c r <? 0) eqn:E; [now left|].
  apply Z.ltb_ge in E. right. lia.
Qed.

Lemma find_char_skipn (c : ascii) (s : list ascii) :
  0 <= find_char c s -> exists rest, skipn (Z.to_nat (find_char c s)) s = c :: rest.
Proof.
  induction s as [|x r IH]; cbn [find_char]; [lia|].
  destruct (Ascii.eqb_spec x c) as [-> | Hne].
  - intros _. now exists r.
  - destruct (find_char c r <? 0) eqn:E; [lia|].
    apply Z.ltb_ge in E. intros _. destruct (IH E) as [rest Hrest].
    exists rest. rewrite Z2Nat.inj_add by lia.
    rewrite Nat.add_comm. exact Hrest.
Qed.

Lemma find_char_zero (c : ascii) (s : list ascii) :
  find_char c s = 0 -> exists r, s = c :: r.
Proof.
  destruct s as [|x r]; cbn [find_char]; [discriminate|].
  destruct (Ascii.eqb_spec x c) as [-> | Hne]; [eauto|].
  destruct (find_char c r <? 0) eqn:E; [discriminate|].
  apply Z.ltb_ge in E. lia.
Qed.

Lemma rfind_char_range (c : ascii) (s : list ascii) :
  -1 <= rfind_char c s < Z.of_nat (length s).
Proof.
  unfold rfind_char.
  destruct (find_char_range c (rev s)) as [-> | H].
  - simpl. lia.
  - rewrite length_rev in H.
    destruct (find_char c (rev s) <? 0) eqn:E; [lia|]. lia.
Qed.

Lemma rfind_char_last (c : ascii) (s : list ascii) :
  s <> [] -> Z.of_nat (length s) <= rfind_char c s + 1 ->
  exists init, s = init ++ [c].
Proof.
  intros Hne H. unfold rfind_char in H.
  destruct (find_char_range c (rev s)) as [E | Hr].
  - rewrite E in H. simpl in H. destruct s; [contradiction | simpl in H; lia].
  - destruct (find_char c (rev s) <? 0) eqn:E; [lia|].
    assert (E0 : find_char c (rev s) = 0) by lia.
    apply find_char_zero in E0. destruct E0 as [t Ht].
    exists (rev t). rewrite <- (rev_involutive s), Ht. reflexivity.
Qed.

(** What [raw[raw.find("{"):raw.rfind("}") + 1]] can be. *)
Lemma braces_slice (raw : list ascii) :
  let sl := slice raw (find_char "{"%char raw) (rfind_char "}"%char raw + 1) in
  sl = [] \/ (exists rest, sl = "{"%char :: rest) \/ sl = ["}"%char].
Proof.
  cbv zeta. unfold slice.
  pose proof (rfind_char_range "}"%char raw) as Hr.
  set (n := Z.of_nat (length raw)) in *.
  set (stop := rfind_char "}"%char raw + 1) in *.
  assert (Es : (stop <? 0) = false) by (apply Z.ltb_ge; lia). rewrite Es.
  destruct (find_char_range "{"%char raw) as [E | Hf].
  - rewrite E. change (-1 <? 0) with true. cbv iota.
    destruct (decide (raw = [])) as [Eraw | Eraw].
    + left. rewrite Eraw, skipn_nil. apply firstn_nil.
    + assert (Hn : 1 <= n) by (subst n; destruct raw; [contradiction | cbn [length]; lia]).
      replace (Z.max 0 (-1 + n)) with (n - 1) by lia.
      destruct (Z_lt_le_dec stop n) as [Hlt | Hge].
      * left. replace (Z.to_nat (Z.min stop n - (n - 1))) with O by lia.
        reflexivity.
      * destruct (rfind_char_last "}"%char raw) as [init Hinit];
          [assumption | fold n; fold stop; lia |].
        right. right.
        replace (Z.min stop n) with n by lia.
        replace (Z.to_nat (n - (n - 1))) with 1%nat by lia.
        assert (Hlen : Z.to_nat (n - 1) = length init).
        { subst n. rewrite Hinit, length_app. cbn [length]. lia. }
        rewrite Hlen, Hinit, drop_app_length. reflexivity.
  - destruct (find_char "{"%char raw <? 0) eqn:E; [lia|].
    replace (Z.min (find_char "{"%char raw) n) with (find_char "{"%char raw) by lia.
    destruct (find_char_skipn "{"%char raw) as [rest ->]; [lia|].
    destruct (Z.to_nat _); [now left | right; left; cbn [firstn]; eauto].
Qed.

Lemma parse_value_brace (n : nat) (rest : list ascii) (v : pyval) (r : list ascii) :
  parse_value (S n) ("{"%char :: rest) = Some (v, r) -> exists d, v = PDict d.
Proof.
  cbn [parse_value skip_ws is_ws is_char Ascii.eqb Bool.eqb orb dquote].
  destruct (skip_ws rest) as [|c' r']; [discriminate|].
  destruct (is_char c' "}"); [intros H; injection H as <- _; eauto|].
  destruct (parse_members n rest []) as [[d r'']|]; [|discriminate].
  intros H. injection H as <- _. eauto.
Qed.

(** Between the braces [json.loads] finds a dict, or raises. *)
Lemma loads_braces_dict (raw : list ascii) (v : pyval) :
  loads_braces raw = Ok v -> exists d, v = PDict d.
Proof.
  unfold loads_braces, loads.
  destruct (braces_slice raw) as [-> | [[rest ->] | ->]].
  - discriminate.
  - rewrite chars_str_of.
    destruct (parse_value _ _) as [[v' r]|] eqn:E; [|discriminate].
    apply parse_value_brace in E. destruct E as [d ->].
    destruct (skip_ws r); [|discriminate]. intros [= <-]. eauto.
  - discriminate.
Qed.

(** ** [info_collector]: what it returns and what it raises *)

Lemma bind_Raise {A B : Type} (r : result A) (k : A -> result B) (e : exn) :
  (r ≫= k) = Raise e -> r = Raise e \/ exists a, r = Ok a /\ k a = Raise e.
Proof. destruct r as [a|e']; simpl; [eauto | intros [= ->]; now left]. Qed.

Lemma field_default_raise {A : Type} (values : pydict) (key : string)
  (coerce : pyval -> option A) (dflt : A) (e : exn) :
  field_default values key coerce dflt = Raise e -> exists msg, e = ValidationError msg.
Proof.
  destruct (field_default_cases values key coerce dflt) as [[a ->] | ->];
    [discriminate | intros [= <-]; eauto].
Qed.

Lemma ok_or_invalid_raise {A : Type} (o : option A) (key : string) (e : exn) :
  ok_or o (invalid key) = Raise e -> exists msg, e = ValidationError msg.
Proof. destruct o; [discriminate | intros [= <-]; unfold invalid; eauto]. Qed.

Lemma requirements_validate_dates_raise (e0 s : option date) (mode : string)
  (e : exn) :
  validator (TripRequirements.validate_dates e0 s mode) = Raise e ->
  exists msg, e = ValidationError msg.
Proof.
  unfold TripRequirements.validate_dates.
  destruct e0 as [x|], s as [y|]; try discriminate.
  destruct (String.eqb mode "trip" && date_leb x y); [|discriminate].
  intros [= <-]. eauto.
Qed.

(** The construction of the requirements raises nothing but a validation
    error. *)
Lemma requirements_new_raise (values : pydict) (e : exn) :
  TripRequirements.new values = Raise e -> exists msg, e = ValidationError msg.
Proof.
  unfold TripRequirements.new, TripRequirements.validate_fields.
  generalize (TripRequirements.auto_fix_and_validate values). intros fixed H.
  cbv zeta in H.
  repeat match type of H with
    | (_ ≫= _) = Raise _ =>
        apply bind_Raise in H; destruct H as [H | (? & _ & H)]
    end;
    try discriminate H;
    try (now apply field_default_raise in H).
  - destruct (dict_lookup fixed "trip_enddate"); [|discriminate].
    apply bind_Raise in H. destruct H as [H | (? & _ & H)].
    + now apply ok_or_invalid_raise in H.
    + now apply requirements_validate_dates_raise in H.
  - destruct (dict_lookup fixed "accommodation_type"); [|discriminate].
    apply bind_Raise in H. destruct H as [H | (? & _ & H)]; [|discriminate].
    now apply ok_or_invalid_raise in H.
Qed.

(** X14. [info_collector] raises nothing but a validation error: between
    the braces [json.loads] finds a dict or raises, so the payload is never
    a list and [data.get] never fails.  When [json.loads] raises, the
    requirements that come back are in "missing" mode and ask for the origin
    and the destination; when it returns, they are built from the
    post-processed payload. *)
Theorem info_collector_outcomes (result_text : string) :
  (forall e, info_collector result_text = Raise e -> exists msg, e = ValidationError msg)
  /\ (forall e, loads_braces (info_raw result_text) = Raise e ->
        info_collector result_text = Ok ask_origin_destination)
  /\ (forall v, loads_braces (info_raw result_text) = Ok v ->
        exists data, v = PDict data
                     /\ info_collector result_text
                        = TripRequirements.new (post_process data)).
Proof.
  unfold info_collector. fold (info_raw result_text).
  destruct (loads_braces (info_raw result_text)) as [v|e'] eqn:E.
  - destruct (loads_braces_dict _ _ E) as [data ->].
    split; [|split].
    + intros e. apply requirements_new_raise.
    + discriminate.
    + intros v [= <-]. eauto.
  - split; [|split].
    + intros e H. vm_compute in H. discriminate.
    + intros _ _. vm_compute. reflexivity.
    + discriminate.
Qed.

Lemma default_if_falsy_truthy (data : pydict) (key : string) (dflt : pyval) :
  truthy dflt = true -> truthy (dict_get (default_if_falsy data key dflt) key) = true.
Proof.
  intros H. unfold default_if_falsy.
  destruct (truthy (dict_get data key)) eqn:E; [assumption|].
  now rewrite dict_get_set_eq.
Qed.

Lemma fix_mode_is_mode (data : pydict) :
  is_mode (dict_get (fix_mode data) "mode") = true.
Proof.
  unfold fix_mode. destruct (is_mode (dict_get data "mode")) eqn:E; [assumption|].
  rewrite dict_get_set_eq. now destruct (all_truthy data core_fields).
Qed.

(** X15. Whatever the payload, the post-processing leaves a mode that is
    "trip" or "missing", and values that are truthy for currency, purpose,
    accommodation type, preferences and constraints: one that was absent,
    [None] or blank has become its default, "INR" for the currency. *)
Theorem post_process_defaults (data : pydict) :
  is_mode (dict_get (post_process data) "mode") = true
  /\ Forall (fun k => truthy (dict_get (post_process data) k) = true)
            ["currency"; "purpose"; "accommodation_type"; "travel_preferences";
             "travel_constraints"]
  /\ (truthy (unblank (dict_get data "currency")) = false ->
      dict_get (post_process data) "currency" = PStr "INR").
Proof.
  unfold post_process, fix_strings, required_string_defaults. cbn [fold_left fst snd].
  split; [|split].
  - rewrite !default_if_falsy_get by discriminate.
    rewrite fix_budget_get_ne, !fix_count_get_ne, fix_budget_get_ne by discriminate.
    apply fix_mode_is_mode.
  - repeat constructor.
    + rewrite !default_if_falsy_get by discriminate.
      rewrite default_if_falsy_truthy; reflexivity.
    + rewrite !default_if_falsy_get by discriminate.
      rewrite default_if_falsy_truthy; reflexivity.
    + rewrite !default_if_falsy_get by discriminate.
      rewrite default_if_falsy_truthy; reflexivity.
    + rewrite !default_if_falsy_get by discriminate.
      rewrite default_if_falsy_truthy; reflexivity.
    + rewrite default_if_falsy_truthy; reflexivity.
  - intros Hc.
    rewrite !default_if_falsy_get by discriminate.
    set (d1 := fix_budget _).
    assert (E : dict_get d1 "currency" = PStr "INR").
    { subst d1.
      rewrite fix_budget_get_ne, !fix_count_get_ne, fix_budget_get_ne,
        fix_mode_get, default_if_falsy_get by discriminate.
      unfold default_if_falsy at 1.
      rewrite blanks_to_none_get, fix_mode_get, Hc by discriminate.
      apply dict_get_set_eq. }
    assert (E2 : dict_get (default_if_falsy d1 "purpose" (PStr "leisure")) "currency"
                 = PStr "INR")
      by (rewrite default_if_falsy_get by discriminate; exact E).
    unfold default_if_falsy at 1. rewrite E2. exact E2.
Qed.

(** ** [planner]: an answer wrapped in [trip] *)

(** X16. The adapter of [planner] for an answer wrapped in [trip] has no
    effect: the payload is parsed a second time after it, and the plan is
    built from the payload as the model gave it.  An answer that holds
    nothing but the wrapped plan so comes back as a plan with the default
    itinerary and the two placeholders, whatever itinerary, hotels and
    flights the model wrapped. *)
Theorem planner_ignores_wrapper (requirements : TripRequirements.t)
  (result_text : string) (data t : pydict) :
  loads_braces (planner_raw result_text) = Ok (PDict data) ->
  dict_lookup data "trip" = Some (PDict t) ->
  planner requirements result_text
  = match TravelPlan.new (guard requirements data) with
    | Ok plan => plan
    | Raise _ => fallback_plan requirements
    end
  /\ (data = [("trip", PDict t)] ->
      forall location, TripRequirements.destination requirements = Some location ->
      planner requirements result_text
      = TravelPlan.mk (PStr "Itinerary will be provided")
          [fallback_hotel_record location] [fallback_flight_record] float_zero None).
Proof.
  intros Hload Htrip.
  assert (E : planner requirements result_text
              = match TravelPlan.new (guard requirements data) with
                | Ok plan => plan
                | Raise _ => fallback_plan requirements
                end).
  { unfold planner, try_block. fold (planner_raw result_text). rewrite Hload.
    cbn [mbind result_bind as_dict].
    unfold adapt, dict_has, dict_get. rewrite Htrip. reflexivity. }
  split; [exact E|].
  intros -> location Hloc. rewrite E.
  unfold guard, fallback_hotel, fallback_flight. rewrite Hloc. reflexivity.
Qed.

(** The plan wrapped in [wrapped_answer] is lost. *)
Lemma planner_ignores_wrapper_witness :
  loads_braces (planner_raw wrapped_answer) = Ok (PDict [("trip", PDict wrapped_plan)])
  /\ planner goa_requirements_object wrapped_answer
     = TravelPlan.mk (PStr "Itinerary will be provided")
         [fallback_hotel_record "Goa"] [fallback_flight_record] float_zero None.
Proof.
  assert (H : loads_braces (planner_raw wrapped_answer)
              = Ok (PDict [("trip", PDict wrapped_plan)]))
    by (vm_compute; reflexivity).
  split; [exact H|].
  exact (proj2 (planner_ignores_wrapper goa_requirements_object wrapped_answer
                  [("trip", PDict wrapped_plan)] wrapped_plan H eq_refl)
           eq_refl "Goa" eq_refl).
Defined.

(** ** Approval *)

(** X17. [continue_trip_approval] of the CrewAI orchestrator: without a
    plan for the trip, whose id SQLite binds, it answers "Plan not found"
    and writes nothing; with one whose row validates, the decision "approved" sets the latest plan to
    "approved" and the trip to "confirmed", and any other decision, of
    whatever spelling, is a rejection that sets the plan to "rejected" and
    the trip to "draft"; no other row changes.  When the latest row does not
    validate it raises before it writes. *)
Theorem crewai_approval_decides (d : db) (trip_id : Z)
  (approval_decision user_feedback : string) :
  (sqlite_int trip_id = true ->
   select_plan d trip_id None = None ->
   CrewAITripOrchestrator.continue_trip_approval d trip_id approval_decision
     user_feedback
   = Ok (d, [("success", PBool false); ("error", PStr "Plan not found")]))
  /\ (forall id r,
        select_plan d trip_id None = Some (id, r) ->
        In (TripPlanModel.status r) TripPlanModel.statuses ->
        exists d' response,
          CrewAITripOrchestrator.continue_trip_approval d trip_id approval_decision
            user_feedback = Ok (d', response)
          /\ dict_get response "success" = PBool true
          /\ dict_get response "approval"
             = PBool (String.eqb approval_decision "approved")
          /\ trip_plans d'
             = <[id := set_plan_status
                         (if String.eqb approval_decision "approved"
                          then "approved" else "rejected") r]> (trip_plans d)
          /\ trips d'
             = alter (set_trip_status
                        (if String.eqb approval_decision "approved"
                         then "confirmed" else "draft")) trip_id (trips d))
  /\ (forall id r,
        select_plan d trip_id None = Some (id, r) ->
        ~ In (TripPlanModel.status r) TripPlanModel.statuses ->
        CrewAITripOrchestrator.continue_trip_approval d trip_id approval_decision
          user_feedback = Raise (ValidationError "status")).
Proof.
  unfold CrewAITripOrchestrator.continue_trip_approval.
  rewrite get_trip_plan_selected. split; [|split].
  - now intros _ ->.
  - intros id r Hsel Hin. rewrite Hsel. apply str_in_In in Hin. rewrite Hin.
    cbn [mbind result_bind].
    assert (Hl : trip_plans d !! id = Some r).
    { pose proof (select_latest_spec d trip_id) as Hs. rewrite Hsel in Hs. tauto. }
    unfold update_status_of, plan_of_row, update_trip_plan_status.
    cbn [TripPlanModel.id]. rewrite Hl.
    destruct (String.eqb approval_decision "approved");
      eexists; eexists; (split; [reflexivity|]); repeat split.
  - intros id r Hsel Hin. rewrite Hsel.
    destruct (str_in (TripPlanModel.status r) TripPlanModel.statuses) eqn:E;
      [apply str_in_In in E; contradiction | reflexivity].
Qed.

(** On [planned_db]: trip 2 has no plan, and the approval of trip 1 sets
    its plan to "approved" and the trip to "confirmed". *)
Lemma crewai_approval_decides_witness :
  CrewAITripOrchestrator.continue_trip_approval planned_db 2 "approved" ""
  = Ok (planned_db, [("success", PBool false); ("error", PStr "Plan not found")])
  /\ exists d' response,
       CrewAITripOrchestrator.continue_trip_approval planned_db 1 "approved" ""
       = Ok (d', response)
       /\ dict_get response "success" = PBool true
       /\ trip_plans d' !! 1 = Some (sample_plan 1 1 "approved")
       /\ trips d' !! 1 = Some (sample_trip "confirmed").
Proof.
  split.
  - destruct (crewai_approval_decides planned_db 2 "approved" "") as (H & _).
    apply H; vm_compute; reflexivity.
  - destruct (crewai_approval_decides planned_db 1 "approved" "") as (_ & H & _).
    destruct (H 1 (sample_plan 1 1 "draft")) as (d' & response & E & Hs & _ & Hp & Ht).
    + vm_compute. reflexivity.
    + simpl. tauto.
    + exists d', response. split; [exact E|]. split; [exact Hs|].
      rewrite Hp, Ht. split; vm_compute; reflexivity.
Defined.

(** X18. [continue_trip_approval] of the AutoGen orchestrator writes the
    decision it is handed, whatever it is, as the status of the latest
    plan, and leaves the trips as they are; a decision that is none of
    "draft", "approved" and "rejected" so leaves a plan that the next read
    of the trip raises on. *)
Theorem autogen_approval_writes_decision (d : db) (trip_id id : Z)
  (r : TripPlanModel.t) (approval_decision user_feedback : string) :
  select_plan d trip_id None = Some (id, r) ->
  In (TripPlanModel.status r) TripPlanModel.statuses ->
  exists d' response,
    AutoGenTripOrchestrator.continue_trip_approval d trip_id approval_decision
      user_feedback = Ok (d', response)
    /\ dict_get response "success" = PBool true
    /\ trip_plans d' = <[id := set_plan_status approval_decision r]> (trip_plans d)
    /\ trips d' = trips d
    /\ (unique_versions d ->
        ~ In approval_decision TripPlanModel.statuses ->
        get_trip_plan_by_trip_id d' trip_id None = Raise (ValidationError "status")).
Proof.
  intros Hsel Hin.
  unfold AutoGenTripOrchestrator.continue_trip_approval.
  rewrite get_trip_plan_selected, Hsel. apply str_in_In in Hin. rewrite Hin.
  cbn [mbind result_bind].
  assert (Hl : trip_plans d !! id = Some r).
  { pose proof (select_latest_spec d trip_id) as Hs. rewrite Hsel in Hs. tauto. }
  unfold update_status_of, plan_of_row, update_trip_plan_status.
  cbn [TripPlanModel.id]. rewrite Hl. cbn [fst].
  eexists. eexists. split; [reflexivity|]. repeat split.
  intros Huniq Hbad. rewrite get_trip_plan_selected.
  rewrite (select_latest_after_status d trip_id id r approval_decision Huniq Hsel).
  cbn [set_plan_status TripPlanModel.status].
  destruct (str_in approval_decision TripPlanModel.statuses) eqn:E;
    [apply str_in_In in E; contradiction | reflexivity].
Qed.

(** The plan of [planned_db], "postponed" by the AutoGen orchestrator, can
    no longer be read. *)
Lemma autogen_approval_writes_decision_witness :
  exists d' response,
    AutoGenTripOrchestrator.continue_trip_approval planned_db 1 "postponed" ""
    = Ok (d', response)
    /\ TripPlanModel.status <$> trip_plans d' !! 1 = Some "postponed"
    /\ get_trip_plan_by_trip_id d' 1 None = Raise (ValidationError "status").
Proof.
  destruct (autogen_approval_writes_decision planned_db 1 1 (sample_plan 1 1 "draft")
              "postponed" "")
    as (d' & response & H & _ & Hp & _ & Hr).
  - vm_compute. reflexivity.
  - simpl. tauto.
  - exists d', response. split; [exact H|]. split.
    + rewrite Hp, lookup_insert_eq. reflexivity.
    + apply Hr.
      * intros i j r s Hi Hj _ _.
        apply planned_db_plans in Hi, Hj. destruct Hi as (-> & _), Hj as (-> & _).
        reflexivity.
      * simpl. intros [H1 | [H1 | [H1 | []]]]; discriminate.
Defined.

(** ** The endpoints *)

(** X19. The approval endpoint: a phase that is not in the map gets
    "Unsupported phase"; the phase of LangGraph, whose orchestrator has no
    [continue_trip_approval], gets a failure; neither writes.  For the two
    other phases a trip that has no plan, and whose id SQLite binds, gets a
    response whose [success] is [True], with the decision as [updated_status] and no [plan_id],
    although nothing was approved and nothing is written. *)
Theorem approve_trip_responses (d : db) (request : ApprovalRequest.t) :
  (app.orchestrator_of app.PHASE_ORCHESTRATOR_MAP (ApprovalRequest.phase request) = None ->
   app.approve_trip d request
   = (d, app.Returned [("success", PBool false); ("error", PStr "Unsupported phase")]))
  /\ (ApprovalRequest.phase request = "phase4_langgraph" ->
      exists msg, app.approve_trip d request = (d, app.Failed (AttributeError msg)))
  /\ (ApprovalRequest.phase request = "phase2_crewai"
      \/ ApprovalRequest.phase request = "phase3_autogen" ->
      sqlite_int (ApprovalRequest.trip_id request) = true ->
      select_plan d (ApprovalRequest.trip_id request) None = None ->
      exists body,
        app.approve_trip d request = (d, app.Returned body)
        /\ dict_get body "success" = PBool true
        /\ dict_get body "updated_status"
           = PStr (if ApprovalRequest.approval request then "approved" else "rejected")
        /\ dict_get body "plan_id" = PNone).
Proof.
  unfold app.approve_trip. split; [|split].
  - now intros ->.
  - intros ->. cbn. eauto.
  - intros Hphase _ Hsel.
    assert (Hget : get_trip_plan_by_trip_id d (ApprovalRequest.trip_id request) None
                   = Ok None)
      by (rewrite get_trip_plan_selected, Hsel; reflexivity).
    destruct Hphase as [-> | ->];
      cbn [app.orchestrator_of app.PHASE_ORCHESTRATOR_MAP String.eqb Ascii.eqb
           Bool.eqb continue_trip_approval];
      unfold CrewAITripOrchestrator.continue_trip_approval,
        AutoGenTripOrchestrator.continue_trip_approval;
      rewrite Hget; cbn [mbind result_bind]; rewrite Hget;
      eexists; (split; [reflexivity|]); repeat split.
Qed.

(** On [planned_db]: the approval of trip 2, which has no plan, is answered
    with success by both orchestrators, a phase that is not in the map is
    refused, and the phase of LangGraph fails. *)
Lemma approve_trip_responses_witness :
  (forall phase, phase = "phase2_crewai" \/ phase = "phase3_autogen" ->
     exists body,
       app.approve_trip planned_db (ApprovalRequest.mk 2 1 true None phase)
       = (planned_db, app.Returned body)
       /\ dict_get body "success" = PBool true
       /\ dict_get body "updated_status" = PStr "approved"
       /\ dict_get body "plan_id" = PNone)
  /\ app.approve_trip planned_db (ApprovalRequest.mk 2 1 true None "phase1_langflow")
     = (planned_db,
        app.Returned [("success", PBool false); ("error", PStr "Unsupported phase")])
  /\ (exists msg,
        app.approve_trip planned_db (ApprovalRequest.mk 1 1 true None "phase4_langgraph")
        = (planned_db, app.Failed (AttributeError msg))).
Proof.
  split; [|split].
  - intros phase Hphase.
    destruct (approve_trip_responses planned_db (ApprovalRequest.mk 2 1 true None phase))
      as (_ & _ & H).
    apply H; [exact Hphase | reflexivity | vm_compute; reflexivity].
  - destruct (approve_trip_responses planned_db
                (ApprovalRequest.mk 2 1 true None "phase1_langflow")) as (H & _).
    apply H. reflexivity.
  - destruct (approve_trip_responses planned_db
                (ApprovalRequest.mk 1 1 true None "phase4_langgraph")) as (_ & H & _).
    apply H. reflexivity.
Defined.

(** X20. The two plan endpoints, for a trip id and versions that SQLite
    binds: a plan of JSON values that [save_trip_plan] saved under a version
    the trip did not have is what [get_trip_plan] answers for that version,
    as the dict of the plan (its total as it is stored), with the status
    "draft" in the metadata; [get_trip_plan] answers "Trip plan not found"
    when no row is selected, and a failure when the row selected has a
    status that is none of "draft", "approved" and "rejected". *)
Theorem plan_endpoints (d : db) (trip_id : Z) :
  sqlite_int trip_id = true ->
  (forall X version lastrowid generated_at updated_at,
     sqlite_int version = true ->
     json_ok (TravelPlan.itinerary X) = true ->
     TravelPlan.as_itinerary (TravelPlan.itinerary X) = Some (TravelPlan.itinerary X) ->
     trip_plans d !! lastrowid = None ->
     (forall id r, trip_plans d !! id = Some r -> TripPlanModel.trip_id r = trip_id ->
                   TripPlanModel.version r <> version) ->
     exists d' saved,
       app.save_trip_plan d trip_id X version lastrowid generated_at updated_at
       = (d', app.Returned saved)
       /\ dict_get saved "success" = PBool true
       /\ dict_get saved "plan_id" = PInt lastrowid
       /\ app.get_trip_plan d' trip_id (Some version)
          = app.Returned
              [("success", PBool true);
               ("plan",
                 PDict (TravelPlan.dict
                          (TravelPlan.mk (TravelPlan.itinerary X) (TravelPlan.hotels X)
                             (TravelPlan.flights X) (TravelPlan.daily_budget X)
                             (Some (total_or_zero (TravelPlan.total_estimated_cost X))))));
               ("metadata",
                 PDict [("trip_id", PInt trip_id);
                        ("version", PInt version);
                        ("status", PStr "draft");
                        ("generated_at", opt_str generated_at)])])
  /\ (forall version,
        (forall v, version = Some v -> sqlite_int v = true) ->
        select_plan d trip_id version = None ->
        app.get_trip_plan d trip_id version
        = app.Returned [("success", PBool false); ("error", PStr "Trip plan not found")])
  /\ (forall version id r,
        select_plan d trip_id version = Some (id, r) ->
        ~ In (TripPlanModel.status r) TripPlanModel.statuses ->
        app.get_trip_plan d trip_id version = app.Failed (ValidationError "status")).
Proof.
  intros _. split; [|split].
  - intros X version lastrowid generated_at updated_at _ Hok Hit Hfresh Huniq.
    destruct (saved_plan_read X trip_id version d lastrowid generated_at updated_at
                Hok Hit Hfresh Huniq)
      as (d' & m & Hsave & _ & _ & Hget & _ & Ht & Hv & Hs & Hg & Hplan & _).
    unfold app.save_trip_plan, app.get_trip_plan. rewrite Hsave.
    eexists. eexists. split; [reflexivity|]. split; [reflexivity|].
    split; [reflexivity|]. now rewrite Hget, Hplan, Ht, Hv, Hs, Hg.
  - intros version _ Hsel. unfold app.get_trip_plan.
    now rewrite get_trip_plan_selected, Hsel.
  - intros version id r Hsel Hbad. unfold app.get_trip_plan.
    rewrite get_trip_plan_selected, Hsel.
    destruct (str_in (TripPlanModel.status r) TripPlanModel.statuses) eqn:E;
      [apply str_in_In in E; contradiction | reflexivity].
Qed.

(** [goa_plan], saved through the endpoint as the second version of the
    trip of [planned_db], is what the endpoint answers for that version; a
    third version is not found, and a version marked "confirmed" is a
    failure. *)
Lemma plan_endpoints_witness :
  sqlite_int 1 = true
  /\ (exists d' saved,
        app.save_trip_plan planned_db 1 goa_plan 2 2 None None = (d', app.Returned saved)
        /\ dict_get saved "plan_id" = PInt 2
        /\ app.get_trip_plan d' 1 (Some 2)
           = app.Returned
               [("success", PBool true);
                ("plan", PDict (TravelPlan.dict goa_plan));
                ("metadata",
                  PDict [("trip_id", PInt 1); ("version", PInt 2);
                         ("status", PStr "draft"); ("generated_at", PNone)])])
  /\ app.get_trip_plan planned_db 1 (Some 3)
     = app.Returned [("success", PBool false); ("error", PStr "Trip plan not found")]
  /\ app.get_trip_plan two_versions_db 1 (Some 1) = app.Failed (ValidationError "status").
Proof.
  destruct (plan_endpoints planned_db 1 eq_refl) as (Hsave & Hnone & _).
  destruct (plan_endpoints two_versions_db 1 eq_refl) as (_ & _ & Hbad).
  split; [reflexivity|]. split; [|split].
  - destruct (Hsave goa_plan 2 2 None None eq_refl eq_refl eq_refl)
      as (d' & saved & Es & _ & Hid & Hget).
    + reflexivity.
    + intros id r H _. apply planned_db_plans in H. destruct H as (_ & ->). discriminate.
    + exists d', saved. split; [exact Es|]. split; [exact Hid | exact Hget].
  - apply Hnone.
    + intros v [= <-]. reflexivity.
    + vm_compute. reflexivity.
  - apply (Hbad (Some 1) 1 (sample_plan 1 1 "confirmed")).
    + vm_compute. reflexivity.
    + simpl. intros [H | [H | [H | []]]]; discriminate H.
Defined.

(** ** [_serialize_value] *)

(** X21. Of [None], a bool, an integer, a finite float, a string, a date,
    a list or a dict with string keys (the values of this model; any other
    object is handed back as it is), [_serialize_value] returns [None], a
    number or a text, never a bool, a date, a list or a dict.  The text of
    a list or a dict of the values [json.loads] returns is read back by
    [json.loads] as the value it was, the text of a date by
    [date.fromisoformat] as the date, and the number of a bool has the bool
    as its truth value. *)
Theorem serialize_value_reads_back :
  (forall v w, _serialize_value v = Ok w -> is_scalar w = true)
  /\ (forall v, is_container v = true -> json_ok v = true ->
        exists text, _serialize_value v = Ok (PStr text) /\ Json.loads text = Ok v)
  /\ (forall d, valid_date d = true ->
        exists text, _serialize_value (PDate d) = Ok (PStr text)
                     /\ date_fromisoformat text = Some d)
  /\ (forall b, exists n, _serialize_value (PBool b) = Ok (PInt n)
                          /\ truthy (PInt n) = b).
Proof.
  split; [|split; [|split]].
  - intros v w H. destruct v; simpl in H; try (injection H as <-; reflexivity).
    + destruct (Json.dumps (PList l)); [injection H as <-; reflexivity | discriminate].
    + destruct (Json.dumps (PDict d)); [injection H as <-; reflexivity | discriminate].
  - intros v Hc Hok. destruct (dumps_ok v Hok) as [text Ht].
    exists text. split; [|now apply loads_dumps].
    destruct v; try discriminate; simpl; now rewrite Ht.
  - intros d Hd. eexists. split; [reflexivity|]. now apply fromisoformat_isoformat.
  - intros b. eexists. split; [reflexivity|]. now destruct b.
Qed.

(** ** What [json.loads] returns can be written again *)

Lemma scan_number_json_ok (s : list ascii) (v : pyval) (r : list ascii) :
  scan_number s = Some (v, r) -> json_ok v = true.
Proof.
  unfold scan_number.
  destruct (match s with
            | c :: r0 => if is_char c "-" then (true, r0) else (false, s)
            | [] => (false, s)
            end) as [neg s1].
  destruct (scan_int_part s1) as [[di s2]|]; [|discriminate].
  cbn [mbind option_bind].
  destruct (scan_frac s2) as [[fd s3]|];
    (destruct (scan_exp _) as [[e s4]|]); intros [= <- _]; reflexivity.
Qed.

Lemma dict_set_keys_NoDup (acc : pydict) (k : string) (v : pyval) :
  NoDup (map fst acc) -> NoDup (map fst (dict_set acc k v)).
Proof.
  induction acc as [|[k' v'] acc IH]; intros H.
  - simpl. apply NoDup_singleton.
  - simpl in *. destruct (String.eqb_spec k' k) as [-> | Hne].
    + exact H.
    + simpl. apply NoDup_cons in H. destruct H as (Hnin & Hnd).
      apply NoDup_cons. split; [|now apply IH].
      intros Hin. apply Hnin. clear IH Hnin Hnd.
      induction acc as [|[k'' v''] acc IH]; simpl in *.
      * apply list_elem_of_In in Hin. simpl in Hin. destruct Hin as [-> | []].
        contradiction.
      * destruct (String.eqb_spec k'' k) as [-> | Hne'']; [exact Hin|].
        simpl in Hin. apply elem_of_cons in Hin. destruct Hin as [-> | Hin].
        -- apply elem_of_cons. now left.
        -- apply elem_of_cons. right. now apply IH.
Qed.

Lemma dict_set_values_ok (acc : pydict) (k : string) (v : pyval) :
  forallb (fun kx => json_ok (snd kx)) acc = true -> json_ok v = true ->
  forallb (fun kx => json_ok (snd kx)) (dict_set acc k v) = true.
Proof.
  intros Ha Hv. induction acc as [|[k' v'] acc IH]; simpl in *.
  - now rewrite Hv.
  - apply andb_true_iff in Ha. destruct Ha as (H1 & H2).
    destruct (String.eqb k' k); simpl.
    + now rewrite Hv, H2.
    + now rewrite H1, IH.
Qed.

(** A dict whose keys are all different and whose values JSON has a form
    for. *)
Lemma json_ok_dict (d : pydict) :
  json_ok (PDict d) = true
  <-> NoDup (map fst d) /\ forallb (fun kx => json_ok (snd kx)) d = true.
Proof.
  cbn [json_ok]. rewrite andb_true_iff, bool_decide_eq_true. tauto.
Qed.

Lemma parse_json_ok (fuel : nat) :
  (forall s v r, parse_value fuel s = Some (v, r) -> json_ok v = true)
  /\ (forall s l r, parse_items fuel s = Some (l, r) -> forallb json_ok l = true)
  /\ (forall s acc d r, parse_members fuel s acc = Some (d, r) ->
        json_ok (PDict acc) = true -> json_ok (PDict d) = true).
Proof.
  induction fuel as [|n (IHv & IHi & IHm)]; [repeat split; discriminate|].
  split; [|split].
  - intros s v r. cbn [parse_value].
    destruct (skip_ws s) as [|c s']; [discriminate|].
    destruct (is_char c dquote).
    { destruct (scan_string s') as [[b r']|]; [|discriminate].
      intros [= <- _]. reflexivity. }
    destruct (is_char c "[").
    { destruct (skip_ws s') as [|c' r']; [discriminate|].
      destruct (is_char c' "]"); [intros [= <- _]; reflexivity|].
      destruct (parse_items n s') as [[l r'']|] eqn:E; [|discriminate].
      intros [= <- _]. cbn [json_ok]. exact (IHi _ _ _ E). }
    destruct (is_char c "{").
    { destruct (skip_ws s') as [|c' r']; [discriminate|].
      destruct (is_char c' "}"); [intros [= <- _]; reflexivity|].
      destruct (parse_members n s' []) as [[d r'']|] eqn:E; [|discriminate].
      intros [= <- _]. exact (IHm _ _ _ _ E eq_refl). }
    destruct (is_char c "n").
    { destruct (strip_prefix _ _); [|discriminate]. intros [= <- _]. reflexivity. }
    destruct (is_char c "t").
    { destruct (strip_prefix _ _); [|discriminate]. intros [= <- _]. reflexivity. }
    destruct (is_char c "f").
    { destruct (strip_prefix _ _); [|discriminate]. intros [= <- _]. reflexivity. }
    apply scan_number_json_ok.
  - intros s l r. cbn [parse_items].
    destruct (parse_value n s) as [[v r0]|] eqn:Ev; [|discriminate].
    cbn [mbind option_bind].
    destruct (skip_ws r0) as [|c r']; [discriminate|].
    destruct (is_char c ",").
    { destruct (parse_items n r') as [[l' r'']|] eqn:E; [|discriminate].
      intros [= <- _]. cbn [forallb]. now rewrite (IHv _ _ _ Ev), (IHi _ _ _ E). }
    destruct (is_char c "]"); [|discriminate].
    intros [= <- _]. cbn [forallb]. now rewrite (IHv _ _ _ Ev).
  - intros s acc d r. cbn [parse_members].
    destruct (skip_ws s) as [|c s']; [discriminate|].
    destruct (is_char c dquote); [|discriminate].
    destruct (scan_string s') as [[k r1]|]; [|discriminate].
    cbn [mbind option_bind].
    destruct (skip_ws r1) as [|c1 r2]; [discriminate|].
    destruct (is_char c1 ":"); [|discriminate].
    destruct (parse_value n r2) as [[v r3]|] eqn:Ev; [|discriminate].
    cbn [mbind option_bind].
    destruct (skip_ws r3) as [|c3 r4]; [discriminate|].
    intros H Hacc.
    assert (Hacc' : json_ok (PDict (dict_set acc (str_of k) v)) = true).
    { apply json_ok_dict in Hacc. destruct Hacc as (Hnd & Hvals).
      apply json_ok_dict. split.
      - now apply dict_set_keys_NoDup.
      - apply dict_set_values_ok; [assumption | exact (IHv _ _ _ Ev)]. }
    destruct (is_char c3 ",").
    { exact (IHm _ _ _ _ H Hacc'). }
    destruct (is_char c3 "}"); [|discriminate].
    injection H as <- _. exact Hacc'.
Qed.

(** [json.dumps] has a form for whatever [json.loads] returned. *)
Lemma loads_json_ok (text : string) (v : pyval) :
  Json.loads text = Ok v -> json_ok v = true.
Proof.
  unfold loads.
  destruct (parse_value _ _) as [[v' r]|] eqn:E; [|discriminate].
  destruct (skip_ws r); [|discriminate]. intros [= <-].
  exact (proj1 (parse_json_ok _) _ _ _ E).
Qed.

Lemma values_json_ok (d : pydict) (k : string) (v : pyval) :
  forallb (fun kx => json_ok (snd kx)) d = true ->
  dict_lookup d k = Some v -> json_ok v = true.
Proof.
  induction d as [|[k' v'] d IH]; [discriminate|]. simpl.
  intros H. apply andb_true_iff in H. destruct H as (H1 & H2).
  destruct (String.eqb k' k); [intros [= <-]; exact H1 | now apply IH].
Qed.

Lemma as_itinerary_Some (v it : pyval) :
  TravelPlan.as_itinerary v = Some it -> it = v /\ TravelPlan.as_itinerary it = Some it.
Proof.
  intros H. assert (E : it = v).
  { destruct v; simpl in H; try discriminate; try (now injection H).
    destruct (forallb TravelPlan.is_dict l); [now injection H | discriminate]. }
  subst it. auto.
Qed.

Lemma guard_lookup_itinerary (requirements : TripRequirements.t) (data : pydict) :
  dict_lookup (guard requirements data) "itinerary" = dict_lookup data "itinerary".
Proof.
  unfold guard.
  destruct (truthy (dict_get data "hotels"));
    destruct (truthy (dict_get _ "flights"));
    rewrite ?dict_lookup_set_ne by discriminate; reflexivity.
Qed.

(** The itinerary of the plan that [planner] returns. *)
Lemma planner_itinerary (requirements : TripRequirements.t) (result_text : string) :
  json_ok (TravelPlan.itinerary (planner requirements result_text)) = true
  /\ TravelPlan.as_itinerary (TravelPlan.itinerary (planner requirements result_text))
     = Some (TravelPlan.itinerary (planner requirements result_text)).
Proof.
  unfold planner.
  destruct (try_block requirements result_text) as [plan|e] eqn:E;
    [|split; reflexivity].
  unfold try_block in E. fold (planner_raw result_text) in E.
  apply bind_Ok in E. destruct E as (first & _ & E).
  apply bind_Ok in E. destruct E as (first' & _ & E).
  apply bind_Ok in E. destruct E as (adapted & _ & E).
  apply bind_Ok in E. destruct E as (v & Hv & E).
  apply bind_Ok in E. destruct E as (data & Hdata & E).
  destruct v; try discriminate. injection Hdata as ->.
  unfold loads_braces in Hv. apply loads_json_ok, json_ok_dict in Hv.
  destruct Hv as (_ & Hvals).
  unfold TravelPlan.new in E. cbv zeta in E.
  apply bind_Ok in E. destruct E as (it & Hit & E).
  binds_inv. injection E as <-. cbn [TravelPlan.itinerary].
  unfold field_default in Hit. rewrite guard_lookup_itinerary in Hit.
  destruct (dict_lookup data "itinerary") as [v|] eqn:El.
  - apply ok_or_Ok in Hit. apply as_itinerary_Some in Hit. destruct Hit as (-> & Hit).
    split; [exact (values_json_ok _ _ _ Hvals El) | exact Hit].
  - injection Hit as <-. split; reflexivity.
Qed.

(** X22. Whatever the model answered, the plan that [planner] returns can
    be stored and comes back: [from_travel_plan] does not raise on it, and
    [to_travel_plan] of the stored model is a plan with the same itinerary,
    hotels, flights and daily budget, the total being what
    [from_travel_plan] stores for it. *)
Theorem planner_plan_round_trip (requirements : TripRequirements.t)
  (result_text : string) (trip_id version : Z) :
  (exists m, TripPlanModel.from_travel_plan (planner requirements result_text)
               trip_id version = Ok m)
  /\ round_trip (planner requirements result_text) trip_id version
     = Ok (TravelPlan.mk
             (TravelPlan.itinerary (planner requirements result_text))
             (TravelPlan.hotels (planner requirements result_text))
             (TravelPlan.flights (planner requirements result_text))
             (TravelPlan.daily_budget (planner requirements result_text))
             (Some (total_or_zero
                      (TravelPlan.total_estimated_cost
                         (planner requirements result_text))))).
Proof.
  destruct (planner_itinerary requirements result_text) as (Hok & Hit).
  split.
  - destruct (from_travel_plan_Ok _ trip_id version Hok) as (ij & hj & fj & H). eauto.
  - now apply round_trip_plan.
Qed.

(** ** The run of [plan_trip] *)

Import CrewAIPlanning.

Lemma chat_new_user (user_id : Z) (user_input : string) :
  ChatHistory.new [("trip_id", PNone); ("user_id", PInt user_id);
                   ("role", PStr "user"); ("phase", PStr phase);
                   ("content", PStr user_input)]
  = Ok (user_message user_id user_input).
Proof. reflexivity. Qed.

Lemma chat_new_assistant (trip_id user_id : Z) :
  ChatHistory.new [("trip_id", PInt trip_id); ("user_id", PInt user_id);
                   ("role", PStr "assistant"); ("phase", PStr phase);
                   ("content", PStr "Trip plan generated and optimized")]
  = Ok (assistant_message trip_id user_id).
Proof. reflexivity. Qed.

Lemma info_collector_raise (result_text : string) (e : exn) :
  info_collector result_text = Raise e -> exists msg, e = ValidationError msg.
Proof.
  unfold info_collector. fold (info_raw result_text).
  destruct (loads_braces (info_raw result_text)) as [v|e'] eqn:E.
  - destruct (loads_braces_dict _ _ E) as [data ->]. apply requirements_new_raise.
  - intros H. vm_compute in H. discriminate.
Qed.

Lemma field_required_raise {A : Type} (values : pydict) (key : string)
  (coerce : pyval -> option A) (e : exn) :
  field_required values key coerce = Raise e -> exists msg, e = ValidationError msg.
Proof.
  destruct (field_required_cases values key coerce) as [[a ->] | ->];
    [discriminate | intros [= <-]; eauto].
Qed.

Lemma validator_raise {A : Type} (r : result A) (e : exn) :
  validator r = Raise e ->
  (forall e', r = Raise e' -> exists msg, e' = ValueError msg \/ e' = ValidationError msg) ->
  exists msg, e = ValidationError msg.
Proof.
  intros H Hr. destruct r as [a|e']; [discriminate|].
  destruct (Hr e' eq_refl) as [msg [-> | ->]]; simpl in H; injection H as <-; eauto.
Qed.

(** The construction of a trip whose accommodation type is given as a
    string raises nothing but a validation error. *)
Lemma trip_new_raise (today : date) (values : pydict) (a : string) (e : exn) :
  dict_lookup values "accommodation_type" = Some (PStr a) ->
  Trip.new today values = Raise e -> exists msg, e = ValidationError msg.
Proof.
  intros Ha H. unfold Trip.new in H. cbv zeta in H. rewrite Ha in H.
  repeat match type of H with
    | (_ ≫= _) = Raise _ =>
        apply bind_Raise in H; destruct H as [H | (? & _ & H)]
    end;
    try discriminate H;
    try (now apply field_default_raise in H);
    try (now apply field_required_raise in H).
  - apply validator_raise in H; [exact H|]. intros e'. unfold Trip.validate_future_date.
    destruct (mjoin _); [discriminate|].
    destruct (date_leb _ today); [intros [= <-]; eauto | discriminate].
  - apply validator_raise in H; [exact H|]. intros e'. unfold Trip.validate_dates.
    destruct (validated _); [|discriminate].
    destruct (date_leb _ _); [intros [= <-]; eauto | discriminate].
  - cbn [Trip.normalize_accommodation_value mbind result_bind] in H.
    now apply ok_or_invalid_raise in H.
  - unfold Trip.at_least in H. destruct (_ <=? _); [discriminate|].
    injection H as <-. unfold invalid. eauto.
  - unfold Trip.at_least in H. destruct (_ <=? _); [discriminate|].
    injection H as <-. unfold invalid. eauto.
  - unfold Trip.non_negative in H. destruct (_ <=? _); [discriminate|].
    injection H as <-. unfold invalid. eauto.
Qed.

(** What the trip built of complete requirements holds. *)
Lemma requirements_trip_fields (today : date) (r : TripRequirements.t)
  (user_id : Z) (ph title : string) (d : pydict) (t : Trip.t) :
  TripRequirements.to_trip_dict r user_id ph title = Ok d ->
  Trip.new today d = Ok t ->
  Trip.user_id t = user_id
  /\ Trip.phase t = ph
  /\ Trip.title t = title
  /\ Trip.trip_status t = "draft"
  /\ TripRequirements.origin r = Some (Trip.origin t)
  /\ TripRequirements.destination r = Some (Trip.destination t)
  /\ TripRequirements.trip_startdate r = Some (Trip.trip_startdate t)
  /\ TripRequirements.trip_enddate r = Some (Trip.trip_enddate t)
  /\ date_ltb today (Trip.trip_startdate t) = true
  /\ date_ltb (Trip.trip_startdate t) (Trip.trip_enddate t) = true.
Proof.
  unfold TripRequirements.to_trip_dict.
  destruct (TripRequirements.is_complete r); [|discriminate].
  intros [= <-] H.
  destruct (trip_new_dates _ _ _ H) as (Hs & He & Hlt).
  unfold Trip.new in H. cbv zeta in H. binds_inv. injection H as <-.
  cbn [Trip.user_id Trip.phase Trip.title Trip.trip_status Trip.origin
       Trip.destination Trip.trip_startdate Trip.trip_enddate] in *.
  unfold field_required, field_default in *.
  cbn [dict_lookup String.eqb Ascii.eqb Bool.eqb] in *.
  injection Ha as <-. cbn [validated mjoin option_join] in Ha5.
  injection Ha0 as <-. injection Ha2 as <-.
  repeat match goal with
    | Hl : ok_or (as_literal _ (PStr _)) _ = Ok _ |- _ =>
        apply ok_or_Ok, as_literal_In in Hl; destruct Hl as [[= ->] _]
    end.
  destruct (TripRequirements.origin r) as [o|]; [|discriminate Ha3].
  injection Ha3 as <-.
  destruct (TripRequirements.destination r) as [o'|]; [|discriminate Ha4].
  injection Ha4 as <-.
  destruct (TripRequirements.trip_startdate r) as [sd|]; [|discriminate Ha22].
  injection Ha22 as <-. injection Hs as <-.
  destruct (TripRequirements.trip_enddate r) as [ed|]; [|discriminate Ha21].
  injection He as <-.
  apply validator_Ok in Ha5. unfold Trip.validate_future_date in Ha5.
  destruct (date_leb sd today) eqn:Et; [discriminate|].
  repeat split; auto using date_leb_ltb.
Qed.

(** The outcomes of [plan_trip]. *)
Lemma plan_trip_cases (w : table_values) (llm : model_answers) (today : date)
  (s : store) (user_input : string) (user_id : Z) (trip_title : string) :
  let logged :=
    mk_store (tables s)
      (<[chat_rowid w := user_message user_id user_input]> (chat_history s)) in
  (exists msg,
     sqlite_int user_id = false
     /\ plan_trip w llm today s user_input user_id trip_title
        = (s, Raise (OverflowError msg)))
  \/ (exists e msg,
        sqlite_int user_id = true
        /\ plan_trip w llm today s user_input user_id trip_title = (logged, Raise e)
        /\ (e = ValidationError msg \/ e = OverflowError msg))
  \/ (exists missing message,
        sqlite_int user_id = true
        /\ plan_trip w llm today s user_input user_id trip_title
           = (logged, Ok (incomplete missing message)))
  \/ (exists requirements trip model plan optimization,
        plan_trip w llm today s user_input user_id trip_title
        = (mk_store
             (mk_db (<[trip_rowid w := trip]> (trips (tables s)))
                    (<[plan_rowid w := plan_row model (plan_generated_at w)
                                         (plan_updated_at w)]>
                       (trip_plans (tables s))))
             (<[reply_rowid w := assistant_message (trip_rowid w) user_id]>
                (<[chat_rowid w := user_message user_id user_input]>
                   (chat_history s))),
           Ok [("success", PBool true);
               ("status", PStr "OPTIMIZED");
               ("trip_id", PInt (trip_rowid w));
               ("message", PStr "Trip planned successfully");
               ("requirements", PDict (TripRequirements.dict requirements));
               ("plan", PDict (TravelPlan.dict plan));
               ("optimization", PDict (OptimizationResult.dict optimization))])
        /\ sqlite_int user_id = true
        /\ sqlite_int (Trip.no_of_adults trip) = true
        /\ sqlite_int (Trip.no_of_children trip) = true
        /\ Trip.user_id trip = user_id
        /\ Trip.phase trip = phase
        /\ Trip.title trip = trip_title
        /\ Trip.trip_status trip = "draft"
        /\ TripRequirements.origin requirements = Some (Trip.origin trip)
        /\ TripRequirements.destination requirements = Some (Trip.destination trip)
        /\ TripRequirements.trip_startdate requirements = Some (Trip.trip_startdate trip)
        /\ TripRequirements.trip_enddate requirements = Some (Trip.trip_enddate trip)
        /\ date_ltb today (Trip.trip_startdate trip) = true
        /\ date_ltb (Trip.trip_startdate trip) (Trip.trip_enddate trip) = true
        /\ TripPlanModel.trip_id model = trip_rowid w
        /\ TripPlanModel.version model = 1
        /\ TripPlanModel.status model = "draft").
Proof.
  intros logged. unfold plan_trip. rewrite chat_new_user.
  unfold bind_ints. cbn [user_message ChatHistory.user_id].
  change (forallb sqlite_int [user_id]) with (sqlite_int user_id && true).
  rewrite andb_true_r.
  destruct (sqlite_int user_id) eqn:Eu; [|left; eauto].
  right.
  cbn [save_chat_message fst tables chat_history]. fold logged.
  destruct (info_collector _) as [requirements|e] eqn:Ei.
  2:{ left. destruct (info_collector_raise _ _ Ei) as [msg ->].
      exists (ValidationError msg), msg. auto. }
  destruct (negb (forallb truthy _)); [right; left; eauto|].
  destruct (negb (TripRequirements.is_complete requirements)) eqn:Ec;
    [right; left; eauto|].
  destruct (match TripRequirements.trip_startdate requirements with
            | Some start => date_leb start today | None => false end);
    [right; left; eauto|].
  destruct (TripRequirements.to_trip_dict requirements user_id phase trip_title)
    as [trip_data|e] eqn:Ed.
  2:{ unfold TripRequirements.to_trip_dict in Ed.
      apply negb_false_iff in Ec. rewrite Ec in Ed. discriminate. }
  destruct (Trip.new today trip_data) as [trip|e] eqn:Et.
  2:{ left. assert (Ha : dict_lookup trip_data "accommodation_type"
                         = Some (PStr (TripRequirements.accommodation_type requirements))).
      { unfold TripRequirements.to_trip_dict in Ed.
        destruct (TripRequirements.is_complete requirements); [|discriminate].
        injection Ed as <-. reflexivity. }
      destruct (trip_new_raise _ _ _ _ Ha Et) as [msg ->].
      exists (ValidationError msg), msg. auto. }
  destruct (requirements_trip_fields _ _ _ _ _ _ _ Ed Et)
    as (Hu & Hp & Hti & Hst & Ho & Hde & Hsd & Hed & Hfut & Hlt).
  cbn [forallb]. rewrite andb_true_r, Hu, Eu. cbn [andb].
  destruct (sqlite_int (Trip.no_of_adults trip)) eqn:Ea; cbn [andb];
    [|left; eexists (OverflowError _), _; auto].
  destruct (sqlite_int (Trip.no_of_children trip)) eqn:Ech;
    [|left; eexists (OverflowError _), _; auto].
  right; right.
  cbn [create_trip update_trip_status trips trip_plans tables].
  set (plan := planner requirements (plan_answer llm requirements)).
  destruct (planner_itinerary requirements (plan_answer llm requirements))
    as (Hok & Hit). fold plan in Hok, Hit.
  destruct (from_travel_plan_Ok plan (trip_rowid w) 1 Hok) as (ij & hj & fj & Hm).
  unfold save_travel_plan_to_db. rewrite Hm. cbn [mbind result_bind create_trip_plan].
  rewrite chat_new_assistant.
  cbn [save_chat_message fst tables chat_history trips trip_plans].
  exists requirements,
    (set_trip_status "draft"
       (trip_row trip (trip_created_at w) (trip_updated_at w))),
    (TripPlanModel.mk None (trip_rowid w) (Some ij) (Some hj) (Some fj)
       (TravelPlan.daily_budget plan)
       (total_or_zero (TravelPlan.total_estimated_cost plan)) None None "draft" 1 None),
    plan, (optimizer (optimize_answer llm plan)).
  split.
  { unfold update_trip_status. cbn [trips trip_plans].
    rewrite alter_insert_eq. reflexivity. }
  cbn [set_trip_status trip_row Trip.user_id Trip.phase Trip.title Trip.trip_status
       Trip.origin Trip.destination Trip.trip_startdate Trip.trip_enddate
       Trip.no_of_adults Trip.no_of_children
       TripPlanModel.trip_id TripPlanModel.version TripPlanModel.status].
  repeat split; assumption || reflexivity.
Qed.

(** X23. [plan_trip] raises nothing but a validation error or the
    [OverflowError] of an integer that SQLite does not bind, and when it
    raises or answers without success, it answers "INCOMPLETE" and has
    written no trip and no plan: the tables hold what they held, and the
    chat history has gained the message of the user and nothing else, or
    nothing when it is the user id that does not bind. *)
Theorem plan_trip_stops_before_writing (w : table_values) (llm : model_answers)
  (today : date) (s : store) (user_input : string) (user_id : Z)
  (trip_title : string) :
  match plan_trip w llm today s user_input user_id trip_title with
  | (s', Raise e) =>
      ((exists msg, e = ValidationError msg) \/ (exists msg, e = OverflowError msg))
      /\ tables s' = tables s
      /\ chat_history s'
         = (if sqlite_int user_id
            then <[chat_rowid w := user_message user_id user_input]> (chat_history s)
            else chat_history s)
  | (s', Ok body) =>
      dict_get body "success" = PBool true
      \/ (dict_get body "success" = PBool false
          /\ dict_get body "status" = PStr "INCOMPLETE"
          /\ tables s' = tables s
          /\ chat_history s'
             = <[chat_rowid w := user_message user_id user_input]> (chat_history s))
  end.
Proof.
  destruct (plan_trip_cases w llm today s user_input user_id trip_title)
    as [(msg & Eu & ->) | [(e & msg & Eu & -> & He) | [(missing & message & Eu & ->) | H]]].
  - rewrite Eu. eauto.
  - rewrite Eu. cbn [tables chat_history]. destruct He as [-> | ->]; eauto.
  - right. cbn [tables chat_history]. repeat split; reflexivity.
  - destruct H as (requirements & trip & model & plan & optimization & -> & _).
    left. reflexivity.
Qed.

(** An answer without JSON leaves the requirements incomplete: the message
    is logged and nothing else is written; a negative number of adults is
    refused by [Trip] after the message is logged; and a user id of 64 bits
    and more is not bound. *)
Lemma plan_trip_stops_before_writing_witness :
  (exists s' body,
     plan_trip first_keys silent_answers (Date 2026 11 5) empty_store
       "Goa in March" 7 "My Trip" = (s', Ok body)
     /\ dict_get body "success" = PBool false
     /\ dict_get body "status" = PStr "INCOMPLETE"
     /\ tables s' = tables empty_store
     /\ chat_history s' = <[1 := user_message 7 "Goa in March"]> ∅)
  /\ (exists s' msg,
        plan_trip first_keys negative_answers (Date 2026 11 5) empty_store
          "Plan a trip from Bangalore to Goa" 7 "My Trip"
        = (s', Raise (ValidationError msg))
        /\ tables s' = tables empty_store
        /\ chat_history s'
           = <[1 := user_message 7 "Plan a trip from Bangalore to Goa"]> ∅)
  /\ (exists s' msg,
        plan_trip first_keys goa_answers (Date 2026 11 5) empty_store
          "Plan a trip from Bangalore to Goa" (2 ^ 63) "My Trip"
        = (s', Raise (OverflowError msg))
        /\ tables s' = tables empty_store
        /\ chat_history s' = ∅).
Proof.
  split.
  - pose proof (plan_trip_stops_before_writing first_keys silent_answers
                  (Date 2026 11 5) empty_store "Goa in March" 7 "My Trip") as H.
    destruct (plan_trip first_keys silent_answers (Date 2026 11 5) empty_store
                "Goa in March" 7 "My Trip") as [s' [body|e]] eqn:E;
      [|vm_compute in E; discriminate E].
    assert (Hs : dict_get body "success" = PBool false).
    { vm_compute in E. injection E as _ <-. reflexivity. }
    destruct H as [H | (_ & Hst & Ht & Hc)]; [rewrite Hs in H; discriminate H|].
    exists s', body. repeat split; assumption.
  - split.
    + pose proof (plan_trip_stops_before_writing first_keys negative_answers
                    (Date 2026 11 5) empty_store "Plan a trip from Bangalore to Goa"
                    7 "My Trip") as H.
      destruct (plan_trip first_keys negative_answers (Date 2026 11 5) empty_store
                  "Plan a trip from Bangalore to Goa" 7 "My Trip")
        as [s' [body|e]] eqn:E; [vm_compute in E; discriminate E|].
      destruct H as (_ & Ht & Hc).
      assert (He : exists msg, e = ValidationError msg).
      { vm_compute in E. injection E as _ <-. eauto. }
      destruct He as [msg ->]. exists s', msg. repeat split; assumption.
    + pose proof (plan_trip_stops_before_writing first_keys goa_answers
                    (Date 2026 11 5) empty_store "Plan a trip from Bangalore to Goa"
                    (2 ^ 63) "My Trip") as H.
      destruct (plan_trip first_keys goa_answers (Date 2026 11 5) empty_store
                  "Plan a trip from Bangalore to Goa" (2 ^ 63) "My Trip")
        as [s' [body|e]] eqn:E; [vm_compute in E; discriminate E|].
      destruct H as (_ & Ht & Hc).
      assert (He : exists msg, e = OverflowError msg).
      { vm_compute in E. injection E as _ <-. eauto. }
      destruct He as [msg ->]. exists s', msg. repeat split; assumption.
Defined.

(** X24. When [plan_trip] answers with success, it has written one trip,
    one plan and the two messages, and its answer names them: the trip is
    stored under the [trip_id] of the answer as a draft of this user and
    phase, with the places and the dates of the requirements in the answer,
    starting after today and ending after it starts, its counts and the
    user id being integers of 64 bits; the plan is stored as the draft of
    version 1 of that trip. *)
Theorem plan_trip_success (w : table_values) (llm : model_answers)
  (today : date) (s s' : store) (user_input : string) (user_id : Z)
  (trip_title : string) (body : pydict) :
  plan_trip w llm today s user_input user_id trip_title = (s', Ok body) ->
  dict_get body "success" = PBool true ->
  exists requirements trip row plan,
    dict_get body "trip_id" = PInt (trip_rowid w)
    /\ dict_get body "requirements" = PDict (TripRequirements.dict requirements)
    /\ dict_get body "plan" = PDict (TravelPlan.dict plan)
    /\ trips (tables s') = <[trip_rowid w := trip]> (trips (tables s))
    /\ trip_plans (tables s') = <[plan_rowid w := row]> (trip_plans (tables s))
    /\ chat_history s'
       = <[reply_rowid w := assistant_message (trip_rowid w) user_id]>
           (<[chat_rowid w := user_message user_id user_input]> (chat_history s))
    /\ sqlite_int user_id = true
    /\ sqlite_int (Trip.no_of_adults trip) = true
    /\ sqlite_int (Trip.no_of_children trip) = true
    /\ Trip.user_id trip = user_id
    /\ Trip.phase trip = phase
    /\ Trip.title trip = trip_title
    /\ Trip.trip_status trip = "draft"
    /\ TripRequirements.origin requirements = Some (Trip.origin trip)
    /\ TripRequirements.destination requirements = Some (Trip.destination trip)
    /\ TripRequirements.trip_startdate requirements = Some (Trip.trip_startdate trip)
    /\ TripRequirements.trip_enddate requirements = Some (Trip.trip_enddate trip)
    /\ date_ltb today (Trip.trip_startdate trip) = true
    /\ date_ltb (Trip.trip_startdate trip) (Trip.trip_enddate trip) = true
    /\ TripPlanModel.trip_id row = trip_rowid w
    /\ TripPlanModel.version row = 1
    /\ TripPlanModel.status row = "draft".
Proof.
  intros Hrun Hsuccess.
  destruct (plan_trip_cases w llm today s user_input user_id trip_title)
    as [(msg & _ & H) | [(e & msg & _ & H & _) | [(missing & message & _ & H) | H]]].
  - rewrite H in Hrun. discriminate.
  - rewrite H in Hrun. discriminate.
  - rewrite H in Hrun. injection Hrun as <- <-. discriminate.
  - destruct H as (requirements & trip & model & plan & optimization & H & Hrest).
    rewrite H in Hrun. injection Hrun as <- <-.
    exists requirements, trip,
      (plan_row model (plan_generated_at w) (plan_updated_at w)), plan.
    cbn [tables trips trip_plans chat_history plan_row TripPlanModel.trip_id
         TripPlanModel.version TripPlanModel.status].
    do 6 (split; [reflexivity|]). exact Hrest.
Qed.

Lemma plan_trip_success_witness :
  exists s' body,
    plan_trip first_keys goa_answers (Date 2026 11 5) empty_store
      "Plan a trip from Bangalore to Goa" 7 "My Trip" = (s', Ok body)
    /\ dict_get body "success" = PBool true
    /\ exists requirements trip row plan,
         dict_get body "trip_id" = PInt (trip_rowid first_keys)
         /\ dict_get body "requirements" = PDict (TripRequirements.dict requirements)
         /\ dict_get body "plan" = PDict (TravelPlan.dict plan)
         /\ trips (tables s') = <[trip_rowid first_keys := trip]> (trips (tables empty_store))
         /\ trip_plans (tables s')
            = <[plan_rowid first_keys := row]> (trip_plans (tables empty_store))
         /\ chat_history s'
            = <[reply_rowid first_keys := assistant_message (trip_rowid first_keys) 7]>
                (<[chat_rowid first_keys
                   := user_message 7 "Plan a trip from Bangalore to Goa"]>
                   (chat_history empty_store))
         /\ sqlite_int 7 = true
         /\ sqlite_int (Trip.no_of_adults trip) = true
         /\ sqlite_int (Trip.no_of_children trip) = true
         /\ Trip.user_id trip = 7
         /\ Trip.phase trip = phase
         /\ Trip.title trip = "My Trip"
         /\ Trip.trip_status trip = "draft"
         /\ TripRequirements.origin requirements = Some (Trip.origin trip)
         /\ TripRequirements.destination requirements = Some (Trip.destination trip)
         /\ TripRequirements.trip_startdate requirements = Some (Trip.trip_startdate trip)
         /\ TripRequirements.trip_enddate requirements = Some (Trip.trip_enddate trip)
         /\ date_ltb (Date 2026 11 5) (Trip.trip_startdate trip) = true
         /\ date_ltb (Trip.trip_startdate trip) (Trip.trip_enddate trip) = true
         /\ TripPlanModel.trip_id row = trip_rowid first_keys
         /\ TripPlanModel.version row = 1
         /\ TripPlanModel.status row = "draft".
Proof.
  destruct (plan_trip first_keys goa_answers (Date 2026 11 5) empty_store
              "Plan a trip from Bangalore to Goa" 7 "My Trip") as [s' [body|e]] eqn:E;
    [|vm_compute in E; discriminate E].
  assert (Hs : dict_get body "success" = PBool true).
  { vm_compute in E. injection E as _ <-. reflexivity. }
  exists s', body. split; [reflexivity|]. split; [exact Hs|].
  exact (plan_trip_success _ _ _ _ _ _ _ _ _ E Hs).
Defined.

(** ** The context of the extraction *)

Lemma insert_by_id_desc_In {A : Type} (x y : Z * A) (l : list (Z * A)) :
  In y (insert_by_id_desc x l) -> y = x \/ In y l.
Proof.
  induction l as [|z l IH]; simpl.
  - intros [<- | []]. now left.
  - destruct (fst z <=? fst x); simpl.
    + intros [<- | H]; [now left | now right].
    + intros [<- | H]; [right; now left|].
      destruct (IH H) as [-> | H']; [now left | right; now right].
Qed.

Lemma order_by_id_desc_In {A : Type} (y : Z * A) (l : list (Z * A)) :
  In y (order_by_id_desc l) -> In y l.
Proof.
  induction l as [|x l IH]; simpl; [tauto|].
  intros H. apply insert_by_id_desc_In in H. destruct H as [-> | H]; auto.
Qed.

(** The row of the greatest key is the first of the ordered rows. *)
Lemma order_by_id_desc_head {A : Type} (x : Z * A) (l : list (Z * A)) :
  In x l -> (forall y, In y l -> fst y < fst x \/ y = x) ->
  exists rest, order_by_id_desc l = x :: rest.
Proof.
  induction l as [|a l IH]; [intros []|].
  intros Hin Hmax. cbn [order_by_id_desc fold_right].
  fold (order_by_id_desc l).
  assert (Hle : forall y, In y (order_by_id_desc l) -> fst y <= fst x).
  { intros y Hy. apply order_by_id_desc_In in Hy.
    destruct (Hmax y (or_intror Hy)) as [Hlt | ->]; lia. }
  destruct (Hmax a (or_introl eq_refl)) as [Hlt | ->].
  - destruct Hin as [-> | Hin]; [lia|].
    destruct (IH Hin) as [rest Hrest].
    { intros y Hy. apply Hmax. now right. }
    rewrite Hrest. cbn [insert_by_id_desc].
    destruct (fst x <=? fst a) eqn:El; [lia | eauto].
  - destruct (order_by_id_desc l) as [|z r] eqn:E; cbn [insert_by_id_desc]; [eauto|].
    assert (fst z <= fst x) by (apply Hle; now left).
    destruct (fst z <=? fst x) eqn:El; [eauto | lia].
Qed.

(** X25. [plan_trip] saves the message of the user before it builds the
    context, so that an input without trigger word stands twice at the end
    of the context: once as the latest message of the history, the key of
    the new row being above the others, and once as the line
    [_build_context] adds; before them stand at most five lines. *)
Theorem build_context_repeats_input (s : store) (msg : ChatHistory.t)
  (lastrowid : Z) :
  (forall id r, chat_history s !! id = Some r -> id < lastrowid) ->
  ChatHistory.role msg = "user" ->
  existsb (fun w => contains (lower (ChatHistory.content msg)) w) trigger_words
  = false ->
  exists earlier,
    (length earlier <= 5)%nat
    /\ _build_context (fst (save_chat_message s msg lastrowid))
         (ChatHistory.user_id msg) (ChatHistory.content msg)
       = join newline (earlier ++ ["User: " +:+ ChatHistory.content msg;
                                   "User: " +:+ ChatHistory.content msg]).
Proof.
  intros Hkeys Hrole Hno. unfold _build_context. rewrite Hno.
  unfold get_recent_chat_by_user. cbn [save_chat_message fst chat_history].
  set (rows := List.filter _ _).
  destruct (order_by_id_desc_head (lastrowid, chat_row msg) rows) as [rest Hrest].
  - apply filter_In. split; [|apply Z.eqb_refl].
    apply list_elem_of_In, elem_of_map_to_list, lookup_insert_eq.
  - intros [id r] Hy. apply filter_In in Hy. destruct Hy as [Hy _].
    apply list_elem_of_In, elem_of_map_to_list in Hy. cbn [fst].
    destruct (decide (id = lastrowid)) as [-> | Hne].
    + rewrite lookup_insert_eq in Hy. injection Hy as <-. now right.
    + rewrite lookup_insert_ne in Hy by congruence. left. eauto.
  - rewrite Hrest. unfold sql_limit. change (6 <? 0) with false. cbv iota.
    change (Z.to_nat 6) with 6%nat. cbn [firstn rev].
    exists (map (fun m : string * string =>
                   (if String.eqb (fst m) "user" then "User" else "Assistant")
                   +:+ ": " +:+ snd m)
              (map (fun kr : Z * ChatHistory.t =>
                      (ChatHistory.role (snd kr), ChatHistory.content (snd kr)))
                 (rev (firstn 5 rest)))).
    split.
    + rewrite !length_map, length_rev. apply firstn_le_length.
    + rewrite !map_app. cbn [map fst snd chat_row ChatHistory.role ChatHistory.content].
      rewrite Hrole. cbn [String.eqb Ascii.eqb Bool.eqb].
      rewrite <- app_assoc. reflexivity.
Qed.

Lemma build_context_repeats_input_witness :
  (forall id r, chat_history empty_store !! id = Some r -> id < 1)
  /\ exists earlier,
       (length earlier <= 5)%nat
       /\ _build_context
            (fst (save_chat_message empty_store (user_message 7 "Goa in March") 1))
            7 "Goa in March"
          = join newline (earlier ++ ["User: Goa in March"; "User: Goa in March"]).
Proof.
  assert (H : forall id r, chat_history empty_store !! id = Some r -> id < 1).
  { intros id r Hl. cbn in Hl. rewrite lookup_empty in Hl. discriminate. }
  split; [exact H|].
  exact (build_context_repeats_input empty_store (user_message 7 "Goa in March") 1
           H eq_refl eq_refl).
Defined.
